(** * DQUOTE: feed assembly, likes, follows, posting and verification

    A shallow embedding of the event handlers of the DQUOTE client
    (HomePage, PostCard, UserCard, CreatePage, AdminPage) over a model of
    the Firestore document store they call, with the properties the
    specification states about them.

    Conventions of the model:
    - a Firestore collection is the list of its documents; a query without
      [orderBy] answers in ascending order of document id, and
      [orderBy (f, 'desc')] in descending order of [f] and, among equal
      values, of document id;
    - numbers (counters, timestamps in milliseconds) are integers;
    - what the handler cannot control is read from an environment [Env]:
      the clock, the auto-generated document ids (never an id the
      collection already holds) and whether a remote call is rejected;
    - a rejected remote call has no effect on the store and throws;
    - every document id the application passes was issued by Firestore or
      Firebase Auth, so [doc(db, coll, id)] itself never throws. *)

From Stdlib Require Import List ZArith NArith Ascii String Bool Arith Lia.
From Stdlib Require Import Sorted Permutation DecimalString.
Import ListNotations.
Open Scope string_scope.
Open Scope list_scope.

Set Implicit Arguments.

(** ** JavaScript values *)

Module JS.

(** A JavaScript string is a sequence of UTF-16 code units. *)
Definition code_unit := N.
Definition jsstring := list code_unit.

(** ECMAScript WhiteSpace and LineTerminator code points, the ones
    [String.prototype.trim] strips. *)
Definition isWhiteSpace (c : code_unit) : bool :=
  ((c =? 9) || (c =? 10) || (c =? 11) || (c =? 12) || (c =? 13)
   || (c =? 32) || (c =? 160) || (c =? 5760)
   || ((8192 <=? c) && (c <=? 8202))
   || (c =? 8232) || (c =? 8233) || (c =? 8239) || (c =? 8287)
   || (c =? 12288) || (c =? 65279))%N.

Fixpoint trimStart (s : jsstring) : jsstring :=
  match s with
  | c :: s' => if isWhiteSpace c then trimStart s' else s
  | [] => []
  end.

Definition trimEnd (s : jsstring) : jsstring :=
  rev (trimStart (rev s)).

Definition trim (s : jsstring) : jsstring := trimEnd (trimStart s).

(** Truthiness of a string: the empty string is falsy. *)
Definition truthy (s : jsstring) : bool :=
  match s with [] => false | _ :: _ => true end.

Definition truthy_str (s : string) : bool :=
  match s with EmptyString => false | String _ _ => true end.

(** [s || null] on strings. *)
Definition or_null (s : jsstring) : option jsstring :=
  if truthy s then Some s else None.

(** [n || d] on numbers: zero is falsy. *)
Definition or_num (n d : Z) : Z := if (n =? 0)%Z then d else n.

End JS.

(** ** Documents and queries *)

Definition DocId := string.

Record Doc (D : Type) : Type := mkDoc { doc_id : DocId; doc_data : D }.

Section Queries.
Variable D : Type.

(** The order of an answer.  Firestore sorts by the [orderBy] field and
    then by document id, the ids in the direction of the [orderBy] and
    ascending when the query has none; ids compare as byte strings.  The
    sort is an insertion sort over the "comes first" test of that order. *)
Fixpoint insert_by (first : Doc D -> Doc D -> bool) (x : Doc D)
  (l : list (Doc D)) : list (Doc D) :=
  match l with
  | [] => [x]
  | y :: l' =>
      if first x y then x :: y :: l'
      else y :: insert_by first x l'
  end.

Definition sort_by (first : Doc D -> Doc D -> bool) (l : list (Doc D))
  : list (Doc D) :=
  fold_right (insert_by first) [] l.

(** Ascending document id: the order of a query without [orderBy]. *)
Definition id_first (x y : Doc D) : bool :=
  String.leb (doc_id x) (doc_id y).

Definition sort_id (l : list (Doc D)) : list (Doc D) := sort_by id_first l.

(** [orderBy(field, 'desc')]: descending field, then descending id. *)
Definition desc_first (key : Doc D -> Z) (x y : Doc D) : bool :=
  (key y <? key x)%Z
  || ((key y =? key x)%Z && String.leb (doc_id y) (doc_id x)).

Definition sort_desc (key : Doc D -> Z) (l : list (Doc D)) : list (Doc D) :=
  sort_by (desc_first key) l.

(** A query: the conjunction of its [where] clauses, an optional
    descending [orderBy] and an optional [limit]. *)
Record Query : Type := mkQuery {
  q_where : list (D -> bool);
  q_orderByDesc : option (D -> Z);
  q_limit : option nat }.

Definition matches (q : Query) (d : Doc D) : bool :=
  forallb (fun p => p (doc_data d)) (q_where q).

Definition run_query (q : Query) (docs : list (Doc D)) : list (Doc D) :=
  let matched := filter (matches q) docs in
  let ordered :=
    match q_orderByDesc q with
    | Some f => sort_desc (fun d => f (doc_data d)) matched
    | None => sort_id matched
    end in
  match q_limit q with
  | Some n => firstn n ordered
  | None => ordered
  end.

(** Writes on a collection. *)
Definition has_doc (id : DocId) (docs : list (Doc D)) : bool :=
  existsb (fun d => String.eqb (doc_id d) id) docs.

Definition update_doc (id : DocId) (f : D -> D) (docs : list (Doc D))
  : list (Doc D) :=
  map (fun d => if String.eqb (doc_id d) id
                then mkDoc (doc_id d) (f (doc_data d)) else d) docs.

Definition delete_doc (id : DocId) (docs : list (Doc D)) : list (Doc D) :=
  filter (fun d => negb (String.eqb (doc_id d) id)) docs.

Definition set_doc (id : DocId) (data : D) (docs : list (Doc D))
  : list (Doc D) :=
  if has_doc id docs then update_doc id (fun _ => data) docs
  else docs ++ [mkDoc id data].

Definition get_doc (id : DocId) (docs : list (Doc D)) : option D :=
  option_map (@doc_data D)
    (find (fun d => String.eqb (doc_id d) id) docs).

End Queries.

Arguments mkQuery {D} _ _ _.

(** ** Data model: the five collections *)

(** [posts], as written by CreatePage. *)
Record PostData : Type := mkPostData {
  p_userId : string;
  p_username : string;
  p_displayName : string;
  p_text : JS.jsstring;
  p_imageUrl : option JS.jsstring;
  p_createdAt : Z;
  p_likeCount : Z;
  p_commentCount : Z;
  p_isPublic : bool }.

(** [likes], as written by PostCard. *)
Record LikeData : Type := mkLikeData {
  l_postId : DocId;
  l_userId : string;
  l_createdAt : Z }.

(** [follows], as written by UserCard. *)
Record FollowData : Type := mkFollowData {
  f_followerId : string;
  f_followingId : string;
  f_createdAt : Z }.

(** [users], as written at sign-up. *)
Record UserData : Type := mkUserData {
  u_uid : string;
  u_email : string;
  u_username : string;
  u_displayName : string;
  u_isPrivate : bool;
  u_isVerified : bool;
  u_createdAt : Z;
  u_followerCount : Z;
  u_followingCount : Z;
  u_postCount : Z;
  u_likeCount : Z;
  u_isBlocked : bool }.

Inductive Decision : Type := approved | rejected.

Inductive Status : Type := pending | decided (d : Decision).

(** [verificationRequests]. *)
Record RequestData : Type := mkRequestData {
  r_userId : string;
  r_username : string;
  r_displayName : string;
  r_status : Status;
  r_createdAt : Z;
  r_reviewedAt : option Z;
  r_reviewedBy : option string }.

(** ** The world a handler runs in *)

(** A remote call issued to Firestore. *)
Inductive Call : Type :=
| CGetDocs (coll : string)
| CSetDoc (coll : string) (id : DocId)
| CUpdateDoc (coll : string) (id : DocId)
| CDeleteDoc (coll : string) (id : DocId).

Inductive Variant : Type := vDefault | vDestructive.

(** What the handlers do to the user interface outside their own
    component state. *)
Inductive UiEvent : Type :=
| Toast (title description : string) (variant : Variant)
| ConsoleError (message : string)
| Navigate (path : string).

Record World : Type := mkWorld {
  posts : list (Doc PostData);
  likes : list (Doc LikeData);
  follows : list (Doc FollowData);
  users : list (Doc UserData);
  verificationRequests : list (Doc RequestData);
  tick : nat;               (* environment interactions so far *)
  calls : list Call;        (* remote calls issued, oldest first *)
  ui : list UiEvent }.      (* notices and navigation, oldest first *)

Definition with_posts (x : list (Doc PostData)) (w : World) : World :=
  mkWorld x (likes w) (follows w) (users w) (verificationRequests w)
          (tick w) (calls w) (ui w).
Definition with_likes (x : list (Doc LikeData)) (w : World) : World :=
  mkWorld (posts w) x (follows w) (users w) (verificationRequests w)
          (tick w) (calls w) (ui w).
Definition with_follows (x : list (Doc FollowData)) (w : World) : World :=
  mkWorld (posts w) (likes w) x (users w) (verificationRequests w)
          (tick w) (calls w) (ui w).
Definition with_users (x : list (Doc UserData)) (w : World) : World :=
  mkWorld (posts w) (likes w) (follows w) x (verificationRequests w)
          (tick w) (calls w) (ui w).
Definition with_verificationRequests (x : list (Doc RequestData)) (w : World)
  : World :=
  mkWorld (posts w) (likes w) (follows w) (users w) x
          (tick w) (calls w) (ui w).
Definition with_tick (x : nat) (w : World) : World :=
  mkWorld (posts w) (likes w) (follows w) (users w) (verificationRequests w)
          x (calls w) (ui w).
Definition with_calls (x : list Call) (w : World) : World :=
  mkWorld (posts w) (likes w) (follows w) (users w) (verificationRequests w)
          (tick w) x (ui w).
Definition with_ui (x : list UiEvent) (w : World) : World :=
  mkWorld (posts w) (likes w) (follows w) (users w) (verificationRequests w)
          (tick w) (calls w) x.

(** A collection handle, [collection(db, name)]. *)
Record Collection (D : Type) : Type := mkCollection {
  c_name : string;
  c_get : World -> list (Doc D);
  c_set : list (Doc D) -> World -> World }.

Definition posts_c := mkCollection "posts" posts with_posts.
Definition likes_c := mkCollection "likes" likes with_likes.
Definition follows_c := mkCollection "follows" follows with_follows.
Definition users_c := mkCollection "users" users with_users.
Definition verificationRequests_c :=
  mkCollection "verificationRequests" verificationRequests
               with_verificationRequests.

(** The environment: clock readings, auto-generated ids and rejected
    calls, each indexed by the number of earlier interactions. *)
Record Env : Type := mkEnv {
  clockAt : nat -> Z;
  failsAt : nat -> bool;
  newId : nat -> list DocId -> DocId;
  newId_fresh : forall n used, ~ In (newId n used) used }.

Inductive FirestoreError : Type :=
| Unavailable                       (* the call was rejected *)
| NotFound (coll : string) (id : DocId)
| InvalidArgument.                  (* e.g. an [undefined] field value *)

(** ** Handlers as state-and-exception computations *)

Inductive Outcome (A : Type) : Type :=
| Done (a : A)
| Thrown (e : FirestoreError).

Arguments Thrown {A} e.

(** The state a handler of a component with local state [V] acts on. *)
Record St (V : Type) : Type := mkSt { world : World; view : V }.

Definition M (V A : Type) : Type := St V -> St V * Outcome A.

Definition ret {V A} (a : A) : M V A := fun s => (s, Done a).

Definition bind {V A B} (m : M V A) (k : A -> M V B) : M V B :=
  fun s =>
    match m s with
    | (s', Done a) => k a s'
    | (s', Thrown e) => (s', Thrown e)
    end.

Definition throw {V A} (e : FirestoreError) : M V A :=
  fun s => (s, Thrown e).

(** [try { body } catch (error) { handler }]. *)
Definition try_catch {V A} (body : M V A) (handler : FirestoreError -> M V A)
  : M V A :=
  fun s =>
    match body s with
    | (s', Done a) => (s', Done a)
    | (s', Thrown e) => handler e s'
    end.

(** [... finally { fin }]: [fin] runs on both exits. *)
Definition finally {V A} (m : M V A) (fin : M V unit) : M V A :=
  fun s =>
    match m s with
    | (s', r) =>
        match fin s' with
        | (s'', Done _) => (s'', r)
        | (s'', Thrown e) => (s'', Thrown e)
        end
    end.

Declare Scope handler_scope.
Delimit Scope handler_scope with handler.
Notation "x <- m ;; k" := (bind m (fun x => k))
  (at level 61, m at next level, right associativity) : handler_scope.
Notation "m ;; k" := (bind m (fun _ => k))
  (at level 61, right associativity) : handler_scope.
Open Scope handler_scope.

Definition exec {V A} (m : M V A) (s : St V) : St V := fst (m s).

Definition get_view {V} : M V V := fun s => (s, Done (view s)).
Definition set_view {V} (f : V -> V) : M V unit :=
  fun s => (mkSt (world s) (f (view s)), Done tt).
Definition get_world {V} : M V World := fun s => (s, Done (world s)).
Definition set_world {V} (f : World -> World) : M V unit :=
  fun s => (mkSt (f (world s)) (view s), Done tt).

Definition emit {V} (e : UiEvent) : M V unit :=
  set_world (fun w => with_ui (ui w ++ [e]) w).

Definition toast {V} (title description : string) (variant : Variant)
  : M V unit := emit (Toast title description variant).
Definition console_error {V} (message : string) : M V unit :=
  emit (ConsoleError message).
Definition navigate {V} (path : string) : M V unit := emit (Navigate path).

Section Firestore.
Variable env : Env.
Context {V : Type}.

(** [new Date()]. *)
Definition newDate : M V Z := fun s =>
  let w := world s in
  (mkSt (with_tick (S (tick w)) w) (view s), Done (clockAt env (tick w))).

(** A remote call: recorded, then answered or rejected. *)
Definition remote (c : Call) : M V unit := fun s =>
  let w := world s in
  (mkSt (with_calls (calls w ++ [c]) (with_tick (S (tick w)) w)) (view s),
   if failsAt env (tick w) then Thrown Unavailable else Done tt).

(** [doc(collection(db, name))]: a reference with an auto-generated id. *)
Definition newDocRef {D} (c : Collection D) : M V DocId := fun s =>
  let w := world s in
  (mkSt (with_tick (S (tick w)) w) (view s),
   Done (newId env (tick w) (map (@doc_id D) (c_get c w)))).

Definition getDocs {D} (c : Collection D) (q : Query D)
  : M V (list (Doc D)) :=
  remote (CGetDocs (c_name c)) ;;
  w <- get_world ;;
  ret (run_query q (c_get c w)).

Definition setDoc {D} (c : Collection D) (id : DocId) (data : D)
  : M V unit :=
  remote (CSetDoc (c_name c) id) ;;
  set_world (fun w => c_set c (set_doc id data (c_get c w)) w).

Definition addDoc {D} (c : Collection D) (data : D) : M V DocId :=
  id <- newDocRef c ;;
  setDoc c id data ;;
  ret id.

(** [updateDoc] fails on a document that does not exist. *)
Definition updateDoc {D} (c : Collection D) (id : DocId) (f : D -> D)
  : M V unit :=
  remote (CUpdateDoc (c_name c) id) ;;
  w <- get_world ;;
  if has_doc id (c_get c w)
  then set_world (fun w => c_set c (update_doc id f (c_get c w)) w)
  else throw (NotFound (c_name c) id).

Definition deleteDoc {D} (c : Collection D) (id : DocId) : M V unit :=
  remote (CDeleteDoc (c_name c) id) ;;
  set_world (fun w => c_set c (delete_doc id (c_get c w)) w).

End Firestore.

(** [increment(n)] on a numeric field. *)
Definition increment (n : Z) (v : Z) : Z := (v + n)%Z.

Definition set_likeCount (f : Z -> Z) (d : PostData) : PostData :=
  mkPostData (p_userId d) (p_username d) (p_displayName d) (p_text d)
             (p_imageUrl d) (p_createdAt d) (f (p_likeCount d))
             (p_commentCount d) (p_isPublic d).

Definition set_postCount (f : Z -> Z) (d : UserData) : UserData :=
  mkUserData (u_uid d) (u_email d) (u_username d) (u_displayName d)
             (u_isPrivate d) (u_isVerified d) (u_createdAt d)
             (u_followerCount d) (u_followingCount d) (f (u_postCount d))
             (u_likeCount d) (u_isBlocked d).

Definition set_isVerified (b : bool) (d : UserData) : UserData :=
  mkUserData (u_uid d) (u_email d) (u_username d) (u_displayName d)
             (u_isPrivate d) b (u_createdAt d)
             (u_followerCount d) (u_followingCount d) (u_postCount d)
             (u_likeCount d) (u_isBlocked d).

Definition set_review (st : Status) (at_ : Z) (by_ : string) (d : RequestData)
  : RequestData :=
  mkRequestData (r_userId d) (r_username d) (r_displayName d) st
                (r_createdAt d) (Some at_) (Some by_).

(** ** Session (AuthContext) *)

Module Auth.
Record User : Type := mkUser { uid : string; email : option string }.

Record UserProfile : Type := mkUserProfile {
  profile_uid : string;
  username : string;
  displayName : string;
  isPrivate : bool;
  isVerified : bool }.
End Auth.

(** The [Post] view model shared by HomePage and PostCard. *)
Module Post.
Record t : Type := mk {
  id : DocId;
  userId : string;
  username : string;
  displayName : string;
  text : JS.jsstring;
  imageUrl : option JS.jsstring;
  createdAt : Z;
  likeCount : Z;
  commentCount : Z;
  isLiked : option bool }.
End Post.

(** ** PostCard (components/Posts/PostCard) *)

Module PostCard.

Record State : Type := mkState {
  liked : bool;
  likeCount : Z;
  loading : bool }.

(** The three [useState] initial values. *)
Definition init (post : Post.t) : State :=
  mkState (match Post.isLiked post with Some b => b || false | None => false end)
          (Post.likeCount post) false.

Definition setLiked (b : bool) : M State unit :=
  set_view (fun c => mkState b (likeCount c) (loading c)).
Definition setLikeCount (f : Z -> Z) : M State unit :=
  set_view (fun c => mkState (liked c) (f (likeCount c)) (loading c)).
Definition setLoading (b : bool) : M State unit :=
  set_view (fun c => mkState (liked c) (likeCount c) b).

Section Handlers.
Variable env : Env.
Variable user : option Auth.User.
Variable post : Post.t.

Definition likeQuery (u : Auth.User) : Query LikeData :=
  mkQuery [fun d => String.eqb (l_postId d) (Post.id post);
           fun d => String.eqb (l_userId d) (Auth.uid u)] None None.

(** [handleLike]. *)
Definition handleLike : M State unit :=
  c <- get_view ;;   (* the values the closure captured at render *)
  match user with
  | None => ret tt
  | Some u =>
      if loading c then ret tt
      else
        setLoading true ;;
        finally
          (try_catch
             (likeSnapshot <- getDocs env likes_c (likeQuery u) ;;
              if liked c then
                (* Unlike *)
                match likeSnapshot with
                | d :: _ => deleteDoc env likes_c (doc_id d)
                | [] => ret tt
                end ;;
                updateDoc env posts_c (Post.id post)
                          (set_likeCount (increment (-1))) ;;
                setLiked false ;;
                setLikeCount (fun prev => (prev - 1)%Z)
              else
                (* Like *)
                now <- newDate env ;;
                addDoc env likes_c
                       (mkLikeData (Post.id post) (Auth.uid u) now) ;;
                updateDoc env posts_c (Post.id post)
                          (set_likeCount (increment 1)) ;;
                setLiked true ;;
                setLikeCount (fun prev => (prev + 1)%Z))
             (fun _ =>
                console_error "Error handling like:" ;;
                toast "Error" "Failed to update like" vDestructive))
          (setLoading false)
  end.

End Handlers.

End PostCard.

(** ** UserCard (components/Users/UserCard.tsx) *)

Module UserCard.

Record Props : Type := mkProps {
  uid : string;
  username : string;
  displayName : string;
  isVerified : bool;
  followerCount : Z }.

Record State : Type := mkState {
  isFollowing : bool;
  loading : bool }.

Definition init : State := mkState false false.

Definition setIsFollowing (b : bool) : M State unit :=
  set_view (fun c => mkState b (loading c)).
Definition setLoading (b : bool) : M State unit :=
  set_view (fun c => mkState (isFollowing c) b).

Section Handlers.
Variable env : Env.
Variable currentUser : option Auth.User.
Variable user : Props.

Definition followQuery (cu : Auth.User) : Query FollowData :=
  mkQuery [fun d => String.eqb (f_followerId d) (Auth.uid cu);
           fun d => String.eqb (f_followingId d) (uid user)] None None.

(** [checkFollowStatus]. *)
Definition checkFollowStatus : M State unit :=
  match currentUser with
  | None => ret tt
  | Some cu =>
      try_catch
        (followSnapshot <- getDocs env follows_c (followQuery cu) ;;
         setIsFollowing
           (negb (match followSnapshot with [] => true | _ => false end)))
        (fun _ => console_error "Error checking follow status:")
  end.

(** [handleFollow]: unfollow when the card shows "Following", follow
    otherwise. *)
Definition handleFollow : M State unit :=
  c <- get_view ;;
  match currentUser with
  | None => ret tt
  | Some cu =>
      if loading c then ret tt
      else
        setLoading true ;;
        finally
          (try_catch
             (if isFollowing c then
                (* Unfollow *)
                followSnapshot <- getDocs env follows_c (followQuery cu) ;;
                match followSnapshot with
                | d :: _ => deleteDoc env follows_c (doc_id d)
                | [] => ret tt
                end ;;
                setIsFollowing false ;;
                toast "Unfollowed"
                      ("You unfollowed @" ++ username user) vDefault
              else
                (* Follow *)
                ref <- newDocRef env follows_c ;;
                now <- newDate env ;;
                setDoc env follows_c ref
                       (mkFollowData (Auth.uid cu) (uid user) now) ;;
                setIsFollowing true ;;
                toast "Following"
                      ("You are now following @" ++ username user)
                      vDefault)
             (fun _ =>
                console_error "Error updating follow status:" ;;
                toast "Error" "Failed to update follow status"
                      vDestructive))
          (setLoading false)
  end.

End Handlers.

End UserCard.

(** ** HomePage (pages/HomePage) *)

Module HomePage.

Record State : Type := mkState {
  posts : list Post.t;
  loading : bool;
  following : list string }.

Definition init : State := mkState [] true [].

Definition setPosts (x : list Post.t) : M State unit :=
  set_view (fun c => mkState x (loading c) (following c)).
Definition setLoading (b : bool) : M State unit :=
  set_view (fun c => mkState (posts c) b (following c)).
Definition setFollowing (x : list string) : M State unit :=
  set_view (fun c => mkState (posts c) (loading c) x).

(** The object built from each document of the snapshot.  A stored post
    always has [createdAt]; it has no [isLiked] field. *)
Definition toPost (d : Doc PostData) : Post.t :=
  let data := doc_data d in
  Post.mk (doc_id d) (p_userId data) (p_username data)
          (p_displayName data) (p_text data) (p_imageUrl data)
          (p_createdAt data)
          (JS.or_num (p_likeCount data) 0)
          (JS.or_num (p_commentCount data) 0)
          (Some false).

(** [where('userId', 'in', followingChunk)]. *)
Definition userId_in (chunk : list string) (d : PostData) : bool :=
  existsb (String.eqb (p_userId d)) chunk.

Definition followedQuery (following : list string) : Query PostData :=
  let followingChunk := firstn 10 following in
  mkQuery [userId_in followingChunk] (Some p_createdAt) (Some 20%nat).

Definition popularQuery : Query PostData :=
  mkQuery [] (Some p_likeCount) (Some 10%nat).

Section Handlers.
Variable env : Env.
Variable user : option Auth.User.

(** [fetchFollowing]. *)
Definition fetchFollowing : M State unit :=
  match user with
  | None => ret tt
  | Some u =>
      try_catch
        (followingSnapshot <-
           getDocs env follows_c
             (mkQuery [fun d => String.eqb (f_followerId d) (Auth.uid u)]
                      None None) ;;
         let followingIds :=
           map (fun d => f_followingId (doc_data d)) followingSnapshot in
         setFollowing followingIds)
        (fun _ => console_error "Error fetching following:")
  end.

(** [fetchHomeFeed]; [following] is the state the closure captured. *)
Definition fetchHomeFeed : M State unit :=
  c <- get_view ;;
  finally
    (try_catch
       (let postsQuery :=
          if (0 <? List.length (following c))%nat
          then followedQuery (following c)
          else popularQuery in
        postsSnapshot <- getDocs env posts_c postsQuery ;;
        let fetchedPosts := map toPost postsSnapshot in
        setPosts fetchedPosts)
       (fun _ => console_error "Error fetching home feed:"))
    (setLoading false).

End Handlers.

End HomePage.

(** ** CreatePage (pages/CreatePage.tsx) *)

Module CreatePage.

Record State : Type := mkState {
  text : JS.jsstring;
  imageUrl : JS.jsstring;
  loading : bool }.

Definition init : State := mkState [] [] false.

Definition setText (x : JS.jsstring) : M State unit :=
  set_view (fun c => mkState x (imageUrl c) (loading c)).
Definition setImageUrl (x : JS.jsstring) : M State unit :=
  set_view (fun c => mkState (text c) x (loading c)).
Definition setLoading (b : bool) : M State unit :=
  set_view (fun c => mkState (text c) (imageUrl c) b).

Definition tooFast : UiEvent :=
  Toast "Too fast!" "You can only post once per minute" vDestructive.
Definition enterText : UiEvent :=
  Toast "Error" "Please enter some text" vDestructive.
Definition posted : UiEvent :=
  Toast "Posted!" "Your post has been shared" vDefault.

Section Handlers.
Variable env : Env.
Variable user : option Auth.User.
Variable userProfile : option Auth.UserProfile.

Definition recentPostsQuery (u : Auth.User) (oneMinuteAgo : Z)
  : Query PostData :=
  mkQuery [fun d => String.eqb (p_userId d) (Auth.uid u);
           fun d => (oneMinuteAgo <? p_createdAt d)%Z]
          (Some p_createdAt) (Some 1%nat).

(** [checkRateLimit]: true when the author may post. *)
Definition checkRateLimit : M State bool :=
  match user with
  | None => ret false
  | Some u =>
      now <- newDate env ;;
      let oneMinuteAgo := (now - 60 * 1000)%Z in
      recentPosts <- getDocs env posts_c
                             (recentPostsQuery u oneMinuteAgo) ;;
      ret (match recentPosts with [] => true | _ => false end)
  end.

(** [handleSubmit]. *)
Definition handleSubmit : M State unit :=
  c <- get_view ;;
  if negb (JS.truthy (JS.trim (text c))) then
    emit enterText
  else
    match user, userProfile with
    | Some u, Some profile =>
        setLoading true ;;
        finally
          (try_catch
             ((* Check rate limit *)
              canPost <- checkRateLimit ;;
              if negb canPost then
                emit tooFast ;;
                setLoading false
              else
                (* Create post *)
                now <- newDate env ;;
                let postData :=
                  mkPostData (Auth.uid u)
                             (Auth.username profile)
                             (Auth.displayName profile)
                             (JS.trim (text c))
                             (JS.or_null (JS.trim (imageUrl c)))
                             now 0 0
                             (negb (Auth.isPrivate profile)) in
                addDoc env posts_c postData ;;
                (* Update user post count *)
                updateDoc env users_c (Auth.uid u)
                          (set_postCount (increment 1)) ;;
                emit posted ;;
                setText [] ;;
                setImageUrl [] ;;
                navigate "/home")
             (fun _ =>
                console_error "Error creating post:" ;;
                toast "Error" "Failed to create post" vDestructive))
          (setLoading false)
    | _, _ => ret tt
    end.

End Handlers.

End CreatePage.

(** ** AdminPage (pages/AdminPage) *)

Module AdminPage.

Module VerificationRequest.
Record t : Type := mk {
  id : DocId;
  userId : string;
  username : string;
  displayName : string;
  status : Status;
  createdAt : Z }.
End VerificationRequest.

Record State : Type := mkState {
  verificationRequests : list VerificationRequest.t;
  loading : bool }.

Definition setVerificationRequests
  (f : list VerificationRequest.t -> list VerificationRequest.t)
  : M State unit :=
  set_view (fun c => mkState (f (verificationRequests c)) (loading c)).

Definition decision_text (d : Decision) : string :=
  match d with approved => "approved" | rejected => "rejected" end.

(** [decision === 'approved' && userId], with [userId?: string]. *)
Definition approved_with_target (d : Decision) (userId : option DocId)
  : option DocId :=
  match d, userId with
  | approved, Some i => if JS.truthy_str i then Some i else None
  | _, _ => None
  end.

Section Handlers.
Variable env : Env.
Variable user : option Auth.User.

(** [handleVerificationDecision]. *)
Definition handleVerificationDecision
  (requestId : DocId) (decision : Decision) (userId : option DocId)
  : M State unit :=
  try_catch
    ((* Update verification request *)
     now <- newDate env ;;
     match user with
     | Some u =>
         updateDoc env verificationRequests_c requestId
                   (set_review (decided decision) now (Auth.uid u))
     | None =>
         (* [reviewedBy: undefined] is refused before any call *)
         throw InvalidArgument
     end ;;
     match approved_with_target decision userId with
     | Some target =>
         (* Update user verification status *)
         updateDoc env users_c target (set_isVerified true)
     | None => ret tt
     end ;;
     (* Remove from local state *)
     setVerificationRequests
       (filter (fun req =>
                  negb (String.eqb (VerificationRequest.id req)
                                   requestId))) ;;
     toast ("Verification " ++ decision_text decision)
           ("Request has been " ++ decision_text decision) vDefault)
    (fun _ =>
       console_error "Error updating verification request:" ;;
       toast "Error" "Failed to update verification request"
             vDestructive).

End Handlers.

End AdminPage.

(** ** PostCard: the age label (components/Posts/PostCard) *)

(** A number in a template literal: its decimal digits, with a minus sign
    when negative. *)
Definition numberToString (n : Z) : string :=
  NilZero.string_of_int (Z.to_int n).

(** [formatDate]; [now] is the reading of [new Date()], both dates are in
    milliseconds and [Math.floor] of a quotient is the floor division. *)
Definition formatDate (now date : Z) : string :=
  let diffMs := (now - date)%Z in
  let diffHours := (diffMs / (1000 * 60 * 60))%Z in
  if (diffHours <? 1)%Z then
    let diffMins := (diffMs / (1000 * 60))%Z in
    numberToString diffMins ++ "m"
  else if (diffHours <? 24)%Z then
    numberToString diffHours ++ "h"
  else
    let diffDays := (diffHours / 24)%Z in
    numberToString diffDays ++ "d".

(** The object [{ id: doc.id, ...doc.data(), createdAt }] that ExplorePage
    and ProfilePage build from a post document: the stored fields as they
    are, and no [isLiked]. *)
Definition spreadPost (d : Doc PostData) : Post.t :=
  let data := doc_data d in
  Post.mk (doc_id d) (p_userId data) (p_username data)
          (p_displayName data) (p_text data) (p_imageUrl data)
          (p_createdAt data) (p_likeCount data) (p_commentCount data)
          None.

(** ** ExplorePage (pages/ExplorePage.tsx) *)

Module ExplorePage.

Record State : Type := mkState {
  searchTerm : JS.jsstring;
  posts : list Post.t;
  users : list UserCard.Props;
  loading : bool;
  searchLoading : bool }.

Definition init : State := mkState [] [] [] true false.

Definition setPosts (x : list Post.t) : M State unit :=
  set_view (fun c => mkState (searchTerm c) x (users c) (loading c)
                             (searchLoading c)).
Definition setLoading (b : bool) : M State unit :=
  set_view (fun c => mkState (searchTerm c) (posts c) (users c) b
                             (searchLoading c)).

Definition publicPostsQuery : Query PostData :=
  mkQuery [fun d => Bool.eqb (p_isPublic d) true] (Some p_likeCount)
          (Some 20%nat).

Section Handlers.
Variable env : Env.

(** [fetchPublicPosts]. *)
Definition fetchPublicPosts : M State unit :=
  finally
    (try_catch
       (postsSnapshot <- getDocs env posts_c publicPostsQuery ;;
        let fetchedPosts := map spreadPost postsSnapshot in
        setPosts fetchedPosts)
       (fun _ => console_error "Error fetching posts:"))
    (setLoading false).

End Handlers.

End ExplorePage.

(** ** ProfilePage (pages/ProfilePage) *)

Module ProfilePage.

(** The hooks the functions below write; the [profile] hook is written by
    [fetchUserProfile] only. *)
Record State : Type := mkState {
  posts : list Post.t;
  loading : bool;
  isFollowing : bool }.

Definition setPosts (x : list Post.t) : M State unit :=
  set_view (fun c => mkState x (loading c) (isFollowing c)).
Definition setIsFollowing (b : bool) : M State unit :=
  set_view (fun c => mkState (posts c) (loading c) b).

Definition userPostsQuery (userId : string) : Query PostData :=
  mkQuery [fun d => String.eqb (p_userId d) userId] (Some p_createdAt) None.

Section Handlers.
Variable env : Env.
Variable currentUser : option Auth.User.

(** [fetchUserPosts]. *)
Definition fetchUserPosts (userId : string) : M State unit :=
  try_catch
    (postsSnapshot <- getDocs env posts_c (userPostsQuery userId) ;;
     let fetchedPosts := map spreadPost postsSnapshot in
     setPosts fetchedPosts)
    (fun _ => console_error "Error fetching user posts:").

(** [checkFollowStatus]. *)
Definition checkFollowStatus (userId : string) : M State unit :=
  match currentUser with
  | None => ret tt
  | Some cu =>
      try_catch
        (followSnapshot <-
           getDocs env follows_c
             (mkQuery [fun d => String.eqb (f_followerId d) (Auth.uid cu);
                       fun d => String.eqb (f_followingId d) userId]
                      None None) ;;
         setIsFollowing
           (negb (match followSnapshot with [] => true | _ => false end)))
        (fun _ => console_error "Error checking follow status:")
  end.

End Handlers.

End ProfilePage.

(** ** SettingsPage (pages/SettingsPage.tsx) *)

Definition set_isPrivate (b : bool) (d : UserData) : UserData :=
  mkUserData (u_uid d) (u_email d) (u_username d) (u_displayName d)
             b (u_isVerified d) (u_createdAt d)
             (u_followerCount d) (u_followingCount d) (u_postCount d)
             (u_likeCount d) (u_isBlocked d).

Module SettingsPage.

Record State : Type := mkState {
  isPrivate : bool;
  loading : bool }.

(** [useState(userProfile?.isPrivate || false)]. *)
Definition init (userProfile : option Auth.UserProfile) : State :=
  mkState (match userProfile with
           | Some p => Auth.isPrivate p || false
           | None => false
           end) false.

Definition setIsPrivate (b : bool) : M State unit :=
  set_view (fun c => mkState b (loading c)).
Definition setLoading (b : bool) : M State unit :=
  set_view (fun c => mkState (isPrivate c) b).

Section Handlers.
Variable env : Env.
Variable user : option Auth.User.

(** [handlePrivacyToggle]. *)
Definition handlePrivacyToggle (checked : bool) : M State unit :=
  match user with
  | None => ret tt
  | Some u =>
      setLoading true ;;
      finally
        (try_catch
           (updateDoc env users_c (Auth.uid u) (set_isPrivate checked) ;;
            setIsPrivate checked ;;
            toast "Privacy settings updated"
                  (if checked then "Your profile is now private"
                   else "Your profile is now public") vDefault)
           (fun _ =>
              console_error "Error updating privacy settings:" ;;
              toast "Error" "Failed to update privacy settings"
                    vDestructive))
        (setLoading false)
  end.

End Handlers.

End SettingsPage.

(** ** AdminPage: loading the queue and the statistics *)

Definition status_eqb (a b : Status) : bool :=
  match a, b with
  | pending, pending => true
  | decided approved, decided approved => true
  | decided rejected, decided rejected => true
  | _, _ => false
  end.

Module AdminQueue.

(** The object [{ id: doc.id, ...doc.data(), createdAt }] built from a
    request document. *)
Definition toRequest (d : Doc RequestData) : AdminPage.VerificationRequest.t :=
  let data := doc_data d in
  AdminPage.VerificationRequest.mk (doc_id d) (r_userId data)
    (r_username data) (r_displayName data) (r_status data)
    (r_createdAt data).

Definition requestsQuery : Query RequestData :=
  mkQuery [fun d => status_eqb (r_status d) pending] (Some r_createdAt) None.

Section Handlers.
Variable env : Env.

(** [fetchVerificationRequests]. *)
Definition fetchVerificationRequests : M AdminPage.State unit :=
  try_catch
    (requestsSnapshot <- getDocs env verificationRequests_c requestsQuery ;;
     let requests := map toRequest requestsSnapshot in
     AdminPage.setVerificationRequests (fun _ => requests))
    (fun _ => console_error "Error fetching verification requests:").

End Handlers.

End AdminQueue.

Module AdminStats.

Record UserStat : Type := mkUserStat {
  totalUsers : Z;
  totalPosts : Z;
  totalLikes : Z;
  verifiedUsers : Z }.

(** The [stats] and [loading] hooks of AdminPage. *)
Record State : Type := mkState {
  stats : UserStat;
  loading : bool }.

Definition init : State := mkState (mkUserStat 0 0 0 0) true.

Definition setStats (x : UserStat) : M State unit :=
  set_view (fun c => mkState x (loading c)).
Definition setLoading (b : bool) : M State unit :=
  set_view (fun c => mkState (stats c) b).

(** [snapshot.size]. *)
Definition size {D} (docs : list (Doc D)) : Z := Z.of_nat (List.length docs).

(** The [forEach] loop adding [doc.data().likeCount || 0]. *)
Definition sumLikes (docs : list (Doc PostData)) : Z :=
  fold_left (fun totalLikes d =>
               (totalLikes + JS.or_num (p_likeCount (doc_data d)) 0)%Z)
            docs 0%Z.

Section Handlers.
Variable env : Env.

(** [fetchStats]. *)
Definition fetchStats : M State unit :=
  finally
    (try_catch
       ((* Get total users *)
        usersSnapshot <- getDocs env users_c (mkQuery [] None None) ;;
        let totalUsers := size usersSnapshot in
        (* Get verified users *)
        verifiedSnapshot <-
          getDocs env users_c
            (mkQuery [fun d => Bool.eqb (u_isVerified d) true] None None) ;;
        let verifiedUsers := size verifiedSnapshot in
        (* Get total posts *)
        postsSnapshot <- getDocs env posts_c (mkQuery [] None None) ;;
        let totalPosts := size postsSnapshot in
        (* Calculate total likes *)
        let totalLikes := sumLikes postsSnapshot in
        setStats (mkUserStat totalUsers totalPosts totalLikes verifiedUsers))
       (fun _ => console_error "Error fetching stats:"))
    (setLoading false).

End Handlers.

End AdminStats.

(** ** Vocabulary of the properties *)

Definition feedQuery (following : list string) : Query PostData :=
  if (0 <? List.length following)%nat
  then HomePage.followedQuery following
  else HomePage.popularQuery.

(** Whether the store holds a like edge of viewer [u] on [post]. *)
Definition likedInStore (post : Post.t) (u : Auth.User) (w : World) : bool :=
  match run_query (PostCard.likeQuery post u) (likes w) with
  | [] => false
  | _ :: _ => true
  end.

(** Like edges stored for a post, whoever the viewer. *)
Definition likeEdges (postId : DocId) (w : World) : Z :=
  Z.of_nat (List.length
              (filter (fun d => String.eqb (l_postId (doc_data d)) postId)
                      (likes w))).

(** A call that writes neither a user document nor any counter: a read, or
    a write to the [follows] collection. *)
Definition follow_call (c : Call) : bool :=
  match c with
  | CGetDocs coll => String.eqb coll "follows"
  | CSetDoc coll _ => String.eqb coll "follows"
  | CDeleteDoc coll _ => String.eqb coll "follows"
  | CUpdateDoc _ _ => false
  end.

Definition decidedToast (decision : Decision) : UiEvent :=
  Toast ("Verification " ++ AdminPage.decision_text decision)
        ("Request has been " ++ AdminPage.decision_text decision) vDefault.

(** The post [handleSubmit] builds when it reads the clock at [now]. *)
Definition postOf (u : Auth.User) (profile : Auth.UserProfile)
  (c : CreatePage.State) (now : Z) : PostData :=
  mkPostData (Auth.uid u) (Auth.username profile) (Auth.displayName profile)
             (JS.trim (CreatePage.text c))
             (JS.or_null (JS.trim (CreatePage.imageUrl c)))
             now 0 0 (negb (Auth.isPrivate profile)).

(** A submission that reaches the insert: the text is not blank, the
    rate-limit query is answered with nothing, the insert is accepted. *)
Definition reachesInsert (env : Env) (u : Auth.User)
  (s : St CreatePage.State) : Prop :=
  JS.trim (CreatePage.text (view s)) <> []
  /\ failsAt env (S (tick (world s))) = false
  /\ run_query (CreatePage.recentPostsQuery
                  u (clockAt env (tick (world s)) - 60 * 1000)%Z)
               (posts (world s)) = []
  /\ failsAt env (4 + tick (world s)) = false.

(** What the store holds after the insert. *)
Definition insertedPosts (env : Env) (u : Auth.User)
  (profile : Auth.UserProfile) (s : St CreatePage.State)
  : list (Doc PostData) :=
  posts (world s)
  ++ [mkDoc (newId env (3 + tick (world s))
                   (map (@doc_id _) (posts (world s))))
            (postOf u profile (view s)
                    (clockAt env (2 + tick (world s))))].

(** The edge a like inserts. *)
Definition likeEdgeOf (env : Env) (u : Auth.User) (post : Post.t)
  (w : World) : Doc LikeData :=
  mkDoc (newId env (2 + tick w) (map (@doc_id _) (likes w)))
        (mkLikeData (Post.id post) (Auth.uid u) (clockAt env (1 + tick w))).

(** Whether the counter update of a like or unlike started at tick [t]
    gets through: it is the call at [offset + t] and needs the post. *)
Definition counterUpdated (env : Env) (post : Post.t) (w : World)
  (offset : nat) : bool :=
  negb (failsAt env (offset + tick w))
  && has_doc (Post.id post) (posts w).

Definition followEdgeOf (env : Env) (cu : Auth.User) (user : UserCard.Props)
  (w : World) : Doc FollowData :=
  mkDoc (newId env (tick w) (map (@doc_id _) (follows w)))
        (mkFollowData (Auth.uid cu) (UserCard.uid user)
                      (clockAt env (1 + tick w))).

Definition privacyToast (checked : bool) : UiEvent :=
  Toast "Privacy settings updated"
        (if checked then "Your profile is now private"
         else "Your profile is now public") vDefault.

(** ** A concrete environment

    Auto-generated ids here are strings longer than every id in use. *)

Fixpoint longest (used : list DocId) : nat :=
  match used with
  | [] => 0
  | i :: used' => Nat.max (String.length i) (longest used')
  end.

Fixpoint letters (n : nat) : string :=
  match n with
  | O => EmptyString
  | S n' => String "a"%char (letters n')
  end.

Definition long_id (n : nat) (used : list DocId) : DocId :=
  letters (S (n + longest used)).

Lemma length_letters (n : nat) : String.length (letters n) = n.
Proof. induction n; simpl; congruence. Qed.

Lemma longest_bound (used : list DocId) (i : DocId) :
  In i used -> String.length i <= longest used.
Proof.
  induction used as [|j used IH]; simpl; [tauto|].
  intros [->|Hin]; [lia|]. specialize (IH Hin). lia.
Qed.

Lemma long_id_fresh (n : nat) (used : list DocId) : ~ In (long_id n used) used.
Proof.
  intros Hin. apply longest_bound in Hin.
  unfold long_id in Hin. rewrite length_letters in Hin. lia.
Qed.

Definition mkTestEnv (clock : nat -> Z) (fails : nat -> bool) : Env :=
  mkEnv clock fails long_id long_id_fresh.

(** ** Sample data *)

Definition samplePost (author : string) (created likes : Z) (public : bool)
  : PostData :=
  mkPostData author author author [104; 105]%N None created likes 0 public.

Definition sampleUser (name : string) (private verified : bool) (nposts : Z)
  : UserData :=
  mkUserData name (name ++ "@example.org") name name private verified 0
             0 0 nposts 0 false.

Definition sampleWorld : World :=
  mkWorld
    [ mkDoc "p1" (samplePost "bob" 100 5 true);
      mkDoc "p2" (samplePost "carol" 200 9 true);
      mkDoc "p3" (samplePost "bob" 300 1 true);
      mkDoc "p4" (samplePost "dave" 400 7 false) ]
    [ mkDoc "l1" (mkLikeData "p1" "alice" 150) ]
    [ mkDoc "f1" (mkFollowData "alice" "bob" 50) ]
    [ mkDoc "alice" (sampleUser "alice" false false 0);
      mkDoc "bob" (sampleUser "bob" false false 2);
      mkDoc "carol" (sampleUser "carol" false false 1);
      mkDoc "dave" (sampleUser "dave" true false 1) ]
    [ mkDoc "r1" (mkRequestData "bob" "bob" "bob" pending 60 None None) ]
    0 [] [].

(** Time stands at 1000 ms and no call is rejected. *)
Definition calmEnv : Env := mkTestEnv (fun _ => 1000%Z) (fun _ => false).

Definition alice : Auth.User := Auth.mkUser "alice" None.
Definition aliceProfile : Auth.UserProfile :=
  Auth.mkUserProfile "alice" "alice" "alice" false false.

Definition homeOf (following : list string) : St HomePage.State :=
  mkSt sampleWorld (HomePage.mkState [] true following).

Definition elevenFollowed : list string :=
  ["bob"; "u2"; "u3"; "u4"; "u5"; "u6"; "u7"; "u8"; "u9"; "u10"; "dave"].

Definition p1Card : Post.t :=
  Post.mk "p1" "bob" "bob" "bob" [104; 105]%N None 100 5 0 None.

Definition p3Card : Post.t :=
  Post.mk "p3" "bob" "bob" "bob" [104; 105]%N None 300 1 0 None.

Definition zeroLikes : World :=
  with_posts [ mkDoc "p3" (samplePost "bob" 300 0 true) ] sampleWorld.


(** A clock that advances by one millisecond at every reading. *)
Definition tickingEnv : Env :=
  mkTestEnv (fun n => (1000 + Z.of_nat n)%Z) (fun _ => false).

Definition adminOf (w : World) : St AdminPage.State :=
  mkSt w (AdminPage.mkState
            [AdminPage.VerificationRequest.mk "r1" "bob" "bob" "bob"
                                              pending 60]
            false).

(** The counter update, the sixth interaction, is rejected. *)
Definition counterDownEnv : Env :=
  mkTestEnv (fun _ => 1000%Z) (fun n => Nat.eqb n 5).

(** The counter update of the first click, the fifth interaction, is
    rejected. *)
Definition likeCounterDownEnv : Env :=
  mkTestEnv (fun _ => 1000%Z) (fun n => Nat.eqb n 4).

Definition dave : Auth.User := Auth.mkUser "dave" None.

(** * Properties *)

(** Symbolic execution of a handler: with the world taken apart into its
    fields, unfold the monad, the Firestore operations and the component
    setters, and compute; then split on what the environment and the store
    answer. *)
Ltac norm :=
  cbv beta iota zeta delta
    [exec finally try_catch bind ret throw get_view set_view get_world
     set_world emit toast console_error navigate newDate remote newDocRef
     getDocs setDoc addDoc updateDoc deleteDoc
     fst snd world view
     posts likes follows users verificationRequests tick calls ui
     with_posts with_likes with_follows with_users
     with_verificationRequests with_tick with_calls with_ui
     c_name c_get c_set
     posts_c likes_c follows_c users_c verificationRequests_c
     PostCard.setLoading PostCard.setLiked PostCard.setLikeCount
     PostCard.loading PostCard.liked PostCard.likeCount
     UserCard.setLoading UserCard.setIsFollowing
     UserCard.loading UserCard.isFollowing
     HomePage.setPosts HomePage.setLoading HomePage.setFollowing
     HomePage.posts HomePage.loading HomePage.following
     CreatePage.setText CreatePage.setImageUrl CreatePage.setLoading
     CreatePage.text CreatePage.imageUrl CreatePage.loading
     CreatePage.checkRateLimit
     AdminPage.setVerificationRequests
     AdminPage.verificationRequests AdminPage.loading] in *.

Ltac answer_cases :=
  repeat (norm;
          match goal with
          | |- context [if failsAt ?e ?t then _ else _] =>
              destruct (failsAt e t) eqn:?
          | |- context [match run_query ?q ?l with _ => _ end] =>
              destruct (run_query q l) eqn:?
          | |- context [if has_doc ?i ?l then _ else _] =>
              destruct (has_doc i l) eqn:?
          end);
  norm.

(** ** Queries *)

Section QueryFacts.
Variable D : Type.
Variable key : Doc D -> Z.

Definition desc (a b : Doc D) : Prop := (key b <= key a)%Z.

Lemma insert_by_perm (first : Doc D -> Doc D -> bool) (x : Doc D)
  (l : list (Doc D)) :
  Permutation (insert_by first x l) (x :: l).
Proof.
  induction l as [|y l IH]; simpl; [reflexivity|].
  destruct (first x y); [reflexivity|].
  rewrite IH. apply perm_swap.
Qed.

Lemma sort_by_perm (first : Doc D -> Doc D -> bool) (l : list (Doc D)) :
  Permutation (sort_by first l) l.
Proof.
  induction l as [|x l IH]; simpl; [reflexivity|].
  rewrite insert_by_perm. now constructor.
Qed.

Lemma sort_id_perm (l : list (Doc D)) : Permutation (sort_id l) l.
Proof. apply sort_by_perm. Qed.

Lemma sort_desc_perm (l : list (Doc D)) : Permutation (sort_desc key l) l.
Proof. apply sort_by_perm. Qed.

Lemma sort_id_nil (l : list (Doc D)) : sort_id l = [] <-> l = [].
Proof.
  split; intros H.
  - apply Permutation_nil. rewrite <- H. apply sort_id_perm.
  - subst l. reflexivity.
Qed.

Lemma sort_id_length (l : list (Doc D)) :
  List.length (sort_id l) = List.length l.
Proof. apply Permutation_length, sort_id_perm. Qed.

Lemma desc_first_true (x y : Doc D) :
  desc_first key x y = true -> (key y <= key x)%Z.
Proof.
  unfold desc_first. intros H. apply orb_true_iff in H.
  destruct H as [H|H]; [apply Z.ltb_lt in H; lia|].
  apply andb_true_iff in H. destruct H as [H _]. apply Z.eqb_eq in H. lia.
Qed.

Lemma desc_first_false (x y : Doc D) :
  desc_first key x y = false -> (key x <= key y)%Z.
Proof.
  unfold desc_first. intros H. apply orb_false_iff in H.
  destruct H as [H _]. apply Z.ltb_ge in H. exact H.
Qed.

Lemma insert_desc_sorted (x : Doc D) (l : list (Doc D)) :
  StronglySorted desc l ->
  StronglySorted desc (insert_by (desc_first key) x l).
Proof.
  induction 1 as [|y l Hs IH Hy]; simpl.
  - repeat constructor.
  - destruct (desc_first key x y) eqn:E.
    + apply desc_first_true in E. constructor; [now constructor|].
      constructor; [exact E|].
      eapply Forall_impl; [|exact Hy]. unfold desc. intros; lia.
    + apply desc_first_false in E. constructor; [exact IH|].
      rewrite insert_by_perm. constructor; [exact E|exact Hy].
Qed.

Lemma sort_desc_sorted (l : list (Doc D)) : StronglySorted desc (sort_desc key l).
Proof.
  induction l as [|x l IH]; simpl; [constructor|].
  now apply insert_desc_sorted.
Qed.

End QueryFacts.

Section SortedFacts.
Variable A : Type.
Variable R : A -> A -> Prop.

Lemma StronglySorted_split (l1 l2 : list A) :
  StronglySorted R (l1 ++ l2) ->
  StronglySorted R l1 /\ Forall (fun a => Forall (R a) l2) l1.
Proof.
  induction l1 as [|a l1 IH]; simpl; intros Hs.
  - split; constructor.
  - apply StronglySorted_inv in Hs. destruct Hs as [Hs Ha].
    destruct (IH Hs) as [IH1 IH2].
    apply Forall_app in Ha. destruct Ha as [Ha1 Ha2].
    split; constructor; assumption.
Qed.

Lemma In_firstn (n : nat) (l : list A) (x : A) :
  In x (firstn n l) -> In x l.
Proof.
  intros Hin. rewrite <- (firstn_skipn n l). apply in_or_app. now left.
Qed.

Lemma StronglySorted_firstn (n : nat) (l : list A) :
  StronglySorted R l -> StronglySorted R (firstn n l).
Proof.
  intros Hs. rewrite <- (firstn_skipn n l) in Hs.
  now apply StronglySorted_split in Hs.
Qed.

Lemma StronglySorted_map (B : Type) (g : B -> A) (l : list B) :
  StronglySorted (fun x y => R (g x) (g y)) l -> StronglySorted R (map g l).
Proof.
  induction 1 as [|b l Hs IH Hb]; simpl; constructor; [exact IH|].
  apply Forall_map. exact Hb.
Qed.

Lemma StronglySorted_weaken (R' : A -> A -> Prop) (l : list A) :
  (forall a b, R a b -> R' a b) ->
  StronglySorted R l -> StronglySorted R' l.
Proof.
  intros Hsub. induction 1 as [|a l Hs IH Ha]; constructor; [exact IH|].
  eapply Forall_impl; [|exact Ha]. intros b. apply Hsub.
Qed.

End SortedFacts.

(** The order of an answer on a small collection: ascending ids without
    [orderBy]; with it, descending values and, among equal values,
    descending ids. *)
Example answer_order :
  let docs := [mkDoc "b" 5%Z; mkDoc "c" 7%Z; mkDoc "a" 5%Z] in
  map (@doc_id _) (run_query (mkQuery [] None None) docs) = ["a"; "b"; "c"]
  /\ map (@doc_id _) (run_query (mkQuery [] (Some (fun v => v)) None) docs)
     = ["c"; "b"; "a"]
  /\ map (@doc_id _)
         (run_query (mkQuery [fun v => (v <? 7)%Z] None (Some 1%nat)) docs)
     = ["a"].
Proof. repeat split. Qed.

(** A query answers with documents of the collection. *)
Lemma run_query_incl (D : Type) (q : Query D) (docs : list (Doc D))
  (d : Doc D) : In d (run_query q docs) -> In d docs.
Proof.
  unfold run_query. intros Hd.
  assert (Hord : In d match q_orderByDesc q with
                      | Some f => sort_desc (fun d => f (doc_data d))
                                            (filter (matches q) docs)
                      | None => sort_id (filter (matches q) docs)
                      end).
  { destruct (q_limit q); [now apply In_firstn in Hd|exact Hd]. }
  assert (Hfil : In d (filter (matches q) docs)).
  { destruct (q_orderByDesc q).
    - now apply (Permutation_in _ (sort_desc_perm _ _)) in Hord.
    - now apply (Permutation_in _ (sort_id_perm _)) in Hord. }
  apply filter_In in Hfil. tauto.
Qed.

(** What a query with [orderBy] and [limit] answers: matching documents
    only, in descending key order, at most [n] of them, and every matching
    document left out has a key no greater than any document returned. *)
Lemma run_query_ordered_limited (D : Type) (ws : list (D -> bool))
  (f : D -> Z) (n : nat) (docs : list (Doc D)) :
  let q := mkQuery ws (Some f) (Some n) in
  let answer := run_query q docs in
  Forall (fun d => matches q d = true) answer
  /\ StronglySorted (fun a b => (f (doc_data b) <= f (doc_data a))%Z) answer
  /\ List.length answer = Nat.min n (List.length (filter (matches q) docs))
  /\ exists rest,
       Permutation (filter (matches q) docs) (answer ++ rest)
       /\ Forall (fun a => Forall (fun r =>
                    (f (doc_data r) <= f (doc_data a))%Z) rest) answer.
Proof.
  intros q answer. unfold answer, run_query. simpl q_orderByDesc. simpl q_limit.
  set (matched := filter (matches q) docs).
  set (key := fun d : Doc D => f (doc_data d)).
  pose proof (sort_desc_perm key matched) as Hperm.
  pose proof (sort_desc_sorted key matched) as Hsorted.
  repeat split.
  - apply Forall_forall. intros d Hd.
    apply In_firstn in Hd.
    apply (Permutation_in _ Hperm) in Hd.
    unfold matched in Hd. apply filter_In in Hd. tauto.
  - now apply (StronglySorted_firstn (R := desc key)).
  - rewrite length_firstn. f_equal. exact (Permutation_length Hperm).
  - exists (skipn n (sort_desc key matched)). split.
    + rewrite firstn_skipn. now symmetry.
    + rewrite <- (firstn_skipn n (sort_desc key matched)) in Hsorted.
      now apply StronglySorted_split in Hsorted.
Qed.

(** ** Trimming *)

Lemma trimStart_nil (s : JS.jsstring) :
  JS.trimStart s = [] <-> forallb JS.isWhiteSpace s = true.
Proof.
  induction s as [|c s IH]; simpl; [tauto|].
  destruct (JS.isWhiteSpace c); simpl; [exact IH|].
  split; intros H; discriminate H.
Qed.

Lemma trimStart_head (s r : JS.jsstring) (c : JS.code_unit) :
  JS.trimStart s = c :: r -> JS.isWhiteSpace c = false.
Proof.
  induction s as [|a s IH]; simpl; [discriminate|].
  destruct (JS.isWhiteSpace a) eqn:E; [exact IH|].
  intros H. injection H as <- _. exact E.
Qed.

(** [text.trim()] is empty exactly for a text of white space only (the
    empty text included): this is when [!text.trim()] holds. *)
Lemma trim_nil (s : JS.jsstring) :
  JS.trim s = [] <-> forallb JS.isWhiteSpace s = true.
Proof.
  unfold JS.trim, JS.trimEnd. split.
  - intros H. apply (f_equal (@rev _)) in H. rewrite rev_involutive in H.
    simpl in H. apply trimStart_nil in H.
    destruct (JS.trimStart s) as [|c r] eqn:E; [now apply trimStart_nil|].
    apply trimStart_head in E.
    rewrite forallb_forall in H. specialize (H c).
    rewrite H in E; [discriminate E|]. apply in_rev. rewrite rev_involutive.
    now left.
  - intros H. apply trimStart_nil in H. now rewrite H.
Qed.

(** ** Home feed *)

(** The follow list of the page is the targets of the viewer's edges, in
    the order of the edges' ids, one entry per edge. *)
Lemma fetchFollowing_answered (env : Env) (u : Auth.User)
  (s : St HomePage.State) :
  failsAt env (tick (world s)) = false ->
  HomePage.following (view (exec (HomePage.fetchFollowing env (Some u)) s))
  = map (fun d => f_followingId (doc_data d))
        (sort_id
           (filter (fun d => String.eqb (f_followerId (doc_data d))
                                        (Auth.uid u))
                   (follows (world s)))).
Proof.
  destruct s as [[ps ls fs us rs t cs log] [feed busy following]].
  unfold HomePage.fetchFollowing. norm. intros Hok. rewrite Hok.
  unfold run_query, matches. simpl. do 2 f_equal. apply filter_ext.
  intros d. apply andb_true_r.
Qed.

(** When the query is answered, the feed shown is the answer, document by
    document. *)
Lemma fetchHomeFeed_answered (env : Env) (s : St HomePage.State) :
  failsAt env (tick (world s)) = false ->
  HomePage.posts (view (exec (HomePage.fetchHomeFeed env) s))
  = map HomePage.toPost
        (run_query (feedQuery (HomePage.following (view s)))
                   (posts (world s))).
Proof.
  destruct s as [[ps ls fs us rs t cs log] [feed busy following]].
  unfold HomePage.fetchHomeFeed. norm. intros Hok. now rewrite Hok.
Qed.

(** When the query is rejected, the feed shown stays what it was. *)
Lemma fetchHomeFeed_rejected (env : Env) (s : St HomePage.State) :
  failsAt env (tick (world s)) = true ->
  HomePage.posts (view (exec (HomePage.fetchHomeFeed env) s))
  = HomePage.posts (view s).
Proof.
  destruct s as [[ps ls fs us rs t cs log] [feed busy following]].
  unfold HomePage.fetchHomeFeed. norm. intros Hko. now rewrite Hko.
Qed.

Lemma userId_in_spec (chunk : list string) (d : PostData) :
  HomePage.userId_in chunk d = true <-> In (p_userId d) chunk.
Proof.
  unfold HomePage.userId_in. rewrite existsb_exists. split.
  - intros [a [Hin Heq]]. apply String.eqb_eq in Heq. now subst.
  - intros Hin. exists (p_userId d). split; [exact Hin|apply String.eqb_refl].
Qed.

Lemma or_num_zero (n : Z) : JS.or_num n 0 = n.
Proof. unfold JS.or_num. destruct (n =? 0)%Z eqn:E; [|reflexivity].
  apply Z.eqb_eq in E. now subst. Qed.

(** The feed of a viewer who follows someone: authors among the first ten
    followed, descending creation time, at most twenty items. *)
Lemma followed_feed (env : Env) (s : St HomePage.State) :
  let following := HomePage.following (view s) in
  let feed := HomePage.posts (view (exec (HomePage.fetchHomeFeed env) s)) in
  (0 < List.length following)%nat ->
  failsAt env (tick (world s)) = false ->
  Forall (fun p => In (Post.userId p) (firstn 10 following)) feed
  /\ StronglySorted
       (fun a b => (Post.createdAt b <= Post.createdAt a)%Z) feed
  /\ (List.length feed <= 20)%nat
  /\ Forall (fun p => exists d, In d (posts (world s))
                                /\ p = HomePage.toPost d) feed.
Proof.
  intros following feed Hpos Hok. unfold feed.
  rewrite (fetchHomeFeed_answered env s Hok). fold following.
  unfold feedQuery. apply Nat.ltb_lt in Hpos. rewrite Hpos.
  unfold HomePage.followedQuery.
  destruct (run_query_ordered_limited
              [HomePage.userId_in (firstn 10 following)] p_createdAt 20
              (posts (world s))) as (Hm & Hs & Hl & _).
  repeat split.
  - apply Forall_map. eapply Forall_impl; [|exact Hm].
    intros d Hd. unfold matches in Hd. simpl in Hd.
    rewrite andb_true_r in Hd. now apply userId_in_spec in Hd.
  - apply StronglySorted_map. exact Hs.
  - rewrite length_map, Hl. apply Nat.le_min_l.
  - apply Forall_map. apply Forall_forall. intros d Hd.
    exists d. split; [|reflexivity]. now apply run_query_incl in Hd.
Qed.

(** C1. For a viewer whose follow set has between 1 and 10 members, the
    home feed assembled by [fetchHomeFeed] holds only stored posts whose
    author is in the follow set, in descending order of creation time, and
    at most 20 of them. *)
Theorem home_feed_of_followed (env : Env) (s : St HomePage.State) :
  let following := HomePage.following (view s) in
  let feed := HomePage.posts (view (exec (HomePage.fetchHomeFeed env) s)) in
  (1 <= List.length following <= 10)%nat ->
  failsAt env (tick (world s)) = false ->
  Forall (fun p => In (Post.userId p) following) feed
  /\ StronglySorted
       (fun a b => (Post.createdAt b <= Post.createdAt a)%Z) feed
  /\ (List.length feed <= 20)%nat
  /\ Forall (fun p => exists d, In d (posts (world s))
                                /\ p = HomePage.toPost d) feed.
Proof.
  intros following feed [Hlo Hhi] Hok.
  destruct (followed_feed env s) as (Ha & Hrest); [exact Hlo|exact Hok|].
  split; [|exact Hrest].
  fold following in Ha. rewrite (firstn_all2 following Hhi) in Ha. exact Ha.
Qed.

Lemma home_feed_of_followed_witness :
  let feed := HomePage.posts
                (view (exec (HomePage.fetchHomeFeed calmEnv)
                            (homeOf ["bob"; "carol"]))) in
  map Post.id feed = ["p3"; "p2"; "p1"]
  /\ Forall (fun p => In (Post.userId p) ["bob"; "carol"]) feed
  /\ StronglySorted
       (fun a b => (Post.createdAt b <= Post.createdAt a)%Z) feed
  /\ (List.length feed <= 20)%nat.
Proof.
  split; [reflexivity|].
  destruct (home_feed_of_followed calmEnv (homeOf ["bob"; "carol"]))
    as (Ha & Hs & Hl & _).
  - simpl. lia.
  - reflexivity.
  - exact (conj Ha (conj Hs Hl)).
Defined.

(** C3. For a viewer following more than 10 identities, every item of the
    feed is authored by one of the first 10 followed (in the order of the
    follow list), so an identity that only occurs beyond the 10th position
    has no item in the feed. *)
Theorem home_feed_beyond_tenth (env : Env) (s : St HomePage.State) :
  let following := HomePage.following (view s) in
  let feed := HomePage.posts (view (exec (HomePage.fetchHomeFeed env) s)) in
  (10 < List.length following)%nat ->
  failsAt env (tick (world s)) = false ->
  Forall (fun p => In (Post.userId p) (firstn 10 following)) feed
  /\ forall author,
       In author (skipn 10 following) ->
       ~ In author (firstn 10 following) ->
       Forall (fun p => Post.userId p <> author) feed.
Proof.
  intros following feed Hlen Hok.
  destruct (followed_feed env s) as (Ha & _);
    [unfold following in Hlen; lia|exact Hok|].
  fold following in Ha. fold feed in Ha. split; [exact Ha|].
  intros author _ Hout. eapply Forall_impl; [|exact Ha].
  intros p Hp Heq. apply Hout. now rewrite <- Heq.
Qed.

Lemma home_feed_beyond_tenth_witness :
  let feed := HomePage.posts
                (view (exec (HomePage.fetchHomeFeed calmEnv)
                            (homeOf elevenFollowed))) in
  map Post.id feed = ["p3"; "p1"]
  /\ Forall (fun p => Post.userId p <> "dave") feed.
Proof.
  split; [reflexivity|].
  destruct (home_feed_beyond_tenth calmEnv (homeOf elevenFollowed))
    as (_ & Hb).
  - simpl. lia.
  - reflexivity.
  - apply Hb.
    + simpl. now left.
    + simpl. intros H. repeat (destruct H as [H|H]; [discriminate H|]).
      exact H.
Defined.

Lemma filter_all (A : Type) (f : A -> bool) (l : list A) :
  (forall x, f x = true) -> filter f l = l.
Proof.
  intros Hf. induction l as [|x l IH]; simpl; [reflexivity|].
  now rewrite Hf, IH.
Qed.

(** C2. For a viewer with no follow edge, the home feed is the 10 most-liked
    stored posts (all of them when fewer are stored), in descending order of
    like count: every stored post, public or not and whatever its age,
    either is in the feed or has no more likes than any item of the feed. *)
Theorem home_feed_of_nobody (env : Env) (s : St HomePage.State) :
  let feed := HomePage.posts (view (exec (HomePage.fetchHomeFeed env) s)) in
  HomePage.following (view s) = [] ->
  failsAt env (tick (world s)) = false ->
  List.length feed = Nat.min 10 (List.length (posts (world s)))
  /\ StronglySorted
       (fun a b => (Post.likeCount b <= Post.likeCount a)%Z) feed
  /\ exists rest,
       Permutation (posts (world s)) rest
       /\ feed = map HomePage.toPost (firstn 10 rest)
       /\ Forall (fun a => Forall (fun r =>
                    (p_likeCount (doc_data r) <= Post.likeCount a)%Z)
                    (skipn 10 rest)) feed.
Proof.
  intros feed Hnone Hok. unfold feed.
  rewrite (fetchHomeFeed_answered env s Hok), Hnone.
  unfold feedQuery. cbn [List.length Nat.ltb Nat.leb].
  unfold HomePage.popularQuery.
  destruct (run_query_ordered_limited [] p_likeCount 10 (posts (world s)))
    as (_ & Hs & Hl & _).
  rewrite filter_all in Hl by reflexivity.
  split; [now rewrite length_map|].
  split.
  - apply StronglySorted_map.
    eapply StronglySorted_weaken; [|exact Hs].
    intros a b. unfold HomePage.toPost. cbn [Post.likeCount].
    now rewrite !or_num_zero.
  - exists (sort_desc (fun d => p_likeCount (doc_data d)) (posts (world s))).
    split; [symmetry; apply sort_desc_perm|].
    unfold run_query. cbn [q_where q_orderByDesc q_limit].
    rewrite filter_all by reflexivity.
    split; [reflexivity|].
    apply Forall_map.
    pose proof (sort_desc_sorted (fun d => p_likeCount (doc_data d))
                                 (posts (world s))) as Hsorted.
    rewrite <- (firstn_skipn 10 (sort_desc _ _)) in Hsorted.
    apply StronglySorted_split in Hsorted. destruct Hsorted as [_ Hdom].
    eapply Forall_impl; [|exact Hdom].
    intros a Ha. eapply Forall_impl; [|exact Ha].
    intros r Hr. unfold HomePage.toPost. cbn [Post.likeCount].
    rewrite or_num_zero. exact Hr.
Qed.

Lemma home_feed_of_nobody_witness :
  let feed := HomePage.posts
                (view (exec (HomePage.fetchHomeFeed calmEnv) (homeOf []))) in
  map Post.id feed = ["p2"; "p4"; "p1"; "p3"]
  /\ List.length feed = Nat.min 10 4.
Proof.
  split; [reflexivity|].
  destruct (home_feed_of_nobody calmEnv (homeOf [])) as (Hl & _).
  - reflexivity.
  - reflexivity.
  - exact Hl.
Defined.

(** ** Likes *)

(** A list does not equal itself with something appended: a handler that
    left the notice log as it was raised no notice. *)
Ltac log_grew H :=
  exfalso; apply (f_equal (@List.length _)) in H;
  repeat rewrite length_app in H; simpl in H; lia.

Section DocFacts.
Variable D : Type.

Lemma has_doc_In (id : DocId) (docs : list (Doc D)) :
  has_doc id docs = true <-> In id (map (@doc_id D) docs).
Proof.
  unfold has_doc. rewrite existsb_exists, in_map_iff. split.
  - intros [d [Hin Heq]]. apply String.eqb_eq in Heq. now exists d.
  - intros [d [Heq Hin]]. exists d. split; [exact Hin|].
    now apply String.eqb_eq.
Qed.

Lemma set_doc_fresh (id : DocId) (data : D) (docs : list (Doc D)) :
  ~ In id (map (@doc_id D) docs) ->
  set_doc id data docs = docs ++ [mkDoc id data].
Proof.
  intros Hfresh. unfold set_doc.
  destruct (has_doc id docs) eqn:E; [|reflexivity].
  apply has_doc_In in E. contradiction.
Qed.

Lemma delete_doc_fresh (id : DocId) (docs : list (Doc D)) :
  ~ In id (map (@doc_id D) docs) -> delete_doc id docs = docs.
Proof.
  intros Hfresh. unfold delete_doc. induction docs as [|d docs IH];
    simpl in *; [reflexivity|].
  destruct (String.eqb (doc_id d) id) eqn:E.
  - apply String.eqb_eq in E. tauto.
  - simpl. f_equal. apply IH. tauto.
Qed.

Lemma delete_doc_added (id : DocId) (data : D) (docs : list (Doc D)) :
  ~ In id (map (@doc_id D) docs) ->
  delete_doc id (docs ++ [mkDoc id data]) = docs.
Proof.
  intros Hfresh. unfold delete_doc. rewrite filter_app.
  fold (delete_doc id docs). rewrite (delete_doc_fresh _ _ Hfresh).
  simpl. rewrite String.eqb_refl. simpl. apply app_nil_r.
Qed.

Lemma update_doc_twice (id : DocId) (f g : D -> D) (docs : list (Doc D)) :
  update_doc id g (update_doc id f docs)
  = update_doc id (fun d => g (f d)) docs.
Proof.
  unfold update_doc. rewrite map_map. apply map_ext. intros d.
  destruct (String.eqb (doc_id d) id) eqn:E; simpl; now rewrite E.
Qed.

Lemma update_doc_id (id : DocId) (f : D -> D) (docs : list (Doc D)) :
  (forall d, f d = d) -> update_doc id f docs = docs.
Proof.
  intros Hf. unfold update_doc. rewrite <- (map_id docs) at 2.
  apply map_ext. intros [i d]. simpl.
  destruct (String.eqb i id); [now rewrite Hf|reflexivity].
Qed.

Lemma get_doc_update (id : DocId) (f : D -> D) (docs : list (Doc D)) :
  get_doc id (update_doc id f docs) = option_map f (get_doc id docs).
Proof.
  unfold get_doc, update_doc. induction docs as [|d docs IH]; simpl;
    [reflexivity|].
  destruct (String.eqb (doc_id d) id) eqn:E; simpl; rewrite E;
    [reflexivity|exact IH].
Qed.

(** With distinct ids, deleting by the id of a stored document removes
    that document and nothing else. *)
Lemma delete_doc_one (d : Doc D) (docs : list (Doc D)) :
  NoDup (map (@doc_id D) docs) ->
  In d docs ->
  Permutation docs (d :: delete_doc (doc_id d) docs).
Proof.
  induction docs as [|x docs IH]; simpl; [tauto|].
  intros Hnd Hin. inversion Hnd as [|i ids Hx Hnd']; subst.
  destruct Hin as [->|Hin].
  - rewrite String.eqb_refl. simpl.
    rewrite delete_doc_fresh by exact Hx. reflexivity.
  - destruct (String.eqb (doc_id x) (doc_id d)) eqn:E.
    + apply String.eqb_eq in E. exfalso. apply Hx. rewrite E.
      now apply in_map.
    + simpl. rewrite (IH Hnd' Hin) at 1. apply perm_swap.
Qed.

Lemma get_doc_has (id : DocId) (docs : list (Doc D)) (d : D) :
  get_doc id docs = Some d -> has_doc id docs = true.
Proof.
  unfold get_doc, has_doc. intros H.
  destruct (find _ docs) as [x|] eqn:E; [|discriminate H].
  apply find_some in E. apply existsb_exists. now exists x.
Qed.

End DocFacts.

Lemma likeQuery_answer (post : Post.t) (u : Auth.User)
  (ls : list (Doc LikeData)) :
  run_query (PostCard.likeQuery post u) ls
  = sort_id (filter (matches (PostCard.likeQuery post u)) ls).
Proof. reflexivity. Qed.

Lemma likeQuery_matches_new (post : Post.t) (u : Auth.User) (i : DocId)
  (now : Z) :
  matches (PostCard.likeQuery post u)
          (mkDoc i (mkLikeData (Post.id post) (Auth.uid u) now)) = true.
Proof. unfold matches. simpl. now rewrite !String.eqb_refl. Qed.

(** A busy card, or a signed-out viewer, makes [handleLike] do nothing. *)
Lemma handleLike_busy (env : Env) (user : option Auth.User) (post : Post.t)
  (s : St PostCard.State) :
  user = None \/ PostCard.loading (view s) = true ->
  exec (PostCard.handleLike env user post) s = s.
Proof.
  destruct s as [w [lk n busy]]. unfold PostCard.handleLike. norm.
  intros [-> | ->]; [reflexivity|]. now destruct user.
Qed.

(** The notice log only grows. *)
Lemma handleLike_log (env : Env) (user : option Auth.User) (post : Post.t)
  (s : St PostCard.State) :
  exists l,
    ui (world (exec (PostCard.handleLike env user post) s))
    = ui (world s) ++ l.
Proof.
  destruct s as [[ps ls fs us rs t cs log] [lk n busy]].
  unfold PostCard.handleLike. destruct user as [u|], busy, lk;
    answer_cases;
    solve [ exists []; now rewrite app_nil_r
          | rewrite <- app_assoc; eexists; reflexivity ].
Qed.

(** A successful unlike: the first edge the query returns, if any, is
    deleted and
    the counter is decremented whether or not an edge was found. *)
Lemma handleLike_unlike_done (env : Env) (u : Auth.User) (post : Post.t)
  (s : St PostCard.State) :
  let s' := exec (PostCard.handleLike env (Some u) post) s in
  PostCard.liked (view s) = true ->
  PostCard.loading (view s) = false ->
  ui (world s') = ui (world s) ->
  has_doc (Post.id post) (posts (world s)) = true
  /\ view s' = PostCard.mkState false (PostCard.likeCount (view s) - 1) false
  /\ posts (world s')
     = update_doc (Post.id post) (set_likeCount (increment (-1)))
                  (posts (world s))
  /\ likes (world s')
     = match run_query (PostCard.likeQuery post u) (likes (world s)) with
       | d :: _ => delete_doc (doc_id d) (likes (world s))
       | [] => likes (world s)
       end
  /\ users (world s') = users (world s).
Proof.
  destruct s as [[ps ls fs us rs t cs log] [lk n busy]].
  unfold PostCard.handleLike. norm. intros -> ->.
  answer_cases; intros Hlog; try log_grew Hlog; repeat split; reflexivity.
Qed.

(** A successful like: a new edge with a fresh id is appended and the
    counter is incremented. *)
Lemma handleLike_like_done (env : Env) (u : Auth.User) (post : Post.t)
  (s : St PostCard.State) :
  let s' := exec (PostCard.handleLike env (Some u) post) s in
  PostCard.liked (view s) = false ->
  PostCard.loading (view s) = false ->
  ui (world s') = ui (world s) ->
  has_doc (Post.id post) (posts (world s)) = true
  /\ view s' = PostCard.mkState true (PostCard.likeCount (view s) + 1) false
  /\ posts (world s')
     = update_doc (Post.id post) (set_likeCount (increment 1))
                  (posts (world s))
  /\ (exists i now,
         ~ In i (map (@doc_id _) (likes (world s)))
         /\ likes (world s')
            = likes (world s)
              ++ [mkDoc i (mkLikeData (Post.id post) (Auth.uid u) now)])
  /\ users (world s') = users (world s).
Proof.
  destruct s as [[ps ls fs us rs t cs log] [lk n busy]].
  unfold PostCard.handleLike. norm. intros -> ->.
  answer_cases; intros Hlog; try log_grew Hlog; repeat split;
    try reflexivity.
  all: eexists; eexists; split; [apply (newId_fresh env)|];
    apply set_doc_fresh; apply (newId_fresh env).
Qed.

Lemma set_likeCount_undo (a b : Z) (d : PostData) :
  (a + b = 0)%Z ->
  set_likeCount (increment b) (set_likeCount (increment a) d) = d.
Proof.
  intros Hab. destruct d. unfold set_likeCount, increment. simpl.
  f_equal. lia.
Qed.

(** C4. [handleLike] is its own inverse: from a settled state (the card's
    liked flag agrees with the existence of the viewer's like edge), two
    invocations in sequence that both raise no failure notice restore the
    liked flag, the displayed count, the stored posts (so the item's stored
    like count) and the existence of the viewer's like edge. *)
Theorem toggleLike_twice (env : Env) (u : Auth.User) (post : Post.t)
  (s : St PostCard.State) :
  let s1 := exec (PostCard.handleLike env (Some u) post) s in
  let s2 := exec (PostCard.handleLike env (Some u) post) s1 in
  PostCard.liked (view s) = likedInStore post u (world s) ->
  ui (world s2) = ui (world s) ->
  PostCard.liked (view s2) = PostCard.liked (view s)
  /\ PostCard.likeCount (view s2) = PostCard.likeCount (view s)
  /\ posts (world s2) = posts (world s)
  /\ likedInStore post u (world s2) = likedInStore post u (world s).
Proof.
  intros s1 s2 Hsettled Hlog.
  destruct (PostCard.loading (view s)) eqn:Hbusy.
  { (* a busy card: both invocations return at once *)
    assert (E1 : s1 = s) by (apply handleLike_busy; now right).
    assert (E2 : s2 = s).
    { unfold s2. rewrite E1. apply handleLike_busy. now right. }
    rewrite E2. repeat split; reflexivity. }
  destruct (handleLike_log env (Some u) post s) as [l1 Hl1].
  destruct (handleLike_log env (Some u) post s1) as [l2 Hl2].
  fold s1 in Hl1. fold s2 in Hl2.
  assert (Hnil : l1 = [] /\ l2 = []).
  { rewrite Hl2, Hl1, <- app_assoc in Hlog.
    rewrite <- (app_nil_r (ui (world s))) in Hlog at 2.
    apply app_inv_head in Hlog. now apply app_eq_nil in Hlog. }
  destruct Hnil as [-> ->]. rewrite app_nil_r in Hl1, Hl2.
  destruct (PostCard.liked (view s)) eqn:Hliked.
  - (* unlike, then like *)
    destruct (handleLike_unlike_done env u post s Hliked Hbusy Hl1)
      as (_ & Hv1 & Hp1 & Hk1 & _).
    fold s1 in Hv1, Hp1, Hk1.
    destruct (handleLike_like_done env u post s1) as (_ & Hv2 & Hp2 & Hk2 & _);
      [now rewrite Hv1|now rewrite Hv1|exact Hl2|].
    fold s2 in Hv2, Hp2, Hk2. destruct Hk2 as (i & now & _ & Hk2).
    rewrite Hv2, Hv1. simpl. repeat split.
    + lia.
    + rewrite Hp2, Hp1, update_doc_twice. apply update_doc_id.
      intros d. now apply set_likeCount_undo.
    + rewrite <- Hsettled. unfold likedInStore.
      rewrite Hk2, likeQuery_answer, filter_app. simpl.
      rewrite likeQuery_matches_new.
      destruct (sort_id _) eqn:E; [|reflexivity].
      apply (proj1 (sort_id_nil _)), app_eq_nil in E. destruct E as [_ E].
      discriminate E.
  - (* like, then unlike *)
    destruct (handleLike_like_done env u post s Hliked Hbusy Hl1)
      as (_ & Hv1 & Hp1 & Hk1 & _).
    fold s1 in Hv1, Hp1, Hk1. destruct Hk1 as (i & now & Hfresh & Hk1).
    destruct (handleLike_unlike_done env u post s1)
      as (_ & Hv2 & Hp2 & Hk2 & _);
      [now rewrite Hv1|now rewrite Hv1|exact Hl2|].
    fold s2 in Hv2, Hp2, Hk2.
    assert (Hnone : filter (matches (PostCard.likeQuery post u))
                           (likes (world s)) = []).
    { unfold likedInStore in Hsettled.
      rewrite likeQuery_answer in Hsettled.
      destruct (sort_id _) eqn:E; [|discriminate Hsettled].
      exact (proj1 (sort_id_nil _) E). }
    assert (Hback : likes (world s2) = likes (world s)).
    { rewrite Hk2, Hk1, likeQuery_answer, filter_app, Hnone. simpl.
      rewrite likeQuery_matches_new. unfold sort_id, sort_by. simpl.
      now apply delete_doc_added. }
    rewrite Hv2, Hv1. simpl. repeat split.
    + lia.
    + rewrite Hp2, Hp1, update_doc_twice. apply update_doc_id.
      intros d. now apply set_likeCount_undo.
    + unfold likedInStore. now rewrite Hback.
Qed.

Lemma toggleLike_twice_witness :
  let s := mkSt sampleWorld (PostCard.mkState true 5 false) in
  let s1 := exec (PostCard.handleLike calmEnv (Some alice) p1Card) s in
  let s2 := exec (PostCard.handleLike calmEnv (Some alice) p1Card) s1 in
  (PostCard.liked (view s1) = false
   /\ get_doc "p1" (posts (world s1))
      = Some (samplePost "bob" 100 4 true))
  /\ PostCard.liked (view s2) = true
  /\ PostCard.likeCount (view s2) = 5%Z
  /\ posts (world s2) = posts sampleWorld
  /\ likedInStore p1Card alice (world s2) = true.
Proof.
  split; [split; reflexivity|].
  apply (toggleLike_twice calmEnv alice p1Card
           (mkSt sampleWorld (PostCard.mkState true 5 false)));
    reflexivity.
Defined.

(** C9. An unlike (liked flag set) whose [likes] query is answered with no
    edge of the viewer issues no deletion but still issues the [-1]
    adjustment: the like edges are untouched and, when the adjustment is
    accepted, the stored like count is one less, so from a count equal to
    the number of edges, or equal to zero, it ends below the number of
    edges, or below zero. *)
Theorem unlike_without_edge (env : Env) (u : Auth.User) (post : Post.t)
  (s : St PostCard.State) (d : PostData) :
  let s' := exec (PostCard.handleLike env (Some u) post) s in
  PostCard.liked (view s) = true ->
  PostCard.loading (view s) = false ->
  likedInStore post u (world s) = false ->
  failsAt env (tick (world s)) = false ->
  get_doc (Post.id post) (posts (world s)) = Some d ->
  calls (world s')
  = calls (world s) ++ [CGetDocs "likes"; CUpdateDoc "posts" (Post.id post)]
  /\ likes (world s') = likes (world s)
  /\ likeEdges (Post.id post) (world s') = likeEdges (Post.id post) (world s)
  /\ (failsAt env (S (tick (world s))) = false ->
      get_doc (Post.id post) (posts (world s'))
      = Some (set_likeCount (increment (-1)) d)
      /\ p_likeCount (set_likeCount (increment (-1)) d)
         = (p_likeCount d - 1)%Z
      /\ PostCard.likeCount (view s')
         = (PostCard.likeCount (view s) - 1)%Z
      /\ PostCard.liked (view s') = false).
Proof.
  destruct s as [[ps ls fs us rs t cs log] [lk n busy]].
  unfold PostCard.handleLike, likedInStore, likeEdges. norm.
  intros -> -> Hnone Hok Hd. rewrite Hok. norm.
  destruct (run_query (PostCard.likeQuery post u) ls) eqn:Hq;
    [clear Hnone|discriminate Hnone].
  pose proof (get_doc_has _ _ Hd) as Hhas.
  answer_cases; try congruence.
  - split; [now rewrite <- app_assoc|]. do 2 (split; [reflexivity|]).
    intros Hko. discriminate Hko.
  - split; [now rewrite <- app_assoc|]. do 2 (split; [reflexivity|]).
    intros _. repeat split. now rewrite get_doc_update, Hd.
Qed.

Lemma unlike_without_edge_witness :
  let s := mkSt zeroLikes (PostCard.mkState true 0 false) in
  let s' := exec (PostCard.handleLike calmEnv (Some alice) p3Card) s in
  likeEdges "p3" (world s') = 0%Z
  /\ option_map p_likeCount (get_doc "p3" (posts (world s'))) = Some (-1)%Z
  /\ PostCard.likeCount (view s') = (-1)%Z.
Proof.
  destruct (unlike_without_edge calmEnv alice p3Card
              (mkSt zeroLikes (PostCard.mkState true 0 false))
              (d := samplePost "bob" 300 0 true))
    as (_ & _ & He & Hdone); try reflexivity.
  destruct (Hdone eq_refl) as (Hg & _ & Hc & _).
  split; [exact He|].
  split; [exact (f_equal (option_map p_likeCount) Hg)|exact Hc].
Defined.

(** ** Follows *)

(** C7. Whatever the state and the environment, [handleFollow] (follow or
    unfollow) leaves every user document, so every follower and following
    counter, as it was and issues no call other than reads and writes on
    [follows]: a follow at most appends one edge with a fresh id, an
    unfollow at most deletes the first edge its query returns. *)
Theorem follow_leaves_counters (env : Env) (currentUser : option Auth.User)
  (user : UserCard.Props) (s : St UserCard.State) :
  let s' := exec (UserCard.handleFollow env currentUser user) s in
  users (world s') = users (world s)
  /\ posts (world s') = posts (world s)
  /\ (exists issued,
         calls (world s') = calls (world s) ++ issued
         /\ forallb follow_call issued = true)
  /\ (follows (world s') = follows (world s)
      \/ (exists cu i now,
             currentUser = Some cu
             /\ UserCard.isFollowing (view s) = false
             /\ ~ In i (map (@doc_id _) (follows (world s)))
             /\ follows (world s')
                = follows (world s)
                  ++ [mkDoc i (mkFollowData (Auth.uid cu)
                                            (UserCard.uid user) now)])
      \/ (exists cu d rest,
             currentUser = Some cu
             /\ UserCard.isFollowing (view s) = true
             /\ run_query (UserCard.followQuery user cu) (follows (world s))
                = d :: rest
             /\ follows (world s')
                = delete_doc (doc_id d) (follows (world s)))).
Proof.
  destruct s as [[ps ls fs us rs t cs log] [following busy]].
  unfold UserCard.handleFollow.
  destruct currentUser as [cu|], busy, following; answer_cases.
  all: repeat split; try reflexivity.
  all: try (exists []; now rewrite app_nil_r).
  all: try (repeat rewrite <- app_assoc; eexists; split; reflexivity).
  all: try (now left).
  - right. right. exists cu. eexists. eexists. repeat split. eassumption.
  - right. left. exists cu. eexists. eexists. repeat split.
    + apply (newId_fresh env).
    + apply set_doc_fresh. apply (newId_fresh env).
Qed.

(** On the sample data: Alice follows Carol by a new edge, and unfollows
    Bob by deleting her one edge to him; no user document changes. *)
Example follow_carol :
  let carol := UserCard.mkProps "carol" "carol" "carol" false 0 in
  let s' := exec (UserCard.handleFollow calmEnv (Some alice) carol)
                 (mkSt sampleWorld (UserCard.mkState false false)) in
  map (fun d => (f_followerId (doc_data d), f_followingId (doc_data d)))
      (follows (world s'))
  = [("alice", "bob"); ("alice", "carol")]
  /\ users (world s') = users sampleWorld
  /\ ui (world s') = [Toast "Following" "You are now following @carol"
                            vDefault].
Proof. repeat split. Qed.

Example unfollow_bob :
  let bob := UserCard.mkProps "bob" "bob" "bob" false 0 in
  let s' := exec (UserCard.handleFollow calmEnv (Some alice) bob)
                 (mkSt sampleWorld (UserCard.mkState true false)) in
  follows (world s') = []
  /\ users (world s') = users sampleWorld
  /\ calls (world s') = [CGetDocs "follows"; CDeleteDoc "follows" "f1"].
Proof. repeat split. Qed.

(** ** Creating a post *)

(** C10. Text that is empty after trimming is rejected before anything
    else happens: the only effect is the "Please enter some text" notice
    (no call, so no query; no item; no counter change; the form is
    untouched).  And whatever the text, the posts are either unchanged or
    extended by one item whose text is the trimmed, non-empty input. *)
Theorem createPost_blank_text (env : Env) (user : option Auth.User)
  (userProfile : option Auth.UserProfile) (s : St CreatePage.State) :
  let s' := exec (CreatePage.handleSubmit env user userProfile) s in
  let trimmed := JS.trim (CreatePage.text (view s)) in
  (trimmed = [] ->
   s' = mkSt (with_ui (ui (world s) ++ [CreatePage.enterText]) (world s))
             (view s))
  /\ (posts (world s') = posts (world s)
      \/ exists i d,
           ~ In i (map (@doc_id _) (posts (world s)))
           /\ posts (world s') = posts (world s) ++ [mkDoc i d]
           /\ p_text d = trimmed
           /\ trimmed <> []).
Proof.
  destruct s as [[ps ls fs us rs t cs log] [txt img busy]].
  unfold CreatePage.handleSubmit. norm.
  destruct (JS.trim txt) as [|c trimmed] eqn:Htrim; cbn [JS.truthy negb].
  - split; [reflexivity|now left].
  - split; [discriminate|].
    destruct user as [u|], userProfile as [profile|]; try (now left).
    answer_cases; cbn [negb]; answer_cases; try (now left).
    all: right; eexists; eexists; (split; [apply (newId_fresh env)|]);
      (split; [apply set_doc_fresh; apply (newId_fresh env)|]);
      split; [reflexivity|discriminate].
Qed.

Lemma createPost_blank_text_witness :
  let s := mkSt sampleWorld (CreatePage.mkState [32; 9; 10]%N [] false) in
  let s' := exec (CreatePage.handleSubmit calmEnv (Some alice)
                                          (Some aliceProfile)) s in
  calls (world s') = [] /\ posts (world s') = posts sampleWorld
  /\ users (world s') = users sampleWorld
  /\ ui (world s') = [CreatePage.enterText].
Proof.
  destruct (createPost_blank_text calmEnv (Some alice) (Some aliceProfile)
              (mkSt sampleWorld (CreatePage.mkState [32; 9; 10]%N [] false)))
    as (Hblank & _).
  cbv zeta. rewrite (Hblank eq_refl). repeat split.
Defined.

(** The rate-limit query finds a recent post of the author when there is
    one. *)
Lemma recent_post_found (u : Auth.User) (oneMinuteAgo : Z)
  (ps : list (Doc PostData)) (d : Doc PostData) :
  In d ps ->
  p_userId (doc_data d) = Auth.uid u ->
  (oneMinuteAgo < p_createdAt (doc_data d))%Z ->
  run_query (CreatePage.recentPostsQuery u oneMinuteAgo) ps <> [].
Proof.
  intros Hin Hauthor Hrecent Hempty.
  destruct (run_query_ordered_limited
              [fun d => String.eqb (p_userId d) (Auth.uid u);
               fun d => (oneMinuteAgo <? p_createdAt d)%Z]
              p_createdAt 1 ps) as (_ & _ & Hlen & _).
  fold (CreatePage.recentPostsQuery u oneMinuteAgo) in Hlen.
  rewrite Hempty in Hlen.
  assert (Hd : In d (filter (matches (CreatePage.recentPostsQuery u
                                        oneMinuteAgo)) ps)).
  { apply filter_In. split; [exact Hin|]. unfold matches. simpl.
    rewrite Hauthor, String.eqb_refl.
    apply Z.ltb_lt in Hrecent. now rewrite Hrecent. }
  destruct (filter _ ps); [contradiction|discriminate Hlen].
Qed.

(** Listing what a run appended to the notice log decides how it ended. *)
Ltac log_differs H :=
  exfalso; repeat rewrite <- app_assoc in H; simpl in H;
  first [ apply app_inv_head in H; discriminate H
        | rewrite <- (app_nil_r (ui _)) in H at 1;
          apply app_inv_head in H; discriminate H
        | match type of H with
          | ?l = _ => rewrite <- (app_nil_r l) in H at 1;
                      apply app_inv_head in H; discriminate H
          end ].






(** ** Verification decisions *)

Lemma approved_with_target_spec (decision : Decision)
  (userId : option DocId) (target : DocId) :
  AdminPage.approved_with_target decision userId = Some target
  <-> decision = approved /\ userId = Some target /\ target <> "".
Proof.
  unfold AdminPage.approved_with_target.
  destruct decision, userId as [[|c i]|]; simpl; split;
    try (intros H; discriminate H);
    try (intros (H1 & H2 & H3); congruence).
  intros H. injection H as <-. repeat split. discriminate.
Qed.

Lemma update_doc_ext (D : Type) (id : DocId) (f g : D -> D)
  (docs : list (Doc D)) :
  (forall d, f d = g d) -> update_doc id f docs = update_doc id g docs.
Proof.
  intros Hfg. unfold update_doc. apply map_ext. intros d.
  destruct (String.eqb (doc_id d) id); [now rewrite Hfg|reflexivity].
Qed.

(** A decision that ends with its confirmation notice: the request exists
    and gets the status, the time read at the start and the reviewer's id;
    the target's flag is written exactly when [approved_with_target]. *)
Lemma decision_done (env : Env) (u : Auth.User) (s : St AdminPage.State)
  (requestId : DocId) (decision : Decision) (userId : option DocId) :
  let s' := exec (AdminPage.handleVerificationDecision
                    env (Some u) requestId decision userId) s in
  ui (world s') = ui (world s) ++ [decidedToast decision] ->
  has_doc requestId (verificationRequests (world s)) = true
  /\ verificationRequests (world s')
     = update_doc requestId
                  (set_review (decided decision)
                              (clockAt env (tick (world s))) (Auth.uid u))
                  (verificationRequests (world s))
  /\ users (world s')
     = match AdminPage.approved_with_target decision userId with
       | Some target =>
           update_doc target (set_isVerified true) (users (world s))
       | None => users (world s)
       end
  /\ calls (world s')
     = calls (world s)
       ++ CUpdateDoc "verificationRequests" requestId
          :: match AdminPage.approved_with_target decision userId with
             | Some target => [CUpdateDoc "users" target]
             | None => []
             end
  /\ match AdminPage.approved_with_target decision userId with
     | Some target => has_doc target (users (world s)) = true
     | None => True
     end
  /\ tick (world s')
     = match AdminPage.approved_with_target decision userId with
       | Some target => S (S (S (tick (world s))))
       | None => S (S (tick (world s)))
       end.
Proof.
  destruct s as [[ps ls fs us rs t cs log] [reqs busy]].
  unfold AdminPage.handleVerificationDecision, decidedToast.
  destruct (AdminPage.approved_with_target decision userId) as [target|];
    answer_cases; intros Hlog; try log_differs Hlog.
  all: repeat split; try reflexivity; try assumption;
    now repeat rewrite <- app_assoc.
Qed.

Lemma set_review_twice (st1 st2 : Status) (t1 t2 : Z) (b1 b2 : string)
  (r : RequestData) :
  set_review st2 t2 b2 (set_review st1 t1 b1 r) = set_review st2 t2 b2 r.
Proof. reflexivity. Qed.

Lemma set_isVerified_twice (b : bool) (d : UserData) :
  set_isVerified b (set_isVerified b d) = set_isVerified b d.
Proof. reflexivity. Qed.

(** C8, as the code has it.  A decision that ends with its confirmation
    notice writes the status, the review time and the reviewer on the
    request, and sets the target's verification flag to true exactly when
    the outcome is "approved" and a (non-empty) target id is supplied.
    Re-applying an approval leaves the status and every user document (so
    the flag) as they were, but writes the review time and the reviewer
    again: the request ends as after the first decision except for these
    two fields, which carry the second invocation's values. *)
Theorem decision_effect_and_reapply (env : Env) (u u2 : Auth.User)
  (s : St AdminPage.State) (requestId : DocId) (decision : Decision)
  (userId : option DocId) :
  let decide who d :=
    exec (AdminPage.handleVerificationDecision
            env (Some who) requestId d userId) in
  let s1 := decide u decision s in
  ui (world s1) = ui (world s) ++ [decidedToast decision] ->
  (* the decision *)
  (verificationRequests (world s1)
   = update_doc requestId
                (set_review (decided decision)
                            (clockAt env (tick (world s))) (Auth.uid u))
                (verificationRequests (world s))
   /\ (forall target,
         decision = approved /\ userId = Some target /\ target <> "" ->
         users (world s1)
         = update_doc target (set_isVerified true) (users (world s))
         /\ In (CUpdateDoc "users" target) (calls (world s1)))
   /\ (~ (exists target,
            decision = approved /\ userId = Some target /\ target <> "") ->
       users (world s1) = users (world s)
       /\ calls (world s1)
          = calls (world s)
            ++ [CUpdateDoc "verificationRequests" requestId]))
  (* the approval applied again *)
  /\ (decision = approved ->
      let s2 := decide u2 approved s1 in
      ui (world s2) = ui (world s1) ++ [decidedToast approved] ->
      users (world s2) = users (world s1)
      /\ verificationRequests (world s2)
         = update_doc requestId
                      (set_review (decided approved)
                                  (clockAt env (tick (world s1)))
                                  (Auth.uid u2))
                      (verificationRequests (world s))
      /\ (clockAt env (tick (world s1)) = clockAt env (tick (world s)) ->
          Auth.uid u2 = Auth.uid u ->
          verificationRequests (world s2)
          = verificationRequests (world s1))).
Proof.
  intros decide s1 Hlog1.
  destruct (decision_done env u s requestId decision userId Hlog1)
    as (_ & Hr1 & Hu1 & Hc1 & _).
  fold (decide u decision s) in Hr1, Hu1, Hc1. fold s1 in Hr1, Hu1, Hc1.
  split; [split; [exact Hr1|split]|].
  - intros target Htarget. apply approved_with_target_spec in Htarget.
    rewrite Htarget in Hu1, Hc1. split; [exact Hu1|].
    rewrite Hc1. apply in_or_app. right. simpl. tauto.
  - intros Hnone.
    destruct (AdminPage.approved_with_target decision userId)
      as [target|] eqn:E.
    + exfalso. apply Hnone. exists target.
      now apply approved_with_target_spec.
    + split; [exact Hu1|exact Hc1].
  - intros -> s2 Hlog2.
    destruct (decision_done env u2 s1 requestId approved userId Hlog2)
      as (_ & Hr2 & Hu2 & _).
    fold (decide u2 approved s1) in Hr2, Hu2. fold s2 in Hr2, Hu2.
    assert (Hreq : verificationRequests (world s2)
                   = update_doc requestId
                       (set_review (decided approved)
                                   (clockAt env (tick (world s1)))
                                   (Auth.uid u2))
                       (verificationRequests (world s))).
    { rewrite Hr2, Hr1, update_doc_twice. apply update_doc_ext.
      intros r. apply set_review_twice. }
    split; [|split; [exact Hreq|]].
    + rewrite Hu2, Hu1.
      destruct (AdminPage.approved_with_target approved userId);
        [|reflexivity].
      rewrite update_doc_twice. apply update_doc_ext.
      intros x. apply set_isVerified_twice.
    + intros Hclock Hsame. rewrite Hreq, Hr1, Hclock, Hsame. reflexivity.
Qed.

Lemma decision_effect_and_reapply_witness :
  let decide :=
    exec (AdminPage.handleVerificationDecision
            tickingEnv (Some alice) "r1" approved (Some "bob")) in
  let s1 := decide (adminOf sampleWorld) in
  let s2 := decide s1 in
  verificationRequests (world s1)
  = [mkDoc "r1" (mkRequestData "bob" "bob" "bob" (decided approved) 60
                               (Some 1000%Z) (Some "alice"))]
  /\ option_map u_isVerified (get_doc "bob" (users (world s1))) = Some true
  /\ users (world s2) = users (world s1)
  /\ verificationRequests (world s2)
     = [mkDoc "r1" (mkRequestData "bob" "bob" "bob" (decided approved) 60
                                  (Some 1003%Z) (Some "alice"))].
Proof.
  destruct (decision_effect_and_reapply tickingEnv alice alice
              (adminOf sampleWorld) "r1" approved (Some "bob"))
    as ((Hr & Hu & _) & Hagain).
  - reflexivity.
  - split; [exact Hr|].
    destruct (Hu "bob") as (Hu' & _); [repeat split; discriminate|].
    split; [cbv zeta; rewrite Hu'; reflexivity|].
    destruct (Hagain eq_refl) as (Hu2 & Hr2 & _); [reflexivity|].
    split; [exact Hu2|exact Hr2].
Defined.

(** C8 does not hold of the review time: re-applying an approval moves it
    from the first to the second invocation's clock reading, so the stored
    request is not the same. *)
Lemma reapplied_approval_changes_review_time :
  let decide :=
    exec (AdminPage.handleVerificationDecision
            tickingEnv (Some alice) "r1" approved (Some "bob")) in
  let s1 := decide (adminOf sampleWorld) in
  let s2 := decide s1 in
  option_map r_status (get_doc "r1" (verificationRequests (world s1)))
  = Some (decided approved)
  /\ option_map r_reviewedAt
                (get_doc "r1" (verificationRequests (world s1)))
     = Some (Some 1000%Z)
  /\ option_map r_reviewedAt
                (get_doc "r1" (verificationRequests (world s2)))
     = Some (Some 1003%Z)
  /\ verificationRequests (world s2) <> verificationRequests (world s1).
Proof.
  repeat split; try reflexivity. intros H. discriminate H.
Qed.

(** * Further properties: the rest of the pages *)

Unset Implicit Arguments.

Ltac xnorm :=
  norm;
  cbv beta iota zeta delta
    [exec finally try_catch bind ret throw get_view set_view get_world
     set_world emit toast console_error navigate newDate remote newDocRef
     getDocs setDoc addDoc updateDoc deleteDoc
     fst snd world view
     posts likes follows users verificationRequests tick calls ui
     with_posts with_likes with_follows with_users
     with_verificationRequests with_tick with_calls with_ui
     c_name c_get c_set
     posts_c likes_c follows_c users_c verificationRequests_c
     ExplorePage.setPosts ExplorePage.setLoading
     ExplorePage.searchTerm ExplorePage.posts ExplorePage.users
     ExplorePage.loading ExplorePage.searchLoading
     ProfilePage.setPosts ProfilePage.setIsFollowing
     ProfilePage.posts ProfilePage.loading ProfilePage.isFollowing
     SettingsPage.setIsPrivate SettingsPage.setLoading
     SettingsPage.isPrivate SettingsPage.loading
     AdminStats.setStats AdminStats.setLoading
     AdminStats.stats AdminStats.loading] in *.

Ltac xcases :=
  repeat (xnorm;
          match goal with
          | |- context [if failsAt ?e ?t then _ else _] =>
              destruct (failsAt e t) eqn:?
          | |- context [match run_query ?q ?l with _ => _ end] =>
              destruct (run_query q l) eqn:?
          | |- context [if has_doc ?i ?l then _ else _] =>
              destruct (has_doc i l) eqn:?
          end);
  xnorm.

(** ** The age label *)

Lemma numberToString_negative (n : Z) :
  (n < 0)%Z -> exists digits, numberToString n = String "-"%char digits.
Proof.
  destruct n as [|p|p]; try lia. intros _.
  unfold numberToString. simpl. eexists. reflexivity.
Qed.

(** X1. The label of a post that is not dated in the future: whole minutes
    (0 to 59) below one hour, whole hours (1 to 23) below one day, whole
    days (at least 1) from then on, the days being the floor of the age
    in days although they are computed from the whole hours. *)
Theorem formatDate_units (now date : Z) :
  let age := (now - date)%Z in
  ((0 <= age < 3600000)%Z ->
   formatDate now date = (numberToString (age / 60000) ++ "m")%string
   /\ (0 <= age / 60000 <= 59)%Z)
  /\ ((3600000 <= age < 86400000)%Z ->
      formatDate now date = (numberToString (age / 3600000) ++ "h")%string
      /\ (1 <= age / 3600000 <= 23)%Z)
  /\ ((86400000 <= age)%Z ->
      formatDate now date = (numberToString (age / 86400000) ++ "d")%string
      /\ (1 <= age / 86400000)%Z).
Proof.
  intros age. unfold formatDate. fold age.
  change (1000 * 60 * 60)%Z with 3600000%Z.
  change (1000 * 60)%Z with 60000%Z.
  repeat split.
  - assert (age / 3600000 = 0)%Z as -> by (apply Z.div_small; lia).
    reflexivity.
  - apply Z.div_pos; lia.
  - assert (age / 60000 < 60)%Z by (apply Z.div_lt_upper_bound; lia). lia.
  - assert (1 <= age / 3600000)%Z by (apply Z.div_le_lower_bound; lia).
    assert (age / 3600000 < 24)%Z by (apply Z.div_lt_upper_bound; lia).
    destruct (age / 3600000 <? 1)%Z eqn:E1; [apply Z.ltb_lt in E1; lia|].
    destruct (age / 3600000 <? 24)%Z eqn:E2; [reflexivity|].
    apply Z.ltb_ge in E2. lia.
  - apply Z.div_le_lower_bound; lia.
  - assert (age / 3600000 < 24)%Z by (apply Z.div_lt_upper_bound; lia). lia.
  - assert (24 <= age / 3600000)%Z by (apply Z.div_le_lower_bound; lia).
    destruct (age / 3600000 <? 1)%Z eqn:E1; [apply Z.ltb_lt in E1; lia|].
    destruct (age / 3600000 <? 24)%Z eqn:E2; [apply Z.ltb_lt in E2; lia|].
    rewrite Z.div_div by lia. reflexivity.
  - apply Z.div_le_lower_bound; lia.
Qed.

Lemma formatDate_units_witness :
  formatDate 7200000 3660000 = "59m"
  /\ formatDate 90000000 3600001 = "23h"
  /\ formatDate 200000000 0 = "2d".
Proof.
  destruct (formatDate_units 7200000 3660000)%Z as (Hm & _ & _).
  destruct (formatDate_units 90000000 3600001)%Z as (_ & Hh & _).
  destruct (formatDate_units 200000000 0)%Z as (_ & _ & Hd).
  destruct Hm as (Hm & _); [simpl; lia|].
  destruct Hh as (Hh & _); [simpl; lia|].
  destruct Hd as (Hd & _); [simpl; lia|].
  rewrite Hm, Hh, Hd. repeat split.
Defined.

(** X2. A post dated after the clock reading is labelled in minutes with a
    negative number: the label starts with a minus sign and ends in "m",
    however far in the future the date is. *)
Theorem formatDate_future (now date : Z) :
  (now < date)%Z ->
  ((now - date) / 60000 <= -1)%Z
  /\ formatDate now date = (numberToString ((now - date) / 60000) ++ "m")%string
  /\ exists digits, formatDate now date = (String "-"%char digits ++ "m")%string.
Proof.
  intros Hfuture. unfold formatDate.
  change (1000 * 60 * 60)%Z with 3600000%Z.
  change (1000 * 60)%Z with 60000%Z.
  assert (Hh : ((now - date) / 3600000 < 0)%Z)
    by (apply Z.div_lt_upper_bound; lia).
  assert (Hm : ((now - date) / 60000 < 0)%Z)
    by (apply Z.div_lt_upper_bound; lia).
  destruct ((now - date) / 3600000 <? 1)%Z eqn:E;
    [|apply Z.ltb_ge in E; lia].
  split; [lia|]. split; [reflexivity|].
  destruct (numberToString_negative _ Hm) as [digits Hd].
  exists digits. now rewrite Hd.
Qed.

Lemma formatDate_future_witness :
  formatDate 1000 1001 = "-1m" /\ formatDate 0 86400000 = "-1440m".
Proof.
  destruct (formatDate_future 1000 1001)%Z as (_ & H1 & _); [lia|].
  destruct (formatDate_future 0 86400000)%Z as (_ & H2 & _); [lia|].
  rewrite H1, H2. split; reflexivity.
Defined.

(** ** Posting: the rate limit at its boundary, progress, failure *)

Lemma filter_nil_iff (A : Type) (f : A -> bool) (l : list A) :
  filter f l = [] <-> Forall (fun x => f x = false) l.
Proof.
  induction l as [|x l IH]; simpl.
  - split; [constructor|reflexivity].
  - destruct (f x) eqn:E.
    + split; [discriminate|]. intros H. inversion H. congruence.
    + rewrite IH. split; [now constructor|]. intros H. now inversion H.
Qed.

(** The rate-limit query answers nothing exactly when the author has no
    post created after [oneMinuteAgo]. *)
Lemma recentPostsQuery_empty (u : Auth.User) (oneMinuteAgo : Z)
  (ps : list (Doc PostData)) :
  run_query (CreatePage.recentPostsQuery u oneMinuteAgo) ps = []
  <-> Forall (fun d => p_userId (doc_data d) = Auth.uid u ->
                       (p_createdAt (doc_data d) <= oneMinuteAgo)%Z) ps.
Proof.
  destruct (run_query_ordered_limited
              [fun d => String.eqb (p_userId d) (Auth.uid u);
               fun d => (oneMinuteAgo <? p_createdAt d)%Z]
              p_createdAt 1 ps) as (_ & _ & Hlen & _).
  fold (CreatePage.recentPostsQuery u oneMinuteAgo) in Hlen.
  assert (Hempty : run_query (CreatePage.recentPostsQuery u oneMinuteAgo) ps
                   = []
                   <-> filter (matches (CreatePage.recentPostsQuery
                                          u oneMinuteAgo)) ps = []).
  { split; intros H.
    - rewrite H in Hlen. destruct (filter _ ps); [reflexivity|].
      discriminate Hlen.
    - rewrite H in Hlen.
      destruct (run_query _ ps); [reflexivity|discriminate Hlen]. }
  rewrite Hempty, filter_nil_iff.
  split; apply Forall_impl; intros d; unfold matches; simpl;
    rewrite andb_true_r.
  - intros Hno Hauthor. rewrite Hauthor, String.eqb_refl in Hno.
    simpl in Hno. now apply Z.ltb_ge in Hno.
  - intros Hold. destruct (String.eqb _ _) eqn:E; [|reflexivity].
    apply String.eqb_eq in E. simpl. apply Z.ltb_ge. now apply Hold.
Qed.

(** X3. [checkRateLimit], when its query is answered, allows the post
    exactly when every post of the author was created at or before
    [now - 60000]: a post exactly 60 seconds old no longer blocks, a post
    dated in the future does.  It writes nothing, and a signed-out caller
    is refused without any call. *)
Theorem checkRateLimit_decides (env : Env) (u : Auth.User)
  (s : St CreatePage.State) :
  let now := clockAt env (tick (world s)) in
  let run := CreatePage.checkRateLimit env (Some u) s in
  failsAt env (S (tick (world s))) = false ->
  (exists canPost,
      snd run = Done canPost
      /\ (canPost = true
          <-> Forall (fun d => p_userId (doc_data d) = Auth.uid u ->
                               (p_createdAt (doc_data d) <= now - 60000)%Z)
                     (posts (world s))))
  /\ posts (world (fst run)) = posts (world s)
  /\ users (world (fst run)) = users (world s)
  /\ calls (world (fst run)) = calls (world s) ++ [CGetDocs "posts"]
  /\ CreatePage.checkRateLimit env None s = (s, Done false).
Proof.
  destruct s as [[ps ls fs us rs t cs log] [txt img busy]].
  unfold CreatePage.checkRateLimit. xnorm. intros Hok. rewrite Hok. xnorm.
  change (60 * 1000)%Z with 60000%Z.
  split; [|repeat split].
  pose proof (recentPostsQuery_empty u (clockAt env t - 60000) ps) as Hq.
  destruct (run_query _ ps) as [|d rest].
  - exists true. split; [reflexivity|]. split; [intros _|reflexivity].
    now apply Hq.
  - exists false. split; [reflexivity|]. split; [discriminate|].
    intros Hall. apply Hq in Hall. discriminate Hall.
Qed.

Lemma checkRateLimit_decides_witness :
  let at_ (created : Z) :=
    mkSt (with_posts [mkDoc "p" (samplePost "alice" created 0 true)]
                     sampleWorld)
         CreatePage.init in
  snd (CreatePage.checkRateLimit (mkTestEnv (fun _ => 100000%Z)
                                            (fun _ => false))
                                 (Some alice) (at_ 40000%Z)) = Done true
  /\ snd (CreatePage.checkRateLimit (mkTestEnv (fun _ => 100000%Z)
                                               (fun _ => false))
                                    (Some alice) (at_ 40001%Z)) = Done false.
Proof.
  intros at_.
  destruct (checkRateLimit_decides
              (mkTestEnv (fun _ => 100000%Z) (fun _ => false)) alice
              (at_ 40000%Z) eq_refl) as ((b & Hb & Hiff) & _).
  destruct (checkRateLimit_decides
              (mkTestEnv (fun _ => 100000%Z) (fun _ => false)) alice
              (at_ 40001%Z) eq_refl) as ((b' & Hb' & Hiff') & _).
  split.
  - rewrite Hb. f_equal. apply Hiff. repeat constructor. simpl. lia.
  - rewrite Hb'. f_equal. destruct b'; [|reflexivity].
    destruct Hiff' as [Hall _]. specialize (Hall eq_refl).
    inversion Hall as [|x l Hx _]; subst. simpl in Hx.
    specialize (Hx eq_refl). lia.
Defined.

Lemma handleSubmit_accepted (env : Env) (u : Auth.User)
  (profile : Auth.UserProfile) (s : St CreatePage.State) :
  let s' := exec (CreatePage.handleSubmit env (Some u) (Some profile)) s in
  reachesInsert env u s ->
  failsAt env (5 + tick (world s)) = false ->
  has_doc (Auth.uid u) (users (world s)) = true ->
  posts (world s') = insertedPosts env u profile s
  /\ users (world s')
     = update_doc (Auth.uid u) (set_postCount (increment 1))
                  (users (world s))
  /\ ui (world s') = ui (world s) ++ [CreatePage.posted; Navigate "/home"]
  /\ tick (world s') = 6 + tick (world s)
  /\ view s' = CreatePage.mkState [] [] false.
Proof.
  destruct s as [[ps ls fs us rs t cs log] [txt img busy]].
  unfold reachesInsert, insertedPosts, postOf, CreatePage.handleSubmit.
  xnorm. intros (Htext & Hq1 & Hnone & Hins) Hupd Huser.
  destruct (JS.trim txt) as [|c trimmed] eqn:Htrim; [now contradiction Htext|].
  cbn [JS.truthy negb]. simpl in Hins, Hupd.
  rewrite Hq1. xnorm. rewrite Hnone. cbn [negb]. xnorm.
  rewrite Hins. xnorm. rewrite Hupd. xnorm. rewrite Huser. xnorm.
  rewrite set_doc_fresh by apply (newId_fresh env).
  repeat split. now rewrite <- app_assoc.
Qed.

Lemma handleSubmit_counter_failed (env : Env) (u : Auth.User)
  (profile : Auth.UserProfile) (s : St CreatePage.State) :
  let s' := exec (CreatePage.handleSubmit env (Some u) (Some profile)) s in
  reachesInsert env u s ->
  failsAt env (5 + tick (world s)) = true
  \/ has_doc (Auth.uid u) (users (world s)) = false ->
  posts (world s') = insertedPosts env u profile s
  /\ users (world s') = users (world s)
  /\ ui (world s')
     = ui (world s)
       ++ [ConsoleError "Error creating post:";
           Toast "Error" "Failed to create post" vDestructive]
  /\ tick (world s') = 6 + tick (world s)
  /\ view s' = CreatePage.mkState (CreatePage.text (view s))
                                  (CreatePage.imageUrl (view s)) false.
Proof.
  destruct s as [[ps ls fs us rs t cs log] [txt img busy]].
  unfold reachesInsert, insertedPosts, postOf, CreatePage.handleSubmit.
  xnorm. intros (Htext & Hq1 & Hnone & Hins) Hfail.
  destruct (JS.trim txt) as [|c trimmed] eqn:Htrim; [now contradiction Htext|].
  cbn [JS.truthy negb]. simpl in Hins, Hfail.
  rewrite Hq1. xnorm. rewrite Hnone. cbn [negb]. xnorm.
  rewrite Hins. xnorm.
  rewrite set_doc_fresh by apply (newId_fresh env).
  destruct Hfail as [Hupd|Huser].
  - rewrite Hupd. xnorm. repeat split. now rewrite <- app_assoc.
  - destruct (failsAt env (S (S (S (S (S t)))))); xnorm;
      [|rewrite Huser; xnorm]; repeat split; now rewrite <- app_assoc.
Qed.

Lemma handleSubmit_too_fast (env : Env) (u : Auth.User)
  (profile : Auth.UserProfile) (s : St CreatePage.State)
  (d : Doc PostData) :
  let s' := exec (CreatePage.handleSubmit env (Some u) (Some profile)) s in
  JS.trim (CreatePage.text (view s)) <> [] ->
  failsAt env (S (tick (world s))) = false ->
  In d (posts (world s)) ->
  p_userId (doc_data d) = Auth.uid u ->
  (clockAt env (tick (world s)) - 60 * 1000 < p_createdAt (doc_data d))%Z ->
  posts (world s') = posts (world s)
  /\ users (world s') = users (world s)
  /\ ui (world s') = ui (world s) ++ [CreatePage.tooFast].
Proof.
  destruct s as [[ps ls fs us rs t cs log] [txt img busy]].
  unfold CreatePage.handleSubmit. xnorm.
  intros Htext Hok Hin Hauthor Hrecent.
  pose proof (@recent_post_found u _ ps d Hin Hauthor Hrecent) as Hfound.
  destruct (JS.trim txt) as [|c trimmed] eqn:Htrim; [now contradiction Htext|].
  cbn [JS.truthy negb]. rewrite Hok. xnorm.
  destruct (run_query _ ps); [now contradiction Hfound|].
  cbn [negb]. xnorm. repeat split.
Qed.

Lemma reachesInsert_intro (env : Env) (u : Auth.User)
  (s : St CreatePage.State) :
  JS.trim (CreatePage.text (view s)) <> [] ->
  failsAt env (S (tick (world s))) = false ->
  Forall (fun d => p_userId (doc_data d) = Auth.uid u ->
                   (p_createdAt (doc_data d)
                    <= clockAt env (tick (world s)) - 60000)%Z)
         (posts (world s)) ->
  failsAt env (4 + tick (world s)) = false ->
  reachesInsert env u s.
Proof.
  intros Htext Hq Hold Hins. repeat split; try assumption.
  change (60 * 1000)%Z with 60000%Z. now apply recentPostsQuery_empty.
Qed.

Lemma In_insertedPosts (env : Env) (u : Auth.User)
  (profile : Auth.UserProfile) (s : St CreatePage.State) :
  exists d, In d (insertedPosts env u profile s)
            /\ p_userId (doc_data d) = Auth.uid u
            /\ p_createdAt (doc_data d) = clockAt env (2 + tick (world s)).
Proof.
  eexists. split; [apply in_or_app; right; left; reflexivity|].
  split; reflexivity.
Qed.

(** X4. Progress of [handleSubmit]: for a signed-in author with a loaded
    profile and a user document, text that is not blank, no own post
    younger than 60 seconds and all three calls accepted, the post is
    created: exactly one post is appended, the author's post counter rises
    by one, the "Posted!" notice and the navigation home are raised and the
    form is cleared. *)
Theorem createPost_goes_through (env : Env) (u : Auth.User)
  (profile : Auth.UserProfile) (s : St CreatePage.State) (ud : UserData) :
  let s' := exec (CreatePage.handleSubmit env (Some u) (Some profile)) s in
  let t := tick (world s) in
  JS.trim (CreatePage.text (view s)) <> [] ->
  Forall (fun d => p_userId (doc_data d) = Auth.uid u ->
                   (p_createdAt (doc_data d) <= clockAt env t - 60000)%Z)
         (posts (world s)) ->
  failsAt env (S t) = false ->
  failsAt env (4 + t) = false ->
  failsAt env (5 + t) = false ->
  get_doc (Auth.uid u) (users (world s)) = Some ud ->
  ui (world s') = ui (world s) ++ [CreatePage.posted; Navigate "/home"]
  /\ (exists i,
         ~ In i (map (@doc_id _) (posts (world s)))
         /\ posts (world s')
            = posts (world s)
              ++ [mkDoc i (postOf u profile (view s)
                                  (clockAt env (2 + t)))])
  /\ option_map u_postCount (get_doc (Auth.uid u) (users (world s')))
     = Some (u_postCount ud + 1)%Z
  /\ view s' = CreatePage.mkState [] [] false.
Proof.
  intros s' t Htext Hold Hq Hins Hupd Hud.
  destruct (handleSubmit_accepted env u profile s)
    as (Hp & Hu & Hui & _ & Hv).
  - now apply reachesInsert_intro.
  - exact Hupd.
  - exact (get_doc_has _ _ Hud).
  - fold s' in Hp, Hu, Hui, Hv. split; [exact Hui|].
    split; [|split; [|exact Hv]].
    + eexists. split; [|exact Hp]. apply (newId_fresh env).
    + rewrite Hu, get_doc_update, Hud. reflexivity.
Qed.

Lemma createPost_goes_through_witness :
  let s := mkSt sampleWorld (CreatePage.mkState [104; 105]%N [] false) in
  let s' := exec (CreatePage.handleSubmit calmEnv (Some alice)
                                          (Some aliceProfile)) s in
  ui (world s') = [CreatePage.posted; Navigate "/home"]
  /\ option_map u_postCount (get_doc "alice" (users (world s')))
     = Some 1%Z.
Proof.
  destruct (createPost_goes_through calmEnv alice aliceProfile
              (mkSt sampleWorld (CreatePage.mkState [104; 105]%N [] false))
              (sampleUser "alice" false false 0))
    as (Hui & _ & Hcount & _); try reflexivity.
  - discriminate.
  - repeat constructor; simpl; intros H; discriminate H.
  - split; [exact Hui|exact Hcount].
Defined.

(** X5. Two submissions in a row: when the first goes through and the
    second, with any text that is not blank, reads the clock less than 60
    seconds after the creation time of the first post, the second is
    refused with the "Too fast!" notice: no second post, no counter
    change. *)
Theorem createPost_twice_within_a_minute (env : Env) (u : Auth.User)
  (profile : Auth.UserProfile) (s : St CreatePage.State)
  (text2 imageUrl2 : JS.jsstring) :
  let submit := exec (CreatePage.handleSubmit env (Some u) (Some profile)) in
  let t := tick (world s) in
  let s1 := submit s in
  let s2 := submit (mkSt (world s1)
                         (CreatePage.mkState text2 imageUrl2 false)) in
  reachesInsert env u s ->
  failsAt env (5 + t) = false ->
  has_doc (Auth.uid u) (users (world s)) = true ->
  JS.trim text2 <> [] ->
  failsAt env (7 + t) = false ->
  (clockAt env (6 + t) - 60000 < clockAt env (2 + t))%Z ->
  List.length (posts (world s1)) = S (List.length (posts (world s)))
  /\ posts (world s2) = posts (world s1)
  /\ users (world s2) = users (world s1)
  /\ ui (world s2) = ui (world s1) ++ [CreatePage.tooFast].
Proof.
  intros submit t s1 s2 Hreach Hupd Huser Htext2 Hq2 Hclock.
  destruct (handleSubmit_accepted env u profile s Hreach Hupd Huser)
    as (Hp & _ & _ & Ht & _).
  fold (submit s) in Hp, Ht. fold s1 in Hp, Ht.
  split.
  { rewrite Hp. unfold insertedPosts. rewrite length_app. simpl. lia. }
  destruct (In_insertedPosts env u profile s) as (d & Hin & Hauthor & Hat).
  rewrite <- Hp in Hin.
  apply (handleSubmit_too_fast env u profile
           (mkSt (world s1) (CreatePage.mkState text2 imageUrl2 false)) d).
  - exact Htext2.
  - simpl. rewrite Ht. exact Hq2.
  - exact Hin.
  - exact Hauthor.
  - simpl. rewrite Ht, Hat. fold t. change (60 * 1000)%Z with 60000%Z.
    exact Hclock.
Qed.

Lemma createPost_twice_within_a_minute_witness :
  let submit := exec (CreatePage.handleSubmit tickingEnv (Some alice)
                                              (Some aliceProfile)) in
  let s1 := submit (mkSt sampleWorld
                         (CreatePage.mkState [104; 105]%N [] false)) in
  let s2 := submit (mkSt (world s1)
                         (CreatePage.mkState [111; 107]%N [] false)) in
  List.length (posts (world s1)) = 5%nat
  /\ posts (world s2) = posts (world s1)
  /\ ui (world s2) = ui (world s1) ++ [CreatePage.tooFast].
Proof.
  destruct (createPost_twice_within_a_minute tickingEnv alice aliceProfile
              (mkSt sampleWorld (CreatePage.mkState [104; 105]%N [] false))
              [111; 107]%N [])
    as (Hlen & Hp & _ & Hui); try reflexivity.
  - repeat split. discriminate.
  - discriminate.
  - exact (conj Hlen (conj Hp Hui)).
Defined.

(** X6. The insert and the counter update are two calls: when the insert
    is accepted and the counter update is rejected, or the author has no
    user document, the post stays stored, no counter changes, the failure
    notice is raised and the form keeps its text; resubmitting the form
    within 60 seconds of the stored post is then refused as too fast. *)
Theorem createPost_counter_failure (env : Env) (u : Auth.User)
  (profile : Auth.UserProfile) (s : St CreatePage.State) :
  let submit := exec (CreatePage.handleSubmit env (Some u) (Some profile)) in
  let t := tick (world s) in
  let s1 := submit s in
  let s2 := submit s1 in
  reachesInsert env u s ->
  failsAt env (5 + t) = true
  \/ has_doc (Auth.uid u) (users (world s)) = false ->
  (List.length (posts (world s1)) = S (List.length (posts (world s)))
   /\ users (world s1) = users (world s)
   /\ ui (world s1)
      = ui (world s)
        ++ [ConsoleError "Error creating post:";
            Toast "Error" "Failed to create post" vDestructive]
   /\ CreatePage.text (view s1) = CreatePage.text (view s))
  /\ (failsAt env (7 + t) = false ->
      (clockAt env (6 + t) - 60000 < clockAt env (2 + t))%Z ->
      posts (world s2) = posts (world s1)
      /\ ui (world s2) = ui (world s1) ++ [CreatePage.tooFast]).
Proof.
  intros submit t s1 s2 Hreach Hfail.
  destruct (handleSubmit_counter_failed env u profile s Hreach Hfail)
    as (Hp & Hu & Hui & Ht & Hv).
  fold (submit s) in Hp, Hu, Hui, Ht, Hv. fold s1 in Hp, Hu, Hui, Ht, Hv.
  split.
  { split; [|split; [exact Hu|split; [exact Hui|now rewrite Hv]]].
    rewrite Hp. unfold insertedPosts. rewrite length_app. simpl. lia. }
  intros Hq2 Hclock.
  destruct (In_insertedPosts env u profile s) as (d & Hin & Hauthor & Hat).
  rewrite <- Hp in Hin.
  destruct (handleSubmit_too_fast env u profile s1 d) as (Hp2 & _ & Hui2).
  - rewrite Hv. simpl. destruct Hreach as (Htext & _). exact Htext.
  - rewrite Ht. exact Hq2.
  - exact Hin.
  - exact Hauthor.
  - rewrite Ht, Hat. fold t. change (60 * 1000)%Z with 60000%Z.
    exact Hclock.
  - split; [exact Hp2|exact Hui2].
Qed.

Lemma createPost_counter_failure_witness :
  let submit := exec (CreatePage.handleSubmit counterDownEnv (Some alice)
                                              (Some aliceProfile)) in
  let s1 := submit (mkSt sampleWorld
                         (CreatePage.mkState [104; 105]%N [] false)) in
  let s2 := submit s1 in
  List.length (posts (world s1)) = 5%nat
  /\ users (world s1) = users sampleWorld
  /\ ui (world s2)
     = [ConsoleError "Error creating post:";
        Toast "Error" "Failed to create post" vDestructive;
        CreatePage.tooFast].
Proof.
  destruct (createPost_counter_failure counterDownEnv alice aliceProfile
              (mkSt sampleWorld (CreatePage.mkState [104; 105]%N [] false)))
    as ((Hlen & Hu & Hui & _) & Hretry).
  - repeat split. discriminate.
  - left. reflexivity.
  - destruct Hretry as (_ & Hui2); [reflexivity|reflexivity|].
    split; [exact Hlen|]. split; [exact Hu|].
    cbv zeta. rewrite Hui2, Hui. reflexivity.
Defined.

(** ** What a stored post looks like *)

Lemma trimStart_suffix (s : JS.jsstring) :
  exists blanks, s = blanks ++ JS.trimStart s.
Proof.
  induction s as [|c s [blanks IH]]; simpl; [now exists []|].
  destruct (JS.isWhiteSpace c).
  - exists (c :: blanks). simpl. now f_equal.
  - now exists [].
Qed.

(** A trimmed text that is not empty begins and ends with a character that
    is not white space. *)
Lemma trim_ends (s : JS.jsstring) (c : JS.code_unit) (r : JS.jsstring) :
  JS.trim s = c :: r ->
  JS.isWhiteSpace c = false /\ JS.isWhiteSpace (last r c) = false.
Proof.
  unfold JS.trim, JS.trimEnd. intros H.
  set (x := JS.trimStart s) in *.
  set (y := JS.trimStart (rev x)) in *.
  assert (Hy : y = rev (c :: r)) by (now rewrite <- H, rev_involutive).
  destruct (trimStart_suffix (rev x)) as [blanks Hb]. fold y in Hb.
  split.
  - (* the first character of the result is the first of [trimStart s] *)
    assert (Hx : x = rev y ++ rev blanks).
    { rewrite <- (rev_involutive x), Hb. apply rev_app_distr. }
    rewrite Hy, rev_involutive in Hx. simpl in Hx.
    now apply (@trimStart_head s (r ++ rev blanks) c).
  - (* the last character of the result is the first of [y] *)
    destruct (rev r) as [|z zs] eqn:Hr.
    + assert (r = []) as ->.
      { rewrite <- (rev_involutive r), Hr. reflexivity. }
      simpl in *. now apply (@trimStart_head (rev x) [] c).
    + assert (Hlast : last r c = z).
      { rewrite <- (rev_involutive r), Hr. simpl. apply last_last. }
      rewrite Hlast. simpl in Hy. rewrite Hr in Hy. simpl in Hy.
      now apply (@trimStart_head (rev x) (zs ++ [c]) z).
Qed.

(** X7. Whatever the form holds and however the run ends, [handleSubmit]
    either leaves the posts as they are or appends one post that is
    normalised: its text is not empty and neither begins nor ends with
    white space, its image is absent exactly when the image field is
    blank and is otherwise the trimmed field, and both its counts
    are 0. *)
Theorem createPost_stores_normalised (env : Env)
  (user : option Auth.User) (userProfile : option Auth.UserProfile)
  (s : St CreatePage.State) :
  let s' := exec (CreatePage.handleSubmit env user userProfile) s in
  posts (world s') = posts (world s)
  \/ exists i d c r,
       posts (world s') = posts (world s) ++ [mkDoc i d]
       /\ p_text d = c :: r
       /\ JS.isWhiteSpace c = false
       /\ JS.isWhiteSpace (last r c) = false
       /\ (p_imageUrl d = None
           <-> forallb JS.isWhiteSpace (CreatePage.imageUrl (view s)) = true)
       /\ (forall v, p_imageUrl d = Some v ->
                     v = JS.trim (CreatePage.imageUrl (view s)) /\ v <> [])
       /\ p_likeCount d = 0%Z /\ p_commentCount d = 0%Z.
Proof.
  destruct s as [[ps ls fs us rs t cs log] [txt img busy]].
  unfold CreatePage.handleSubmit. xnorm.
  destruct (JS.trim txt) as [|c trimmed] eqn:Htrim; cbn [JS.truthy negb];
    [now left|].
  destruct user as [u|], userProfile as [profile|]; try (now left).
  destruct (trim_ends txt c trimmed Htrim) as (Hfirst & Hlast).
  assert (Himg : (JS.or_null (JS.trim img) = None
                  <-> forallb JS.isWhiteSpace img = true)
                 /\ forall v, JS.or_null (JS.trim img) = Some v ->
                              v = JS.trim img /\ v <> []).
  { rewrite <- trim_nil. unfold JS.or_null.
    destruct (JS.trim img) as [|a v']; simpl.
    - split; [tauto|discriminate].
    - split; [split; discriminate|]. intros v H. injection H as <-.
      split; [reflexivity|discriminate]. }
  xcases; cbn [negb]; xcases; try (now left).
  all: destruct Himg as [Hnone Hsome].
  all: right; eexists; eexists; exists c, trimmed;
    (split; [apply set_doc_fresh; apply (newId_fresh env)|]);
    cbn [p_text p_imageUrl p_likeCount p_commentCount];
    do 3 (split; [first [reflexivity|assumption]|]);
    (split; [exact Hnone|]); (split; [exact Hsome|]); split; reflexivity.
Qed.

Lemma createPost_stores_normalised_witness :
  let s := mkSt sampleWorld
                (CreatePage.mkState [32; 104; 105; 10]%N [9; 32]%N false) in
  let s' := exec (CreatePage.handleSubmit calmEnv (Some alice)
                                          (Some aliceProfile)) s in
  map (fun d => (p_text (doc_data d), p_imageUrl (doc_data d)))
      (skipn 4 (posts (world s')))
  = [([104; 105]%N, None)].
Proof.
  destruct (createPost_stores_normalised calmEnv (Some alice)
              (Some aliceProfile)
              (mkSt sampleWorld
                    (CreatePage.mkState [32; 104; 105; 10]%N [9; 32]%N
                                        false)))
    as [Hsame|(i & d & c & r & Hp & _)].
  - exfalso. apply (f_equal (@List.length _)) in Hsame. discriminate Hsame.
  - reflexivity.
Defined.

(** ** Likes: what a failure leaves, and cards built from the feed *)

(** A like whose query and insert are accepted, whatever happens to the
    counter update. *)
Lemma handleLike_like_run (env : Env) (u : Auth.User) (post : Post.t)
  (s : St PostCard.State) :
  let s' := exec (PostCard.handleLike env (Some u) post) s in
  PostCard.liked (view s) = false ->
  PostCard.loading (view s) = false ->
  failsAt env (tick (world s)) = false ->
  failsAt env (3 + tick (world s)) = false ->
  likes (world s') = likes (world s) ++ [likeEdgeOf env u post (world s)]
  /\ tick (world s') = 5 + tick (world s)
  /\ (if counterUpdated env post (world s) 4
      then posts (world s')
           = update_doc (Post.id post) (set_likeCount (increment 1))
                        (posts (world s))
           /\ view s' = PostCard.mkState
                          true (PostCard.likeCount (view s) + 1) false
           /\ ui (world s') = ui (world s)
      else posts (world s') = posts (world s)
           /\ view s' = PostCard.mkState
                          false (PostCard.likeCount (view s)) false
           /\ ui (world s')
              = ui (world s)
                ++ [ConsoleError "Error handling like:";
                    Toast "Error" "Failed to update like" vDestructive]).
Proof.
  destruct s as [[ps ls fs us rs t cs log] [lk n busy]].
  unfold PostCard.handleLike, likeEdgeOf, counterUpdated. xnorm.
  cbn [Nat.add]. intros -> -> Hq Hins. rewrite Hq. xnorm.
  rewrite Hins. xnorm.
  rewrite set_doc_fresh by apply (newId_fresh env).
  destruct (failsAt env (S (S (S (S t))))); xnorm; cbn [negb andb].
  - repeat split. now rewrite <- app_assoc.
  - destruct (has_doc (Post.id post) ps); xnorm; repeat split.
    now rewrite <- app_assoc.
Qed.

Lemma likeQuery_count_added (post : Post.t) (u : Auth.User)
  (ls : list (Doc LikeData)) (i : DocId) (now : Z) :
  List.length (run_query (PostCard.likeQuery post u)
                 (ls ++ [mkDoc i (mkLikeData (Post.id post) (Auth.uid u)
                                             now)]))
  = S (List.length (run_query (PostCard.likeQuery post u) ls)).
Proof.
  rewrite !likeQuery_answer, !sort_id_length, filter_app. simpl.
  rewrite likeQuery_matches_new, length_app. simpl. lia.
Qed.

(** X8. The edge insert and the counter update of a like are two calls:
    when the insert is accepted and the counter update is rejected, or the
    post does not exist, the edge stays stored, the like count is unchanged
    and the card still shows "not liked" with a failure notice.  A second
    click that goes through then adds a second edge of the same viewer and
    raises the count once: two edges for one counted like. *)
Theorem like_counter_failure (env : Env) (u : Auth.User) (post : Post.t)
  (s : St PostCard.State) :
  let click := exec (PostCard.handleLike env (Some u) post) in
  let t := tick (world s) in
  let mine w :=
    List.length (run_query (PostCard.likeQuery post u) (likes w)) in
  let s1 := click s in
  let s2 := click s1 in
  PostCard.liked (view s) = false ->
  PostCard.loading (view s) = false ->
  failsAt env t = false ->
  failsAt env (3 + t) = false ->
  counterUpdated env post (world s) 4 = false ->
  (mine (world s1) = S (mine (world s))
   /\ posts (world s1) = posts (world s)
   /\ PostCard.liked (view s1) = false
   /\ PostCard.likeCount (view s1) = PostCard.likeCount (view s)
   /\ ui (world s1)
      = ui (world s)
        ++ [ConsoleError "Error handling like:";
            Toast "Error" "Failed to update like" vDestructive])
  /\ (failsAt env (5 + t) = false ->
      failsAt env (8 + t) = false ->
      failsAt env (9 + t) = false ->
      has_doc (Post.id post) (posts (world s)) = true ->
      mine (world s2) = S (S (mine (world s)))
      /\ posts (world s2)
         = update_doc (Post.id post) (set_likeCount (increment 1))
                      (posts (world s))
      /\ PostCard.likeCount (view s2)
         = (PostCard.likeCount (view s) + 1)%Z).
Proof.
  intros click t mine s1 s2 Hliked Hbusy Hq Hins Hcounter.
  destruct (handleLike_like_run env u post s Hliked Hbusy Hq Hins)
    as (Hk1 & Ht1 & Hrest).
  rewrite Hcounter in Hrest. destruct Hrest as (Hp1 & Hv1 & Hui1).
  fold (click s) in Hk1, Ht1, Hp1, Hv1, Hui1.
  fold s1 in Hk1, Ht1, Hp1, Hv1, Hui1.
  assert (Hmine1 : mine (world s1) = S (mine (world s))).
  { unfold mine. rewrite Hk1. apply likeQuery_count_added. }
  split.
  { split; [exact Hmine1|]. split; [exact Hp1|].
    rewrite Hv1. repeat split. exact Hui1. }
  intros Hq2 Hins2 Hupd2 Hpost.
  destruct (handleLike_like_run env u post s1) as (Hk2 & _ & Hrest2).
  - now rewrite Hv1.
  - now rewrite Hv1.
  - rewrite Ht1. exact Hq2.
  - rewrite Ht1. exact Hins2.
  - unfold counterUpdated in Hrest2. rewrite Ht1, Hp1 in Hrest2.
    change (4 + (5 + tick (world s)))%nat with (9 + t)%nat in Hrest2.
    rewrite Hupd2, Hpost in Hrest2. simpl in Hrest2.
    destruct Hrest2 as (Hp2 & Hv2 & _).
    fold (click s1) in Hk2, Hp2, Hv2. fold s2 in Hk2, Hp2, Hv2.
    split; [|split; [exact Hp2|]].
    + unfold mine at 1. rewrite Hk2.
      unfold likeEdgeOf. rewrite likeQuery_count_added.
      f_equal. exact Hmine1.
    + rewrite Hv2, Hv1. reflexivity.
Qed.

Lemma like_counter_failure_witness :
  let click := exec (PostCard.handleLike likeCounterDownEnv (Some alice)
                                         p3Card) in
  let s1 := click (mkSt sampleWorld (PostCard.mkState false 1 false)) in
  let s2 := click s1 in
  map (fun d => l_postId (doc_data d)) (likes (world s2))
  = ["p1"; "p3"; "p3"]
  /\ option_map p_likeCount (get_doc "p3" (posts (world s1))) = Some 1%Z
  /\ option_map p_likeCount (get_doc "p3" (posts (world s2))) = Some 2%Z.
Proof.
  destruct (like_counter_failure likeCounterDownEnv alice p3Card
              (mkSt sampleWorld (PostCard.mkState false 1 false)))
    as ((_ & Hp1 & _) & Hretry); try reflexivity.
  destruct Hretry as (_ & Hp2 & _); try reflexivity.
  split; [reflexivity|]. cbv zeta. rewrite Hp1, Hp2. split; reflexivity.
Defined.

(** X9. A card built from the home feed always starts as "not liked",
    whatever edges the store holds, because the feed sets [isLiked] to
    false: when the viewer already has a like edge on the post, a click
    that goes through inserts a further edge of the same viewer and raises
    the stored count again. *)
Theorem feed_card_likes_again (env : Env) (u : Auth.User)
  (d : Doc PostData) (w : World) :
  let post := HomePage.toPost d in
  let s := mkSt w (PostCard.init post) in
  let s' := exec (PostCard.handleLike env (Some u) post) s in
  let mine w :=
    List.length (run_query (PostCard.likeQuery post u) (likes w)) in
  likedInStore post u w = true ->
  failsAt env (tick w) = false ->
  failsAt env (3 + tick w) = false ->
  failsAt env (4 + tick w) = false ->
  In d (posts w) ->
  PostCard.liked (view s) = false
  /\ (2 <= mine (world s'))%nat
  /\ mine (world s') = S (mine w)
  /\ posts (world s')
     = update_doc (doc_id d) (set_likeCount (increment 1)) (posts w)
  /\ PostCard.liked (view s') = true.
Proof.
  intros post s s' mine Hliked Hq Hins Hupd Hin.
  assert (Hinit : PostCard.liked (view s) = false) by reflexivity.
  split; [exact Hinit|].
  destruct (handleLike_like_run env u post s Hinit eq_refl Hq Hins)
    as (Hk & _ & Hrest).
  assert (Hhas : has_doc (Post.id post) (posts w) = true).
  { apply has_doc_In. simpl. now apply in_map. }
  unfold counterUpdated in Hrest. simpl tick in Hrest. simpl posts in Hrest.
  rewrite Hupd, Hhas in Hrest. simpl in Hrest.
  destruct Hrest as (Hp & Hv & _). fold s' in Hk, Hp, Hv.
  assert (Hmine : mine (world s') = S (mine w)).
  { unfold mine. rewrite Hk. apply likeQuery_count_added. }
  split; [|split; [exact Hmine|split; [exact Hp|now rewrite Hv]]].
  rewrite Hmine. unfold mine, likedInStore in *.
  destruct (run_query _ (likes w)); [discriminate Hliked|simpl; lia].
Qed.

Lemma feed_card_likes_again_witness :
  let post := HomePage.toPost (mkDoc "p1" (samplePost "bob" 100 5 true)) in
  let s' := exec (PostCard.handleLike calmEnv (Some alice) post)
                 (mkSt sampleWorld (PostCard.init post)) in
  map (fun d => (l_postId (doc_data d), l_userId (doc_data d)))
      (likes (world s'))
  = [("p1", "alice"); ("p1", "alice")]
  /\ option_map p_likeCount (get_doc "p1" (posts (world s'))) = Some 6%Z.
Proof.
  destruct (feed_card_likes_again calmEnv alice
              (mkDoc "p1" (samplePost "bob" 100 5 true)) sampleWorld)
    as (_ & _ & _ & Hp & _); try reflexivity.
  - simpl. tauto.
  - split; [reflexivity|]. cbv zeta. rewrite Hp. reflexivity.
Defined.

(** X10. [handleLike] never writes a user document, a follow edge or a
    verification request, however it ends: in particular the like counter
    kept on the author's user document is never adjusted by a like or an
    unlike. *)
Theorem like_leaves_users (env : Env) (user : option Auth.User)
  (post : Post.t) (s : St PostCard.State) :
  let s' := exec (PostCard.handleLike env user post) s in
  users (world s') = users (world s)
  /\ follows (world s') = follows (world s)
  /\ verificationRequests (world s') = verificationRequests (world s)
  /\ PostCard.loading (view s') = PostCard.loading (view s).
Proof.
  destruct s as [[ps ls fs us rs t cs log] [lk n busy]].
  unfold PostCard.handleLike.
  destruct user as [u|], busy, lk; xcases; repeat split.
Qed.

(** ** Follows: round trip and duplicate edges *)

Lemma followQuery_answer (user : UserCard.Props) (cu : Auth.User)
  (fs : list (Doc FollowData)) :
  run_query (UserCard.followQuery user cu) fs
  = sort_id (filter (matches (UserCard.followQuery user cu)) fs).
Proof. reflexivity. Qed.

Lemma followEdgeOf_matches (env : Env) (cu : Auth.User)
  (user : UserCard.Props) (w : World) :
  matches (UserCard.followQuery user cu) (followEdgeOf env cu user w) = true.
Proof. unfold matches. simpl. now rewrite !String.eqb_refl. Qed.

(** A follow whose insert is accepted. *)
Lemma handleFollow_follow_run (env : Env) (cu : Auth.User)
  (user : UserCard.Props) (s : St UserCard.State) :
  let s' := exec (UserCard.handleFollow env (Some cu) user) s in
  UserCard.isFollowing (view s) = false ->
  UserCard.loading (view s) = false ->
  failsAt env (2 + tick (world s)) = false ->
  follows (world s') = follows (world s) ++ [followEdgeOf env cu user (world s)]
  /\ tick (world s') = 3 + tick (world s)
  /\ view s' = UserCard.mkState true false
  /\ ui (world s')
     = ui (world s)
       ++ [Toast "Following"
                 ("You are now following @" ++ UserCard.username user)
                 vDefault].
Proof.
  destruct s as [[ps ls fs us rs t cs log] [following busy]].
  unfold UserCard.handleFollow, followEdgeOf. xnorm. cbn [Nat.add].
  intros -> -> Hins. rewrite Hins. xnorm.
  rewrite set_doc_fresh by apply (newId_fresh env). repeat split.
Qed.

(** An unfollow whose query and deletion are accepted. *)
Lemma handleFollow_unfollow_run (env : Env) (cu : Auth.User)
  (user : UserCard.Props) (s : St UserCard.State) :
  let s' := exec (UserCard.handleFollow env (Some cu) user) s in
  UserCard.isFollowing (view s) = true ->
  UserCard.loading (view s) = false ->
  failsAt env (tick (world s)) = false ->
  failsAt env (1 + tick (world s)) = false ->
  follows (world s')
  = match run_query (UserCard.followQuery user cu) (follows (world s)) with
    | d :: _ => delete_doc (doc_id d) (follows (world s))
    | [] => follows (world s)
    end
  /\ tick (world s')
     = match run_query (UserCard.followQuery user cu) (follows (world s)) with
       | _ :: _ => 2 + tick (world s)
       | [] => 1 + tick (world s)
       end
  /\ view s' = UserCard.mkState false false
  /\ ui (world s')
     = ui (world s)
       ++ [Toast "Unfollowed" ("You unfollowed @" ++ UserCard.username user)
                 vDefault].
Proof.
  destruct s as [[ps ls fs us rs t cs log] [following busy]].
  unfold UserCard.handleFollow. xnorm. cbn [Nat.add].
  intros -> -> Hq Hdel. rewrite Hq. xnorm.
  destruct (run_query _ fs); xnorm; [repeat split|].
  rewrite Hdel. xnorm. repeat split.
Qed.

(** [checkFollowStatus] when its query is answered. *)
Lemma checkFollowStatus_answered (env : Env) (cu : Auth.User)
  (user : UserCard.Props) (s : St UserCard.State) :
  failsAt env (tick (world s)) = false ->
  UserCard.isFollowing
    (view (exec (UserCard.checkFollowStatus env (Some cu) user) s))
  = match run_query (UserCard.followQuery user cu) (follows (world s)) with
    | [] => false
    | _ :: _ => true
    end.
Proof.
  destruct s as [[ps ls fs us rs t cs log] [following busy]].
  unfold UserCard.checkFollowStatus. xnorm. intros Hq. rewrite Hq. xnorm.
  now destruct (run_query _ fs).
Qed.

(** X11. Follow, then unfollow: from a card that shows "Follow" for a
    target the viewer has no edge to, two clicks whose calls are accepted
    leave the follow edges exactly as they were, the card showing "Follow"
    again, after the "Following" and the "Unfollowed" notices. *)
Theorem follow_then_unfollow (env : Env) (cu : Auth.User)
  (user : UserCard.Props) (s : St UserCard.State) :
  let click := exec (UserCard.handleFollow env (Some cu) user) in
  let t := tick (world s) in
  let s2 := click (click s) in
  UserCard.isFollowing (view s) = false ->
  UserCard.loading (view s) = false ->
  run_query (UserCard.followQuery user cu) (follows (world s)) = [] ->
  failsAt env (2 + t) = false ->
  failsAt env (3 + t) = false ->
  failsAt env (4 + t) = false ->
  follows (world s2) = follows (world s)
  /\ view s2 = UserCard.mkState false false
  /\ ui (world s2)
     = ui (world s)
       ++ [Toast "Following"
                 ("You are now following @" ++ UserCard.username user)
                 vDefault;
           Toast "Unfollowed" ("You unfollowed @" ++ UserCard.username user)
                 vDefault].
Proof.
  intros click t s2 Hflag Hbusy Hnone Hins Hq Hdel.
  destruct (handleFollow_follow_run env cu user s Hflag Hbusy Hins)
    as (Hf1 & Ht1 & Hv1 & Hui1).
  fold (click s) in Hf1, Ht1, Hv1, Hui1.
  destruct (handleFollow_unfollow_run env cu user (click s))
    as (Hf2 & _ & Hv2 & Hui2).
  - now rewrite Hv1.
  - now rewrite Hv1.
  - rewrite Ht1. exact Hq.
  - rewrite Ht1. exact Hdel.
  - fold (click (click s)) in Hf2, Hv2, Hui2. fold s2 in Hf2, Hv2, Hui2.
    split; [|split; [exact Hv2|]].
    + rewrite Hf2, Hf1, followQuery_answer, filter_app.
      rewrite followQuery_answer in Hnone.
      rewrite (proj1 (sort_id_nil _) Hnone). simpl.
      rewrite followEdgeOf_matches. unfold sort_id, sort_by. simpl.
      apply delete_doc_added. apply (newId_fresh env).
    + rewrite Hui2, Hui1, <- app_assoc. reflexivity.
Qed.

Lemma follow_then_unfollow_witness :
  let carol := UserCard.mkProps "carol" "carol" "carol" false 0 in
  let click := exec (UserCard.handleFollow calmEnv (Some alice) carol) in
  let s := mkSt sampleWorld UserCard.init in
  List.length (follows (world (click s))) = 2%nat
  /\ follows (world (click (click s))) = follows sampleWorld.
Proof.
  split; [reflexivity|].
  apply (follow_then_unfollow calmEnv alice
           (UserCard.mkProps "carol" "carol" "carol" false 0)
           (mkSt sampleWorld UserCard.init)); reflexivity.
Defined.

(** With distinct ids, deleting a stored document that passes a test
    leaves one document fewer passing it. *)
Lemma filter_delete_doc_length (D : Type) (m : Doc D -> bool) (d : Doc D)
  (docs : list (Doc D)) :
  NoDup (map (@doc_id D) docs) ->
  In d docs ->
  m d = true ->
  List.length (filter m docs)
  = S (List.length (filter m (delete_doc (doc_id d) docs))).
Proof.
  induction docs as [|x docs IH]; simpl; [tauto|].
  intros Hnd Hin Hm. inversion Hnd as [|i ids Hx Hnd']; subst.
  destruct Hin as [->|Hin].
  - rewrite String.eqb_refl, Hm. simpl.
    fold (delete_doc (doc_id d) docs).
    now rewrite delete_doc_fresh.
  - destruct (String.eqb (doc_id x) (doc_id d)) eqn:E.
    + apply String.eqb_eq in E. exfalso. apply Hx. rewrite E.
      now apply in_map.
    + simpl. fold (delete_doc (doc_id d) docs).
      destruct (m x); simpl; now rewrite (IH Hnd' Hin Hm).
Qed.

(** X12. A card starts by showing "Follow" and [handleFollow] inserts
    without looking for an existing edge: when the viewer already follows
    the target, a click adds a further edge and the next click
    ("unfollow") does not remove them all: an edge from the viewer to the
    target stays stored (with distinct ids, as many as before the first
    click), so [checkFollowStatus] then finds the viewer still following
    although the card shows "Follow". *)
Theorem follow_again_then_unfollow (env : Env) (cu : Auth.User)
  (user : UserCard.Props) (w : World) :
  let click := exec (UserCard.handleFollow env (Some cu) user) in
  let check := exec (UserCard.checkFollowStatus env (Some cu) user) in
  let mine w :=
    List.length (run_query (UserCard.followQuery user cu) (follows w)) in
  let t := tick w in
  let s1 := click (mkSt w UserCard.init) in
  let s2 := click s1 in
  let s3 := check s2 in
  run_query (UserCard.followQuery user cu) (follows w) <> [] ->
  failsAt env (2 + t) = false ->
  failsAt env (3 + t) = false ->
  failsAt env (4 + t) = false ->
  failsAt env (5 + t) = false ->
  mine (world s1) = S (mine w)
  /\ UserCard.isFollowing (view s2) = false
  /\ (1 <= mine (world s2))%nat
  /\ (NoDup (map (@doc_id _) (follows w)) -> mine (world s2) = mine w)
  /\ UserCard.isFollowing (view s3) = true.
Proof.
  intros click check mine t s1 s2 s3 Hsome Hins Hq Hdel Hcheck.
  set (q := UserCard.followQuery user cu) in *.
  set (new := followEdgeOf env cu user w).
  destruct (handleFollow_follow_run env cu user (mkSt w UserCard.init)
              eq_refl eq_refl Hins) as (Hf1 & Ht1 & Hv1 & _).
  fold (click (mkSt w UserCard.init)) in Hf1, Ht1, Hv1.
  fold s1 in Hf1, Ht1, Hv1. simpl in Hf1, Ht1. fold new in Hf1.
  destruct (handleFollow_unfollow_run env cu user s1)
    as (Hf2 & Ht2 & Hv2 & _).
  - now rewrite Hv1.
  - now rewrite Hv1.
  - rewrite Ht1. exact Hq.
  - rewrite Ht1. exact Hdel.
  - fold (click s1) in Hf2, Ht2, Hv2. fold s2 in Hf2, Ht2, Hv2.
    fold q in Hf2, Ht2.
    assert (Hfresh : ~ In (doc_id new) (map (@doc_id _) (follows w)))
      by apply (newId_fresh env).
    assert (Hnew : matches q new = true) by apply followEdgeOf_matches.
    (* an edge the viewer had before the first click *)
    assert (Hold : exists e, In e (follows w) /\ matches q e = true).
    { destruct (run_query q (follows w)) as [|e rest] eqn:E;
        [now contradiction Hsome|].
      exists e. apply filter_In.
      apply (Permutation_in _ (sort_id_perm _)).
      unfold q in E. rewrite followQuery_answer in E. fold q in E.
      rewrite E. now left. }
    destruct Hold as (e & He & Hme).
    (* the edge the second click deletes *)
    assert (Hfirst : exists d rest,
               run_query q (follows (world s1)) = d :: rest
               /\ In d (follows (world s1)) /\ matches q d = true).
    { destruct (run_query q (follows (world s1))) as [|d rest] eqn:E.
      - exfalso. unfold q in E. rewrite followQuery_answer in E. fold q in E.
        apply (proj1 (sort_id_nil _)) in E.
        assert (Hin : In new (filter (matches q) (follows (world s1)))).
        { apply filter_In. split; [|exact Hnew].
          rewrite Hf1. apply in_or_app. right. now left. }
        rewrite E in Hin. exact Hin.
      - exists d, rest. split; [reflexivity|]. apply filter_In.
        apply (Permutation_in _ (sort_id_perm _)).
        unfold q in E. rewrite followQuery_answer in E. fold q in E.
        rewrite E. now left. }
    destruct Hfirst as (d & rest & Hd & Hin1 & Hmd).
    rewrite Hd in Hf2, Ht2.
    assert (Hcount : forall fs,
               List.length (run_query q fs)
               = List.length (filter (matches q) fs)).
    { intros fs. unfold q. rewrite followQuery_answer. apply sort_id_length. }
    assert (Hkept : exists x, In x (follows (world s2)) /\ matches q x = true).
    { destruct (String.eqb (doc_id new) (doc_id d)) eqn:Eid.
      - apply String.eqb_eq in Eid. exists e. split; [|exact Hme].
        rewrite Hf2, Hf1. unfold delete_doc. apply filter_In. split.
        + apply in_or_app. now left.
        + apply negb_true_iff. apply String.eqb_neq. intros Heq.
          apply Hfresh. rewrite Eid, <- Heq. now apply in_map.
      - exists new. split; [|exact Hnew].
        rewrite Hf2, Hf1. unfold delete_doc. apply filter_In. split.
        + apply in_or_app. right. now left.
        + now rewrite Eid. }
    assert (Hone : (1 <= mine (world s2))%nat).
    { unfold mine. rewrite Hcount. destruct Hkept as (x & Hx & Hmx).
      assert (Hin : In x (filter (matches q) (follows (world s2))))
        by (apply filter_In; now split).
      destruct (filter (matches q) (follows (world s2)));
        [contradiction Hin|simpl; lia]. }
    assert (Hadded : mine (world s1) = S (mine w)).
    { unfold mine. rewrite !Hcount, Hf1, filter_app, length_app.
      simpl. rewrite Hnew. simpl. lia. }
    split; [exact Hadded|].
    split; [now rewrite Hv2|].
    split; [exact Hone|].
    split.
    + intros Hnd.
      assert (Hnd1 : NoDup (map (@doc_id _) (follows (world s1)))).
      { rewrite Hf1, map_app. simpl.
        apply (Permutation_NoDup (Permutation_cons_append _ _)).
        now constructor. }
      pose proof (filter_delete_doc_length _ (matches q) d _ Hnd1 Hin1 Hmd)
        as Hlen.
      unfold mine in Hadded |- *. rewrite !Hcount in Hadded |- *.
      rewrite Hf2. lia.
    + unfold s3, check. rewrite checkFollowStatus_answered.
      * fold q. unfold mine in Hone.
        destruct (run_query q (follows (world s2)));
          [simpl in Hone; lia|reflexivity].
      * rewrite Ht2, Ht1. exact Hcheck.
Qed.

Lemma follow_again_then_unfollow_witness :
  let bob := UserCard.mkProps "bob" "bob" "bob" false 0 in
  let click := exec (UserCard.handleFollow calmEnv (Some alice) bob) in
  let check := exec (UserCard.checkFollowStatus calmEnv (Some alice) bob) in
  let s2 := click (click (mkSt sampleWorld UserCard.init)) in
  map (@doc_id _) (follows (world s2)) = ["f1"]
  /\ UserCard.isFollowing (view s2) = false
  /\ UserCard.isFollowing (view (check s2)) = true.
Proof.
  destruct (follow_again_then_unfollow calmEnv alice
              (UserCard.mkProps "bob" "bob" "bob" false 0) sampleWorld)
    as (_ & Hshown & _ & _ & Hstill); try reflexivity.
  - discriminate.
  - split; [reflexivity|]. split; [exact Hshown|exact Hstill].
Defined.

(** ** Home feed from the stored edges; failure of the feed query *)

Lemma fetchFollowing_frame (env : Env) (user : option Auth.User)
  (s : St HomePage.State) :
  let s' := exec (HomePage.fetchFollowing env user) s in
  posts (world s') = posts (world s)
  /\ follows (world s') = follows (world s)
  /\ tick (world s')
     = match user with Some _ => S (tick (world s)) | None => tick (world s) end.
Proof.
  destruct s as [[ps ls fs us rs t cs log] [feed busy following]].
  unfold HomePage.fetchFollowing. destruct user as [u|]; xcases;
    repeat split.
Qed.

(** X13. The home feed, end to end: for a signed-in viewer with at least
    one stored follow edge, [fetchFollowing] followed by [fetchHomeFeed],
    both answered, shows only stored posts whose author is the target of a
    stored follow edge of the viewer, newest first and at most 20. *)
Theorem home_feed_from_edges (env : Env) (u : Auth.User)
  (s : St HomePage.State) (e : Doc FollowData) :
  let s1 := exec (HomePage.fetchFollowing env (Some u)) s in
  let feed := HomePage.posts (view (exec (HomePage.fetchHomeFeed env) s1)) in
  In e (follows (world s)) ->
  f_followerId (doc_data e) = Auth.uid u ->
  failsAt env (tick (world s)) = false ->
  failsAt env (S (tick (world s))) = false ->
  Forall (fun p =>
            (exists d, In d (posts (world s)) /\ p = HomePage.toPost d)
            /\ exists edge,
                 In edge (follows (world s))
                 /\ f_followerId (doc_data edge) = Auth.uid u
                 /\ f_followingId (doc_data edge) = Post.userId p) feed
  /\ StronglySorted
       (fun a b => (Post.createdAt b <= Post.createdAt a)%Z) feed
  /\ (List.length feed <= 20)%nat.
Proof.
  intros s1 feed Hin Hmine Hq1 Hq2.
  destruct (fetchFollowing_frame env (Some u) s) as (Hp & _ & Ht).
  fold s1 in Hp, Ht.
  pose proof (fetchFollowing_answered env u s Hq1) as Hfollowing.
  fold s1 in Hfollowing.
  assert (Hmember : forall a,
             In a (HomePage.following (view s1)) ->
             exists edge, In edge (follows (world s))
                          /\ f_followerId (doc_data edge) = Auth.uid u
                          /\ f_followingId (doc_data edge) = a).
  { intros a Ha. rewrite Hfollowing in Ha. apply in_map_iff in Ha.
    destruct Ha as (edge & Heq & Hedge).
    apply (Permutation_in _ (sort_id_perm _)) in Hedge.
    apply filter_In in Hedge.
    destruct Hedge as (Hedge & Hby). apply String.eqb_eq in Hby.
    now exists edge. }
  assert (Hpos : (0 < List.length (HomePage.following (view s1)))%nat).
  { rewrite Hfollowing, length_map, sort_id_length.
    assert (Hf : In e (filter (fun d => String.eqb (f_followerId (doc_data d))
                                                   (Auth.uid u))
                              (follows (world s)))).
    { apply filter_In. split; [exact Hin|]. rewrite Hmine.
      apply String.eqb_refl. }
    destruct (filter _ (follows (world s))); [contradiction|simpl; lia]. }
  destruct (followed_feed env s1 Hpos) as (Hauthors & Hsorted & Hlen & Hdocs).
  { rewrite Ht. exact Hq2. }
  fold feed in Hauthors, Hsorted, Hlen, Hdocs.
  split; [|split; [exact Hsorted|exact Hlen]].
  rewrite Forall_forall in *. intros p Hp'. split.
  - rewrite <- Hp. now apply Hdocs.
  - apply Hmember. apply (In_firstn 10). now apply Hauthors.
Qed.

Lemma home_feed_from_edges_witness :
  let s1 := exec (HomePage.fetchFollowing calmEnv (Some alice))
                 (mkSt sampleWorld HomePage.init) in
  let feed := HomePage.posts
                (view (exec (HomePage.fetchHomeFeed calmEnv) s1)) in
  map Post.id feed = ["p3"; "p1"] /\ (List.length feed <= 20)%nat.
Proof.
  split; [reflexivity|].
  apply (home_feed_from_edges calmEnv alice
           (mkSt sampleWorld HomePage.init)
           (mkDoc "f1" (mkFollowData "alice" "bob" 50))).
  - simpl. tauto.
  - reflexivity.
  - reflexivity.
  - reflexivity.
Defined.

(** X14. [fetchHomeFeed] writes nothing to the store and always ends with
    the spinner off; when its query is rejected the feed on screen stays
    what it was (so the popular posts shown before the follow list arrived
    stay up) and the only trace is a console message. *)
Theorem home_feed_query_rejected (env : Env) (s : St HomePage.State) :
  let s' := exec (HomePage.fetchHomeFeed env) s in
  HomePage.loading (view s') = false
  /\ HomePage.following (view s') = HomePage.following (view s)
  /\ posts (world s') = posts (world s)
  /\ likes (world s') = likes (world s)
  /\ calls (world s') = calls (world s) ++ [CGetDocs "posts"]
  /\ (failsAt env (tick (world s)) = true ->
      HomePage.posts (view s') = HomePage.posts (view s)
      /\ ui (world s')
         = ui (world s) ++ [ConsoleError "Error fetching home feed:"]).
Proof.
  destruct s as [[ps ls fs us rs t cs log] [feed busy following]].
  unfold HomePage.fetchHomeFeed. xnorm.
  destruct (failsAt env t); xnorm.
  - repeat split.
  - do 5 (split; [reflexivity|]). intros H. discriminate H.
Qed.

Lemma home_feed_query_rejected_witness :
  let downEnv := mkTestEnv (fun _ => 1000%Z) (fun _ => true) in
  let shown := map HomePage.toPost (posts sampleWorld) in
  let s' := exec (HomePage.fetchHomeFeed downEnv)
                 (mkSt sampleWorld (HomePage.mkState shown true ["bob"])) in
  HomePage.posts (view s') = shown /\ HomePage.loading (view s') = false.
Proof.
  destruct (home_feed_query_rejected
              (mkTestEnv (fun _ => 1000%Z) (fun _ => true))
              (mkSt sampleWorld
                    (HomePage.mkState (map HomePage.toPost (posts sampleWorld))
                                      true ["bob"])))
    as (Hoff & _ & _ & _ & _ & Hkept).
  destruct (Hkept eq_refl) as (Hfeed & _).
  split; [exact Hfeed|exact Hoff].
Defined.

(** ** Explore and profile pages *)

Lemma spreadPost_of_answer (q : Query PostData) (ps : list (Doc PostData))
  (p : Post.t) :
  In p (map spreadPost (run_query q ps)) ->
  exists d, In d ps /\ matches q d = true /\ p = spreadPost d.
Proof.
  intros Hp. apply in_map_iff in Hp. destruct Hp as (d & <- & Hd).
  exists d. split; [now apply run_query_incl in Hd|].
  split; [|reflexivity].
  unfold run_query in Hd.
  assert (Hord : In d match q_orderByDesc q with
                      | Some f => sort_desc (fun d => f (doc_data d))
                                            (filter (matches q) ps)
                      | None => sort_id (filter (matches q) ps)
                      end).
  { destruct (q_limit q); [now apply In_firstn in Hd|exact Hd]. }
  assert (Hfil : In d (filter (matches q) ps)).
  { destruct (q_orderByDesc q).
    - now apply (Permutation_in _ (sort_desc_perm _ _)) in Hord.
    - now apply (Permutation_in _ (sort_id_perm _)) in Hord. }
  apply filter_In in Hfil. tauto.
Qed.

(** X15. The discover list of ExplorePage, when its query is answered,
    holds only stored posts that are public, at most 20 of them, in
    descending order of like count: a post stored as not public never
    appears. *)
Theorem explore_shows_public_only (env : Env) (s : St ExplorePage.State) :
  let shown :=
    ExplorePage.posts (view (exec (ExplorePage.fetchPublicPosts env) s)) in
  failsAt env (tick (world s)) = false ->
  Forall (fun p => exists d, In d (posts (world s))
                             /\ p_isPublic (doc_data d) = true
                             /\ p = spreadPost d) shown
  /\ StronglySorted
       (fun a b => (Post.likeCount b <= Post.likeCount a)%Z) shown
  /\ (List.length shown <= 20)%nat
  /\ forall d, In d (posts (world s)) ->
               p_isPublic (doc_data d) = false ->
               (forall d', In d' (posts (world s)) ->
                           doc_id d' = doc_id d -> d' = d) ->
               ~ In (doc_id d) (map Post.id shown).
Proof.
  destruct s as [[ps ls fs us rs t cs log] [term shown0 found busy busy']].
  unfold ExplorePage.fetchPublicPosts. xnorm. intros Hq. rewrite Hq. xnorm.
  destruct (run_query_ordered_limited
              [fun d => Bool.eqb (p_isPublic d) true] p_likeCount 20 ps)
    as (_ & Hsorted & Hlen & _).
  fold ExplorePage.publicPostsQuery in Hsorted, Hlen.
  assert (Hpublic : forall p,
             In p (map spreadPost (run_query ExplorePage.publicPostsQuery ps))
             -> exists d, In d ps /\ p_isPublic (doc_data d) = true
                          /\ p = spreadPost d).
  { intros p Hp. apply spreadPost_of_answer in Hp.
    destruct Hp as (d & Hin & Hm & ->). exists d. split; [exact Hin|].
    split; [|reflexivity]. unfold matches in Hm. simpl in Hm.
    rewrite andb_true_r in Hm. now apply Bool.eqb_prop in Hm. }
  split; [now apply Forall_forall|].
  split; [now apply StronglySorted_map|].
  split; [rewrite length_map, Hlen; apply Nat.le_min_l|].
  intros d Hin Hprivate Hunique Hshown.
  apply in_map_iff in Hshown. destruct Hshown as (p & Hid & Hp).
  destruct (Hpublic p Hp) as (d' & Hin' & Hpub & ->).
  simpl in Hid. rewrite (Hunique d' Hin' Hid) in Hpub. congruence.
Qed.

Lemma explore_shows_public_only_witness :
  let shown :=
    ExplorePage.posts
      (view (exec (ExplorePage.fetchPublicPosts calmEnv)
                  (mkSt sampleWorld ExplorePage.init))) in
  map Post.id shown = ["p2"; "p1"; "p3"]
  /\ ~ In "p4" (map Post.id shown).
Proof.
  split; [reflexivity|].
  destruct (explore_shows_public_only calmEnv
              (mkSt sampleWorld ExplorePage.init) eq_refl)
    as (_ & _ & _ & Hnever).
  apply (Hnever (mkDoc "p4" (samplePost "dave" 400 7 false))).
  - simpl. tauto.
  - reflexivity.
  - intros d' Hin Hid. simpl in Hin.
    repeat (destruct Hin as [<-|Hin]; [try discriminate Hid; reflexivity|]).
    contradiction.
Defined.

(** X16. The post list of a profile, when its query is answered, is all
    the stored posts of that author and nothing else, newest first, with no
    limit and no regard for the public flag: posts stored as not public are
    listed too, whoever is looking. *)
Theorem profile_lists_all_posts (env : Env) (userId : string)
  (s : St ProfilePage.State) :
  let listed :=
    ProfilePage.posts
      (view (exec (ProfilePage.fetchUserPosts env userId) s)) in
  failsAt env (tick (world s)) = false ->
  Permutation listed
              (map spreadPost
                   (filter (fun d => String.eqb (p_userId (doc_data d)) userId)
                           (posts (world s))))
  /\ StronglySorted
       (fun a b => (Post.createdAt b <= Post.createdAt a)%Z) listed
  /\ forall d, In d (posts (world s)) ->
               p_userId (doc_data d) = userId ->
               In (spreadPost d) listed.
Proof.
  destruct s as [[ps ls fs us rs t cs log] [listed0 busy following]].
  unfold ProfilePage.fetchUserPosts. xnorm. intros Hq. rewrite Hq. xnorm.
  unfold run_query, ProfilePage.userPostsQuery.
  cbn [q_where q_orderByDesc q_limit].
  assert (Hfilter : filter (matches (mkQuery
                              [fun d => String.eqb (p_userId d) userId]
                              (Some p_createdAt) None)) ps
                    = filter (fun d => String.eqb (p_userId (doc_data d))
                                                  userId) ps).
  { apply filter_ext. intros d. unfold matches. simpl. apply andb_true_r. }
  rewrite Hfilter.
  set (mine := filter _ ps).
  pose proof (sort_desc_perm (fun d => p_createdAt (doc_data d)) mine)
    as Hperm.
  split; [now apply Permutation_map|].
  split.
  - apply StronglySorted_map.
    apply (sort_desc_sorted (fun d => p_createdAt (doc_data d)) mine).
  - intros d Hin Hauthor. apply in_map.
    apply (Permutation_in _ (Permutation_sym Hperm)).
    apply filter_In. split; [exact Hin|]. rewrite Hauthor.
    apply String.eqb_refl.
Qed.

Lemma profile_lists_all_posts_witness :
  let listed :=
    ProfilePage.posts
      (view (exec (ProfilePage.fetchUserPosts calmEnv "dave")
                  (mkSt sampleWorld (ProfilePage.mkState [] true false)))) in
  In (spreadPost (mkDoc "p4" (samplePost "dave" 400 7 false))) listed
  /\ map Post.id listed = ["p4"].
Proof.
  split; [|reflexivity].
  destruct (profile_lists_all_posts calmEnv "dave"
              (mkSt sampleWorld (ProfilePage.mkState [] true false))
              eq_refl) as (_ & _ & Hall).
  apply Hall; [simpl; tauto|reflexivity].
Defined.

(** ** The admin queue and the statistics *)

Lemma decision_view (env : Env) (u : Auth.User) (s : St AdminPage.State)
  (requestId : DocId) (decision : Decision) (userId : option DocId) :
  let s' := exec (AdminPage.handleVerificationDecision
                    env (Some u) requestId decision userId) s in
  (ui (world s') = ui (world s) ++ [decidedToast decision] ->
   AdminPage.verificationRequests (view s')
   = filter (fun req => negb (String.eqb (AdminPage.VerificationRequest.id req)
                                         requestId))
            (AdminPage.verificationRequests (view s)))
  /\ (ui (world s') <> ui (world s) ++ [decidedToast decision] ->
      view s' = view s
      /\ ui (world s')
         = ui (world s)
           ++ [ConsoleError "Error updating verification request:";
               Toast "Error" "Failed to update verification request"
                     vDestructive]).
Proof.
  destruct s as [[ps ls fs us rs t cs log] [reqs busy]].
  unfold AdminPage.handleVerificationDecision, decidedToast.
  destruct (AdminPage.approved_with_target decision userId) as [target|];
    xcases; split; intros Hlog; try log_differs Hlog;
    try (now contradiction Hlog); try reflexivity;
    split; try reflexivity; now rewrite <- app_assoc.
Qed.

Lemma update_doc_status (requestId : DocId) (f : RequestData -> RequestData)
  (rs : list (Doc RequestData)) (d : Doc RequestData) :
  (forall r, r_status (f r) <> pending) ->
  In d (update_doc requestId f rs) ->
  doc_id d = requestId ->
  r_status (doc_data d) <> pending.
Proof.
  intros Hf Hin Hid. unfold update_doc in Hin. apply in_map_iff in Hin.
  destruct Hin as (x & Hx & _).
  destruct (String.eqb (doc_id x) requestId) eqn:E.
  - subst d. simpl. apply Hf.
  - apply String.eqb_neq in E. subst d. contradiction.
Qed.

(** X17. After a decision that ends with its confirmation notice, the
    request is gone from the queue on screen, and reloading the queue
    (answered) does not bring it back: the reloaded queue holds pending
    requests only, newest first, none with the decided id. *)
Theorem decided_request_leaves_queue (env : Env) (u : Auth.User)
  (s : St AdminPage.State) (requestId : DocId) (decision : Decision)
  (userId : option DocId) :
  let s1 := exec (AdminPage.handleVerificationDecision
                    env (Some u) requestId decision userId) s in
  let s2 := exec (AdminQueue.fetchVerificationRequests env) s1 in
  let id_differs req :=
    AdminPage.VerificationRequest.id req <> requestId in
  ui (world s1) = ui (world s) ++ [decidedToast decision] ->
  failsAt env (tick (world s1)) = false ->
  Forall id_differs (AdminPage.verificationRequests (view s1))
  /\ Forall id_differs (AdminPage.verificationRequests (view s2))
  /\ Forall (fun req => AdminPage.VerificationRequest.status req = pending)
            (AdminPage.verificationRequests (view s2))
  /\ StronglySorted
       (fun a b => (AdminPage.VerificationRequest.createdAt b
                    <= AdminPage.VerificationRequest.createdAt a)%Z)
       (AdminPage.verificationRequests (view s2)).
Proof.
  intros s1 s2 id_differs Hdone Hq.
  destruct (decision_done env u s requestId decision userId Hdone)
    as (_ & Hr & _).
  destruct (decision_view env u s requestId decision userId) as (Hv & _).
  specialize (Hv Hdone). fold s1 in Hr, Hv.
  split.
  { rewrite Hv. apply Forall_forall. intros req Hreq.
    apply filter_In in Hreq. destruct Hreq as (_ & Hneq).
    apply negb_true_iff in Hneq. now apply String.eqb_neq in Hneq. }
  assert (Hs2 : AdminPage.verificationRequests (view s2)
                = map AdminQueue.toRequest
                      (run_query AdminQueue.requestsQuery
                                 (verificationRequests (world s1)))).
  { unfold s2. destruct s1 as [[ps ls fs us rs t cs log] [reqs busy]].
    unfold AdminQueue.fetchVerificationRequests. xnorm.
    simpl in Hq. now rewrite Hq. }
  assert (Hpending : forall d,
             In d (run_query AdminQueue.requestsQuery
                             (verificationRequests (world s1))) ->
             In d (verificationRequests (world s1))
             /\ r_status (doc_data d) = pending).
  { intros d Hd. split; [now apply run_query_incl in Hd|].
    unfold run_query, AdminQueue.requestsQuery in Hd.
    cbn [q_where q_orderByDesc q_limit] in Hd.
    apply (Permutation_in _ (sort_desc_perm _ _)) in Hd.
    apply filter_In in Hd. destruct Hd as (_ & Hm).
    unfold matches in Hm. simpl in Hm. rewrite andb_true_r in Hm.
    destruct (r_status (doc_data d)) as [|[|]];
      [reflexivity|discriminate Hm|discriminate Hm]. }
  rewrite Hs2. split; [|split].
  - apply Forall_map. apply Forall_forall. intros d Hd.
    destruct (Hpending d Hd) as (Hin & Hstatus).
    unfold id_differs, AdminQueue.toRequest. simpl. intros Hid.
    rewrite Hr in Hin.
    apply (update_doc_status requestId _ _ d) in Hin;
      [contradiction|discriminate|exact Hid].
  - apply Forall_map. apply Forall_forall. intros d Hd.
    now apply Hpending.
  - apply StronglySorted_map.
    unfold run_query, AdminQueue.requestsQuery.
    cbn [q_where q_orderByDesc q_limit].
    apply (sort_desc_sorted (fun d => r_createdAt (doc_data d))).
Qed.

Lemma decided_request_leaves_queue_witness :
  let s1 := exec (AdminPage.handleVerificationDecision
                    calmEnv (Some alice) "r1" rejected None)
                 (adminOf sampleWorld) in
  let s2 := exec (AdminQueue.fetchVerificationRequests calmEnv) s1 in
  AdminPage.verificationRequests (view s1) = []
  /\ Forall (fun req => AdminPage.VerificationRequest.id req <> "r1")
            (AdminPage.verificationRequests (view s2)).
Proof.
  split; [reflexivity|].
  destruct (decided_request_leaves_queue calmEnv alice
              (adminOf sampleWorld) "r1" rejected None)
    as (_ & Hgone & _); [reflexivity|reflexivity|exact Hgone].
Defined.

Lemma sumLikes_from (ps : list (Doc PostData)) (acc : Z) :
  fold_left (fun totalLikes d =>
               (totalLikes + JS.or_num (p_likeCount (doc_data d)) 0)%Z)
            ps acc
  = (acc + AdminStats.sumLikes ps)%Z.
Proof.
  unfold AdminStats.sumLikes. revert acc.
  induction ps as [|d ps IH]; intros acc; simpl; [lia|].
  set (x := JS.or_num (p_likeCount (doc_data d)) 0).
  rewrite (IH (acc + x)%Z), (IH x). lia.
Qed.

Lemma sumLikes_cons (d : Doc PostData) (ps : list (Doc PostData)) :
  AdminStats.sumLikes (d :: ps)
  = (p_likeCount (doc_data d) + AdminStats.sumLikes ps)%Z.
Proof.
  unfold AdminStats.sumLikes at 1. simpl. rewrite sumLikes_from, or_num_zero.
  lia.
Qed.

Lemma sumLikes_sum (ps : list (Doc PostData)) :
  AdminStats.sumLikes ps
  = fold_right (fun d total => (p_likeCount (doc_data d) + total)%Z) 0%Z ps.
Proof.
  induction ps as [|d ps IH]; [reflexivity|].
  rewrite sumLikes_cons. cbn [fold_right]. now rewrite IH.
Qed.

Lemma sumLikes_perm (ps ps' : list (Doc PostData)) :
  Permutation ps ps' -> AdminStats.sumLikes ps = AdminStats.sumLikes ps'.
Proof.
  intros Hperm. rewrite !sumLikes_sum.
  induction Hperm as [|d l l' _ IH|d d' l|l l' l'' _ IH1 _ IH2];
    cbn [fold_right]; lia.
Qed.

(** A query without clauses answers with the whole collection, by id. *)
Lemma whole_collection (D : Type) (docs : list (Doc D)) :
  run_query (mkQuery [] None None) docs = sort_id docs.
Proof. unfold run_query. simpl. f_equal. now apply filter_all. Qed.

(** [fetchStats] when its three queries are answered. *)
Lemma fetchStats_answered (env : Env) (s : St AdminStats.State) :
  let t := tick (world s) in
  failsAt env t = false ->
  failsAt env (1 + t) = false ->
  failsAt env (2 + t) = false ->
  view (exec (AdminStats.fetchStats env) s)
  = AdminStats.mkState
      (AdminStats.mkUserStat
         (AdminStats.size (users (world s)))
         (AdminStats.size (posts (world s)))
         (AdminStats.sumLikes (posts (world s)))
         (AdminStats.size
            (filter (fun d => u_isVerified (doc_data d)) (users (world s)))))
      false.
Proof.
  destruct s as [[ps ls fs us rs t cs log] [st busy]].
  unfold AdminStats.fetchStats. xnorm. cbn [Nat.add].
  intros H0 H1 H2. rewrite H0. xnorm. rewrite H1. xnorm. rewrite H2. xnorm.
  rewrite !whole_collection.
  replace (run_query (mkQuery [fun d => Bool.eqb (u_isVerified d) true]
                              None None) us)
    with (sort_id (filter (fun d => u_isVerified (doc_data d)) us)).
  - unfold AdminStats.size. rewrite !sort_id_length.
    now rewrite (sumLikes_perm _ _ (sort_id_perm ps)).
  - unfold run_query, matches. simpl. f_equal. apply filter_ext.
    intros d. rewrite andb_true_r. now destruct (u_isVerified (doc_data d)).
Qed.

(** X18. The dashboard numbers, when the three queries of [fetchStats] are
    answered: users and posts are counted, the verified users are a count
    between 0 and the number of users, and the total of likes is the sum
    of the stored like counters of the posts (not a count of like edges);
    when any of the three queries is rejected the numbers stay what they
    were.  Either way the spinner ends off and nothing is written. *)
Theorem stats_numbers (env : Env) (s : St AdminStats.State) :
  let s' := exec (AdminStats.fetchStats env) s in
  let t := tick (world s) in
  let shown := AdminStats.stats (view s') in
  AdminStats.loading (view s') = false
  /\ users (world s') = users (world s)
  /\ posts (world s') = posts (world s)
  /\ (failsAt env t = false -> failsAt env (1 + t) = false ->
      failsAt env (2 + t) = false ->
      AdminStats.totalUsers shown = Z.of_nat (List.length (users (world s)))
      /\ AdminStats.totalPosts shown
         = Z.of_nat (List.length (posts (world s)))
      /\ (0 <= AdminStats.verifiedUsers shown
          <= AdminStats.totalUsers shown)%Z
      /\ AdminStats.totalLikes shown
         = fold_right (fun d total => (p_likeCount (doc_data d) + total)%Z)
                      0%Z (posts (world s)))
  /\ (failsAt env t = true \/ failsAt env (1 + t) = true
      \/ failsAt env (2 + t) = true ->
      shown = AdminStats.stats (view s)).
Proof.
  intros s' t shown.
  assert (Hframe : AdminStats.loading (view s') = false
                   /\ users (world s') = users (world s)
                   /\ posts (world s') = posts (world s)
                   /\ (failsAt env t = true \/ failsAt env (1 + t) = true
                       \/ failsAt env (2 + t) = true ->
                       shown = AdminStats.stats (view s))).
  { unfold shown, s', t. clear.
    destruct s as [[ps ls fs us rs t cs log] [st busy]].
    unfold AdminStats.fetchStats. xnorm. cbn [Nat.add].
    destruct (failsAt env t) eqn:F0; xnorm;
      [repeat split|].
    destruct (failsAt env (S t)) eqn:F1; xnorm;
      [repeat split|].
    destruct (failsAt env (S (S t))) eqn:F2; xnorm;
      [repeat split|].
    do 3 (split; [reflexivity|]).
    intros [H|[H|H]]; discriminate H. }
  destruct Hframe as (Hoff & Hu & Hp & Hkept).
  do 3 (split; [assumption|]). split; [|exact Hkept].
  intros H0 H1 H2. unfold shown, s'.
  rewrite (fetchStats_answered env s H0 H1 H2).
  cbn [view AdminStats.stats AdminStats.totalUsers AdminStats.totalPosts
       AdminStats.totalLikes AdminStats.verifiedUsers].
  split; [reflexivity|]. split; [reflexivity|]. split.
  - unfold AdminStats.size. split; [lia|].
    apply inj_le. apply filter_length_le.
  - apply sumLikes_sum.
Qed.

Lemma stats_numbers_witness :
  let shown :=
    AdminStats.stats
      (view (exec (AdminStats.fetchStats calmEnv)
                  (mkSt sampleWorld AdminStats.init))) in
  AdminStats.totalLikes shown = 22%Z
  /\ (0 <= AdminStats.verifiedUsers shown <= AdminStats.totalUsers shown)%Z.
Proof.
  destruct (stats_numbers calmEnv (mkSt sampleWorld AdminStats.init))
    as (_ & _ & _ & Hok & _).
  destruct (Hok eq_refl eq_refl eq_refl) as (_ & _ & Hv & Hl).
  split; [cbv zeta; rewrite Hl; reflexivity|exact Hv].
Defined.

Lemma update_doc_fresh (D : Type) (id : DocId) (f : D -> D)
  (docs : list (Doc D)) :
  ~ In id (map (@doc_id D) docs) -> update_doc id f docs = docs.
Proof.
  intros Hfresh. unfold update_doc. rewrite <- (map_id docs) at 2.
  apply map_ext_in. intros d Hd.
  destruct (String.eqb (doc_id d) id) eqn:E; [|reflexivity].
  apply String.eqb_eq in E. exfalso. apply Hfresh. rewrite <- E.
  now apply in_map.
Qed.

Lemma get_doc_update_other (D : Type) (id i : DocId) (f : D -> D)
  (docs : list (Doc D)) :
  i <> id -> get_doc i (update_doc id f docs) = get_doc i docs.
Proof.
  intros Hne. unfold get_doc, update_doc.
  induction docs as [|d docs IH]; simpl; [reflexivity|].
  destruct (String.eqb (doc_id d) id) eqn:E; simpl.
  - apply String.eqb_eq in E.
    destruct (String.eqb (doc_id d) i) eqn:E'; [|exact IH].
    apply String.eqb_eq in E'. congruence.
  - destruct (String.eqb (doc_id d) i); [reflexivity|exact IH].
Qed.

(** With distinct ids, setting the flag of one user adds that user to the
    verified ones unless it was there. *)
Lemma verified_after_update (target : DocId) (ud : UserData)
  (us : list (Doc UserData)) :
  NoDup (map (@doc_id _) us) ->
  get_doc target us = Some ud ->
  List.length (filter (fun d => u_isVerified (doc_data d))
                      (update_doc target (set_isVerified true) us))
  = (List.length (filter (fun d => u_isVerified (doc_data d)) us)
     + if u_isVerified ud then 0 else 1)%nat.
Proof.
  induction us as [|d us IH]; [discriminate|].
  intros Hnd Hget. inversion Hnd as [|i ids Hfresh Hnd']; subst.
  unfold get_doc in Hget. simpl in Hget. simpl.
  destruct (String.eqb (doc_id d) target) eqn:E.
  - apply String.eqb_eq in E. subst target. simpl in Hget.
    injection Hget as <-.
    fold (update_doc (doc_id d) (set_isVerified true) us).
    rewrite (update_doc_fresh _ _ _ _ Hfresh). simpl.
    destruct (u_isVerified (doc_data d)); simpl; lia.
  - fold (update_doc target (set_isVerified true) us).
    specialize (IH Hnd' Hget).
    destruct (u_isVerified (doc_data d)); simpl; rewrite IH; lia.
Qed.

(** X19. Approval and the dashboard: with distinct user ids, after an
    approval of an existing target that ends with its confirmation notice,
    [fetchStats] (answered) shows one verified user more than the store
    held before when the target was not verified, and the same number when
    it already was; the number of users is unchanged. *)
Theorem approval_raises_verified (env : Env) (u : Auth.User)
  (s : St AdminPage.State) (requestId target : DocId) (ud : UserData)
  (v : AdminStats.State) :
  let s1 := exec (AdminPage.handleVerificationDecision
                    env (Some u) requestId approved (Some target)) s in
  let shown :=
    AdminStats.stats
      (view (exec (AdminStats.fetchStats env) (mkSt (world s1) v))) in
  let verifiedBefore :=
    Z.of_nat (List.length (filter (fun d => u_isVerified (doc_data d))
                                  (users (world s)))) in
  target <> "" ->
  NoDup (map (@doc_id _) (users (world s))) ->
  get_doc target (users (world s)) = Some ud ->
  ui (world s1) = ui (world s) ++ [decidedToast approved] ->
  failsAt env (3 + tick (world s)) = false ->
  failsAt env (4 + tick (world s)) = false ->
  failsAt env (5 + tick (world s)) = false ->
  AdminStats.verifiedUsers shown
  = (verifiedBefore + if u_isVerified ud then 0 else 1)%Z
  /\ AdminStats.totalUsers shown
     = Z.of_nat (List.length (users (world s))).
Proof.
  intros s1 shown verifiedBefore Htarget Hnd Hget Hdone H3 H4 H5.
  destruct (decision_done env u s requestId approved (Some target) Hdone)
    as (_ & _ & Hu & _ & _ & Ht).
  assert (Hwith : AdminPage.approved_with_target approved (Some target)
                  = Some target).
  { apply approved_with_target_spec. now repeat split. }
  rewrite Hwith in Hu, Ht. fold s1 in Hu, Ht.
  unfold shown. rewrite fetchStats_answered; simpl world; rewrite ?Ht;
    try assumption.
  cbn [view AdminStats.stats AdminStats.verifiedUsers AdminStats.totalUsers].
  unfold AdminStats.size. rewrite Hu. split.
  - rewrite (verified_after_update target ud _ Hnd Hget).
    unfold verifiedBefore. destruct (u_isVerified ud); lia.
  - unfold update_doc. now rewrite length_map.
Qed.

Lemma approval_raises_verified_witness :
  let s1 := exec (AdminPage.handleVerificationDecision
                    calmEnv (Some alice) "r1" approved (Some "bob"))
                 (adminOf sampleWorld) in
  AdminStats.verifiedUsers
    (AdminStats.stats
       (view (exec (AdminStats.fetchStats calmEnv)
                   (mkSt (world s1) AdminStats.init))))
  = 1%Z.
Proof.
  destruct (approval_raises_verified calmEnv alice (adminOf sampleWorld)
              "r1" "bob" (sampleUser "bob" false false 2) AdminStats.init)
    as (Hv & _).
  - discriminate.
  - simpl. repeat constructor; simpl; intros H;
      repeat (destruct H as [H|H]; [discriminate H|]); exact H.
  - reflexivity.
  - reflexivity.
  - reflexivity.
  - reflexivity.
  - reflexivity.
  - exact Hv.
Defined.

(** X20. A decision whose request update does not go through changes
    nothing: with no signed-in user no call is issued at all, and with a
    request that does not exist, or a rejected update, the target's flag is
    not written even for an approval.  The store and the queue on screen
    stay as they were and the failure notice is raised. *)
Theorem decision_not_applied (env : Env) (user : option Auth.User)
  (s : St AdminPage.State) (requestId : DocId) (decision : Decision)
  (userId : option DocId) :
  let s' := exec (AdminPage.handleVerificationDecision
                    env user requestId decision userId) s in
  user = None
  \/ failsAt env (1 + tick (world s)) = true
  \/ has_doc requestId (verificationRequests (world s)) = false ->
  verificationRequests (world s') = verificationRequests (world s)
  /\ users (world s') = users (world s)
  /\ view s' = view s
  /\ ui (world s')
     = ui (world s)
       ++ [ConsoleError "Error updating verification request:";
           Toast "Error" "Failed to update verification request"
                 vDestructive]
  /\ (user = None -> calls (world s') = calls (world s))
  /\ ~ In (CUpdateDoc "users" match userId with Some i => i | None => "" end)
          (skipn (List.length (calls (world s))) (calls (world s'))).
Proof.
  destruct s as [[ps ls fs us rs t cs log] [reqs busy]].
  unfold AdminPage.handleVerificationDecision. xnorm. cbn [Nat.add].
  intros Hwhy. destruct user as [u|]; xnorm.
  - destruct Hwhy as [Hnone|[Hrej|Hmissing]]; [discriminate Hnone| |].
    + rewrite Hrej. xnorm. repeat split; try (now rewrite <- app_assoc).
      * intros H. discriminate H.
      * rewrite skipn_app, skipn_all, Nat.sub_diag. simpl.
        intros [H|[]]. discriminate H.
    + destruct (failsAt env (S t)); xnorm; [|rewrite Hmissing; xnorm];
        repeat split; try (now rewrite <- app_assoc);
        try (intros H; discriminate H);
        rewrite skipn_app, skipn_all, Nat.sub_diag; simpl;
        intros [H|[]]; discriminate H.
  - repeat split; try (now rewrite <- app_assoc).
    rewrite skipn_all. simpl. tauto.
Qed.

Lemma decision_not_applied_witness :
  let s' := exec (AdminPage.handleVerificationDecision
                    calmEnv (Some alice) "r9" approved (Some "bob"))
                 (adminOf sampleWorld) in
  users (world s') = users sampleWorld
  /\ verificationRequests (world s') = verificationRequests sampleWorld
  /\ calls (world s') = [CUpdateDoc "verificationRequests" "r9"].
Proof.
  destruct (decision_not_applied calmEnv (Some alice) (adminOf sampleWorld)
              "r9" approved (Some "bob"))
    as (Hr & Hu & _).
  - right. right. reflexivity.
  - split; [exact Hu|]. split; [exact Hr|reflexivity].
Defined.

(** X21. The two writes of an approval are separate calls: when the
    request update goes through and the update of the target's user
    document is rejected, or the target has no user document, the request
    stays marked approved with its review data while no user document is
    changed, the failure notice is raised and the request stays in the
    queue on screen. *)
Theorem approval_half_applied (env : Env) (u : Auth.User)
  (s : St AdminPage.State) (requestId target : DocId) :
  let s' := exec (AdminPage.handleVerificationDecision
                    env (Some u) requestId approved (Some target)) s in
  target <> "" ->
  failsAt env (1 + tick (world s)) = false ->
  has_doc requestId (verificationRequests (world s)) = true ->
  failsAt env (2 + tick (world s)) = true
  \/ has_doc target (users (world s)) = false ->
  verificationRequests (world s')
  = update_doc requestId
               (set_review (decided approved)
                           (clockAt env (tick (world s))) (Auth.uid u))
               (verificationRequests (world s))
  /\ users (world s') = users (world s)
  /\ view s' = view s
  /\ ui (world s')
     = ui (world s)
       ++ [ConsoleError "Error updating verification request:";
           Toast "Error" "Failed to update verification request"
                 vDestructive].
Proof.
  destruct s as [[ps ls fs us rs t cs log] [reqs busy]].
  unfold AdminPage.handleVerificationDecision. xnorm. cbn [Nat.add].
  intros Htarget Hok Hreq Hwhy.
  assert (Hwith : AdminPage.approved_with_target approved (Some target)
                  = Some target).
  { apply approved_with_target_spec. now repeat split. }
  rewrite Hwith, Hok. xnorm. rewrite Hreq. xnorm.
  destruct Hwhy as [Hrej|Hmissing].
  - rewrite Hrej. xnorm. repeat split. now rewrite <- app_assoc.
  - destruct (failsAt env (S (S t))); xnorm; [|rewrite Hmissing; xnorm];
      repeat split; now rewrite <- app_assoc.
Qed.

Lemma approval_half_applied_witness :
  let s' := exec (AdminPage.handleVerificationDecision
                    calmEnv (Some alice) "r1" approved (Some "zoe"))
                 (adminOf sampleWorld) in
  option_map r_status (get_doc "r1" (verificationRequests (world s')))
  = Some (decided approved)
  /\ users (world s') = users sampleWorld
  /\ List.length (AdminPage.verificationRequests (view s')) = 1%nat.
Proof.
  destruct (approval_half_applied calmEnv alice (adminOf sampleWorld)
              "r1" "zoe") as (Hr & Hu & Hv & _).
  - discriminate.
  - reflexivity.
  - reflexivity.
  - right. reflexivity.
  - split; [|split; [exact Hu|]].
    + exact (eq_trans
               (f_equal (fun l => option_map r_status (get_doc "r1" l)) Hr)
               eq_refl).
    + exact (eq_trans
               (f_equal (fun c => List.length
                                    (AdminPage.verificationRequests c)) Hv)
               eq_refl).
Defined.

(** ** The privacy switch *)

Lemma has_doc_after_update (D : Type) (id i : DocId) (f : D -> D)
  (docs : list (Doc D)) :
  has_doc i (update_doc id f docs) = has_doc i docs.
Proof.
  unfold has_doc, update_doc. induction docs as [|d docs IH]; simpl;
    [reflexivity|].
  rewrite IH. now destruct (String.eqb (doc_id d) id).
Qed.

Lemma handlePrivacyToggle_run (env : Env) (u : Auth.User) (checked : bool)
  (s : St SettingsPage.State) :
  let s' := exec (SettingsPage.handlePrivacyToggle env (Some u) checked) s in
  posts (world s') = posts (world s)
  /\ tick (world s') = S (tick (world s))
  /\ SettingsPage.loading (view s') = false
  /\ (if negb (failsAt env (tick (world s)))
         && has_doc (Auth.uid u) (users (world s))
      then users (world s')
           = update_doc (Auth.uid u) (set_isPrivate checked)
                        (users (world s))
           /\ SettingsPage.isPrivate (view s') = checked
           /\ ui (world s') = ui (world s) ++ [privacyToast checked]
      else users (world s') = users (world s)
           /\ SettingsPage.isPrivate (view s')
              = SettingsPage.isPrivate (view s)
           /\ ui (world s')
              = ui (world s)
                ++ [ConsoleError "Error updating privacy settings:";
                    Toast "Error" "Failed to update privacy settings"
                          vDestructive]).
Proof.
  destruct s as [[ps ls fs us rs t cs log] [flag busy]].
  unfold SettingsPage.handlePrivacyToggle, privacyToast. xnorm.
  destruct (failsAt env t); xnorm; cbn [negb andb].
  - repeat split. now rewrite <- app_assoc.
  - destruct (has_doc (Auth.uid u) us); xnorm; repeat split.
    now rewrite <- app_assoc.
Qed.

(** X22. The privacy switch writes one field of one document: however the
    run ends, no stored post changes (posts keep the public flag they were
    created with) and no other user's document changes; when the update
    goes through, the owner's document holds the chosen flag with its
    counters untouched and the switch shows it; otherwise the store and the
    switch stay as they were and the failure notice is raised. *)
Theorem privacy_toggle_effect (env : Env) (u : Auth.User) (checked : bool)
  (s : St SettingsPage.State) :
  let s' := exec (SettingsPage.handlePrivacyToggle env (Some u) checked) s in
  posts (world s') = posts (world s)
  /\ (forall i, i <> Auth.uid u ->
                get_doc i (users (world s')) = get_doc i (users (world s)))
  /\ (forall ud,
        failsAt env (tick (world s)) = false ->
        get_doc (Auth.uid u) (users (world s)) = Some ud ->
        get_doc (Auth.uid u) (users (world s'))
        = Some (set_isPrivate checked ud)
        /\ u_isPrivate (set_isPrivate checked ud) = checked
        /\ u_postCount (set_isPrivate checked ud) = u_postCount ud
        /\ u_isVerified (set_isPrivate checked ud) = u_isVerified ud
        /\ SettingsPage.isPrivate (view s') = checked
        /\ ui (world s') = ui (world s) ++ [privacyToast checked])
  /\ (failsAt env (tick (world s)) = true
      \/ has_doc (Auth.uid u) (users (world s)) = false ->
      users (world s') = users (world s)
      /\ SettingsPage.isPrivate (view s') = SettingsPage.isPrivate (view s)
      /\ ui (world s')
         = ui (world s)
           ++ [ConsoleError "Error updating privacy settings:";
               Toast "Error" "Failed to update privacy settings"
                     vDestructive]).
Proof.
  intros s'.
  destruct (handlePrivacyToggle_run env u checked s) as (Hp & _ & _ & Hrun).
  fold s' in Hp, Hrun.
  split; [exact Hp|]. split; [|split].
  - intros i Hi.
    destruct (negb (failsAt env (tick (world s)))
              && has_doc (Auth.uid u) (users (world s)));
      destruct Hrun as (Hu & _); rewrite Hu;
      [now apply get_doc_update_other|reflexivity].
  - intros ud Hok Hud. rewrite Hok, (get_doc_has _ _ Hud) in Hrun.
    simpl in Hrun. destruct Hrun as (Hu & Hv & Hui).
    rewrite Hu, get_doc_update, Hud. repeat split; assumption.
  - intros [Hrej|Hmissing].
    + rewrite Hrej in Hrun. exact Hrun.
    + rewrite Hmissing, andb_false_r in Hrun. exact Hrun.
Qed.

Lemma privacy_toggle_effect_witness :
  let s' := exec (SettingsPage.handlePrivacyToggle calmEnv (Some dave) false)
                 (mkSt sampleWorld (SettingsPage.mkState true false)) in
  option_map u_isPrivate (get_doc "dave" (users (world s'))) = Some false
  /\ map (fun d => p_isPublic (doc_data d)) (posts (world s'))
     = [true; true; true; false].
Proof.
  destruct (privacy_toggle_effect calmEnv dave false
              (mkSt sampleWorld (SettingsPage.mkState true false)))
    as (Hp & _ & Hdone & _).
  destruct (Hdone (sampleUser "dave" true false 1) eq_refl eq_refl)
    as (Hg & _).
  split.
  - exact (eq_trans (f_equal (option_map u_isPrivate) Hg) eq_refl).
  - exact (eq_trans (f_equal (map (fun d => p_isPublic (doc_data d))) Hp)
                    eq_refl).
Defined.

(** X23. The public flag of a new post comes from the session's profile,
    which [handlePrivacyToggle] does not touch: after the switch was set to
    private and the stored flag updated, a post submitted with the profile
    as it was loaded before (not private) is stored as public, while the
    author's user document says private. *)
Theorem post_after_privacy_toggle (env : Env) (u : Auth.User)
  (profile : Auth.UserProfile) (s : St SettingsPage.State)
  (form : CreatePage.State) (ud : UserData) :
  let s1 := exec (SettingsPage.handlePrivacyToggle env (Some u) true) s in
  let s2 := exec (CreatePage.handleSubmit env (Some u) (Some profile))
                 (mkSt (world s1) form) in
  Auth.isPrivate profile = false ->
  failsAt env (tick (world s)) = false ->
  get_doc (Auth.uid u) (users (world s)) = Some ud ->
  reachesInsert env u (mkSt (world s1) form) ->
  failsAt env (6 + tick (world s)) = false ->
  option_map u_isPrivate (get_doc (Auth.uid u) (users (world s1)))
  = Some true
  /\ (exists i now,
         posts (world s2)
         = posts (world s) ++ [mkDoc i (postOf u profile form now)]
         /\ p_isPublic (postOf u profile form now) = true)
  /\ option_map u_isPrivate (get_doc (Auth.uid u) (users (world s2)))
     = Some true.
Proof.
  intros s1 s2 Hprofile Hok Hud Hreach Hupd.
  destruct (handlePrivacyToggle_run env u true s) as (Hp1 & Ht1 & _ & Hrun).
  fold s1 in Hp1, Ht1, Hrun.
  rewrite Hok, (get_doc_has _ _ Hud) in Hrun. simpl in Hrun.
  destruct Hrun as (Hu1 & _).
  assert (Hg1 : get_doc (Auth.uid u) (users (world s1))
                = Some (set_isPrivate true ud)).
  { now rewrite Hu1, get_doc_update, Hud. }
  split; [now rewrite Hg1|].
  destruct (handleSubmit_accepted env u profile (mkSt (world s1) form) Hreach)
    as (Hp2 & Hu2 & _).
  - simpl. rewrite Ht1. exact Hupd.
  - simpl. exact (get_doc_has _ _ Hg1).
  - fold s2 in Hp2, Hu2. simpl in Hu2. split.
    + unfold insertedPosts in Hp2. simpl in Hp2. rewrite Hp1 in Hp2.
      eexists. eexists. split; [exact Hp2|].
      unfold postOf. simpl. now rewrite Hprofile.
    + rewrite Hu2, get_doc_update, Hg1. reflexivity.
Qed.

Lemma post_after_privacy_toggle_witness :
  let s1 := exec (SettingsPage.handlePrivacyToggle calmEnv (Some alice) true)
                 (mkSt sampleWorld (SettingsPage.mkState false false)) in
  let s2 := exec (CreatePage.handleSubmit calmEnv (Some alice)
                                          (Some aliceProfile))
                 (mkSt (world s1)
                       (CreatePage.mkState [104; 105]%N [] false)) in
  option_map u_isPrivate (get_doc "alice" (users (world s2))) = Some true
  /\ map (fun d => p_isPublic (doc_data d)) (skipn 4 (posts (world s2)))
     = [true].
Proof.
  destruct (post_after_privacy_toggle calmEnv alice aliceProfile
              (mkSt sampleWorld (SettingsPage.mkState false false))
              (CreatePage.mkState [104; 105]%N [] false)
              (sampleUser "alice" false false 0))
    as (_ & _ & Hstored).
  - reflexivity.
  - reflexivity.
  - reflexivity.
  - repeat split. discriminate.
  - reflexivity.
  - split; [exact Hstored|reflexivity].
Defined.

(** ** The follow status on the card and on the profile *)

(** X24. The card and the profile page ask the store the same question:
    for the same viewer, target and store, when both queries are answered
    they show the same follow status, which is whether an edge from the
    viewer to the target is stored; neither writes anything, and a rejected
    query leaves the status on screen as it was. *)
Theorem follow_status_agrees (env : Env) (cu : Auth.User)
  (user : UserCard.Props) (card : St UserCard.State)
  (page : St ProfilePage.State) :
  let card' := exec (UserCard.checkFollowStatus env (Some cu) user) card in
  let page' :=
    exec (ProfilePage.checkFollowStatus env (Some cu) (UserCard.uid user))
         page in
  let stored w :=
    existsb (fun d => String.eqb (f_followerId (doc_data d)) (Auth.uid cu)
                      && String.eqb (f_followingId (doc_data d))
                                    (UserCard.uid user))
            (follows w) in
  follows (world card') = follows (world card)
  /\ follows (world page') = follows (world page)
  /\ (failsAt env (tick (world card)) = false ->
      UserCard.isFollowing (view card') = stored (world card))
  /\ (failsAt env (tick (world page)) = false ->
      ProfilePage.isFollowing (view page') = stored (world page))
  /\ (failsAt env (tick (world card)) = true ->
      UserCard.isFollowing (view card') = UserCard.isFollowing (view card)).
Proof.
  assert (Hstored : forall q fs,
             (forall d, matches q d
                        = (String.eqb (f_followerId (doc_data d))
                                      (Auth.uid cu)
                           && String.eqb (f_followingId (doc_data d))
                                         (UserCard.uid user))) ->
             q_orderByDesc q = None -> q_limit q = None ->
             negb match run_query q fs with [] => true | _ :: _ => false end
             = existsb (fun d => String.eqb (f_followerId (doc_data d))
                                            (Auth.uid cu)
                                 && String.eqb (f_followingId (doc_data d))
                                               (UserCard.uid user)) fs).
  { intros q fs Hm Ho Hl. unfold run_query. rewrite Ho, Hl.
    assert (Hsame : forall l : list (Doc FollowData),
               match sort_id l with [] => true | _ :: _ => false end
               = match l with [] => true | _ :: _ => false end).
    { intros [|x l]; [reflexivity|].
      destruct (sort_id (x :: l)) eqn:E; [|reflexivity].
      apply (proj1 (sort_id_nil _)) in E. discriminate E. }
    rewrite Hsame.
    induction fs as [|d fs IH]; simpl; [reflexivity|].
    rewrite Hm. destruct (_ && _); [reflexivity|exact IH]. }
  destruct card as [[ps ls fs us rs t cs log] [following busy]].
  destruct page as [[ps' ls' fs' us' rs' t' cs' log'] [listed busy' flag]].
  unfold UserCard.checkFollowStatus, ProfilePage.checkFollowStatus. xnorm.
  destruct (failsAt env t), (failsAt env t'); xnorm; repeat split;
    try (intros H; discriminate H); intros _;
    apply Hstored; try reflexivity;
    intros d; unfold matches; simpl; now rewrite andb_true_r.
Qed.

Lemma follow_status_agrees_witness :
  let bob := UserCard.mkProps "bob" "bob" "bob" false 0 in
  UserCard.isFollowing
    (view (exec (UserCard.checkFollowStatus calmEnv (Some alice) bob)
                (mkSt sampleWorld UserCard.init))) = true
  /\ ProfilePage.isFollowing
       (view (exec (ProfilePage.checkFollowStatus calmEnv (Some alice) "bob")
                   (mkSt sampleWorld (ProfilePage.mkState [] true false))))
     = true.
Proof.
  destruct (follow_status_agrees calmEnv alice
              (UserCard.mkProps "bob" "bob" "bob" false 0)
              (mkSt sampleWorld UserCard.init)
              (mkSt sampleWorld (ProfilePage.mkState [] true false)))
    as (_ & _ & Hcard & Hpage & _).
  split; [exact (Hcard eq_refl)|exact (Hpage eq_refl)].
Defined.
